(** * Baseball_Project: the union combiner and the warehouse build

    A shallow embedding of [1.3_Transform.py] (combine_tables_with_union)
    and [1.4_InitializeDW.py] (class BaseballDataWarehouse) together with
    the part of SQLite and of Python's [datetime] that these two files use.

    Modelling choices.
    - A database is a finite map from table names to tables.  A table has
      its column names, an optional PRIMARY KEY column, its rows and the
      indexes created on it.
    - A stored value is NULL, an INTEGER or a TEXT.  REAL and BLOB values
      are outside the model; columns carry no type affinity, so values are
      compared by storage class (INTEGER before TEXT) and then by value.
    - Identifiers are matched exactly; strings are byte strings (ASCII).
    - Every SQL statement of the source is one definition below; the SQL
      text is quoted next to it.
    - [print] is modelled by appending an event to the output.
    - A date is its proleptic Gregorian ordinal ([date.toordinal()]). *)

From Stdlib Require Import ZArith String Ascii List Lia.
From stdpp Require Import base option list strings gmap fin_maps pretty.

Set Warnings "-clear-no-such-hyp".

Local Open Scope string_scope.
Local Open Scope Z_scope.

(** ** Values and SQL comparison *)

Inductive value : Type :=
| VNull
| VInt (z : Z)
| VText (s : string).

#[global] Instance value_eq_dec : EqDecision value.
Proof. solve_decision. Defined.

Abbreviation row := (list value).

(** Three-valued comparison: [None] is SQL's unknown (an operand is NULL).
    Two integers compare as numbers and two texts byte by byte, whatever
    the columns they come from.  An integer and a text are compared as
    SQLite compares them when no affinity applies (every number is below
    every text); with typed columns SQLite first converts one operand, so
    the properties of comparisons are stated for operands of one storage
    class.  REAL values are outside the model. *)
Definition sql_compare (a b : value) : option comparison :=
  match a, b with
  | VNull, _ => None
  | _, VNull => None
  | VInt x, VInt y => Some (Z.compare x y)
  | VInt _, VText _ => Some Lt
  | VText _, VInt _ => Some Gt
  | VText s, VText t => Some (String.compare s t)
  end.

Inductive cmp_op : Type := OpGt | OpEq.

(** [a > b] and [a = b] as SQL conditions. *)
Definition sql_test (op : cmp_op) (a b : value) : option bool :=
  match sql_compare a b, op with
  | None, _ => None
  | Some Gt, OpGt => Some true
  | Some _, OpGt => Some false
  | Some Eq, OpEq => Some true
  | Some _, OpEq => Some false
  end.

(** A WHEN or ON condition holds only when it is true (unknown does not). *)
Definition holds (c : option bool) : bool :=
  match c with
  | Some true => true
  | _ => false
  end.

(** Text of a value as used by the [||] operator. *)
Definition sql_text (v : value) : option string :=
  match v with
  | VNull => None
  | VInt z => Some (pretty z)
  | VText s => Some s
  end.

Definition sql_concat (a b : value) : value :=
  match sql_text a, sql_text b with
  | Some s, Some t => VText (s +:+ t)
  | _, _ => VNull
  end.

(** MIN() and MAX() skip NULL and give NULL when nothing is left. *)
Definition sql_lt (a b : value) : bool :=
  match sql_compare a b with
  | Some Lt => true
  | _ => false
  end.

Definition sql_min2 (acc v : value) : value :=
  match v, acc with
  | VNull, _ => acc
  | _, VNull => v
  | _, _ => if sql_lt v acc then v else acc
  end.

Definition sql_max2 (acc v : value) : value :=
  match v, acc with
  | VNull, _ => acc
  | _, VNull => v
  | _, _ => if sql_lt acc v then v else acc
  end.

Definition sql_min (vs : list value) : value := foldl sql_min2 VNull vs.
Definition sql_max (vs : list value) : value := foldl sql_max2 VNull vs.

(** ** Tables, relations and the database *)

Record table : Type := Table {
  cols : list string;
  pkey : option string;
  rows : list row;
  indexes : gmap string string
}.

#[global] Instance table_eq_dec : EqDecision table.
Proof. solve_decision. Defined.

(** The result of a SELECT. *)
Record relation : Type := Relation {
  rcols : list string;
  rrows : list row
}.

Abbreviation db := (gmap string table).

(** What [CREATE TABLE name AS SELECT ...] stores: the rows of the SELECT
    as they are.  SQLite gives each new column the affinity of the
    expression it is selected from and converts the stored values to it;
    this changes nothing when every value of the column is stable under
    that affinity (see [stable_value] and [int_or_null] below), which is
    what the properties about stored rows are stated for. *)
Definition materialize (q : relation) : table :=
  {| cols := rcols q; pkey := None; rows := rrows q; indexes := ∅ |}.

(** ** SQL expressions *)

Inductive expr : Type :=
| Col (c : string)
| QCol (a c : string)
| Lit (v : value)
| Concat (e1 e2 : expr)
| Case (op : cmp_op) (a b : expr) (e1 e2 : expr).

(** A scope lists the sources of a FROM clause: alias and columns; a row of
    the scope is the concatenation of one row of each source. *)
Definition scope : Type := list (string * list string).

Fixpoint index_of (c : string) (cs : list string) : option nat :=
  match cs with
  | [] => None
  | x :: cs' => if decide (x = c) then Some 0%nat else S <$> index_of c cs'
  end.

Fixpoint resolve_qualified (sc : scope) (a c : string) : option nat :=
  match sc with
  | [] => None
  | (a', cs) :: sc' =>
      if decide (a' = a) then index_of c cs
      else (λ i, length cs + i)%nat <$> resolve_qualified sc' a c
  end.

(** An unqualified column must be found in exactly one source. *)
Fixpoint resolve_all (sc : scope) (c : string) : list nat :=
  match sc with
  | [] => []
  | (_, cs) :: sc' =>
      (match index_of c cs with
      | Some i => [i]
      | None => []
      end ++ ((λ i, length cs + i)%nat <$> resolve_all sc' c))%list
  end.

Definition resolve (sc : scope) (c : string) : option nat :=
  match resolve_all sc c with
  | [i] => Some i
  | _ => None
  end.

Definition field (i : nat) (r : row) : value := default VNull (r !! i).

(** [compile sc e] is [None] when a column of [e] does not resolve: the
    statement is then rejected whatever the rows are. *)
Fixpoint compile (sc : scope) (e : expr) : option (row → value) :=
  match e with
  | Col c => field <$> resolve sc c
  | QCol a c => field <$> resolve_qualified sc a c
  | Lit v => Some (λ _, v)
  | Concat e1 e2 =>
      f1 ← compile sc e1; f2 ← compile sc e2;
      Some (λ r, sql_concat (f1 r) (f2 r))
  | Case op a b e1 e2 =>
      fa ← compile sc a; fb ← compile sc b;
      f1 ← compile sc e1; f2 ← compile sc e2;
      Some (λ r, if holds (sql_test op (fa r) (fb r)) then f1 r else f2 r)
  end.

Fixpoint compile_all (sc : scope) (es : list expr) : option (list (row → value)) :=
  match es with
  | [] => Some []
  | e :: es' => f ← compile sc e; fs ← compile_all sc es'; Some (f :: fs)
  end.

Definition project (fs : list (row → value)) (r : row) : row := (λ f, f r) <$> fs.

(** [SELECT e1 AS c1, ... FROM src alias]. *)
Definition select_from (items : list (string * expr)) (src alias : string)
    (d : db) : option relation :=
  t ← d !! src;
  fs ← compile_all [(alias, cols t)] (items.*2);
  Some {| rcols := items.*1; rrows := project fs <$> rows t |}.

(** [SELECT e1 AS c1, ... FROM t1 a1 JOIN t2 a2 ON a1.k = a2.k]. *)
Definition select_join (items : list (string * expr))
    (t1 a1 t2 a2 : string) (on1 on2 : expr) (d : db) : option relation :=
  x1 ← d !! t1;
  x2 ← d !! t2;
  let sc := [(a1, cols x1); (a2, cols x2)] in
  f1 ← compile sc on1;
  f2 ← compile sc on2;
  fs ← compile_all sc (items.*2);
  let pairs := r1 ← rows x1; r2 ← rows x2; [(r1 ++ r2)%list] in
  let kept := filter (λ r, holds (sql_test OpEq (f1 r) (f2 r)) = true) pairs in
  Some {| rcols := items.*1; rrows := project fs <$> kept |}.

(** [SELECT DISTINCT ...] and [UNION] keep one copy of each row; rows are
    compared value by value, without any conversion. *)
Definition distinct (q : relation) : relation :=
  {| rcols := rcols q; rrows := remove_dups (rrows q) |}.

(** [q1 UNION q2]: the operands must have the same number of columns; the
    column names are those of the left operand. *)
Definition union (q1 q2 : option relation) : option relation :=
  a ← q1; b ← q2;
  if decide (length (rcols a) = length (rcols b))
  then Some {| rcols := rcols a; rrows := remove_dups (rrows a ++ rrows b)%list |}
  else None.

(** [q1 UNION ALL q2] keeps every row of both operands. *)
Definition union_all (q1 q2 : option relation) : option relation :=
  a ← q1; b ← q2;
  if decide (length (rcols a) = length (rcols b))
  then Some {| rcols := rcols a; rrows := (rrows a ++ rrows b)%list |}
  else None.

(** [SELECT DISTINCT c AS c' FROM (subquery)]. *)
Definition select_distinct_sub (c' c : string) (q : option relation)
  : option relation :=
  a ← q;
  f ← compile [("", rcols a)] (Col c);
  Some (distinct {| rcols := [c']; rrows := (λ r, [f r]) <$> rrows a |}).

(** [SELECT MIN(c) FROM src] and [SELECT MAX(c) FROM src]: one row. *)
Definition column_values (c src : string) (d : db) : option (list value) :=
  t ← d !! src;
  f ← compile [(src, cols t)] (Col c);
  Some (f <$> rows t).

Definition select_min (c src : string) (d : db) : option (list row) :=
  vs ← column_values c src d; Some [[sql_min vs]].

Definition select_max (c src : string) (d : db) : option (list row) :=
  vs ← column_values c src d; Some [[sql_max vs]].

(** [SELECT name FROM sqlite_master WHERE type='table' AND name=?]. *)
Definition select_master (name : string) (d : db) : list row :=
  match d !! name with
  | Some _ => [[VText name]]
  | None => []
  end.

(** [SELECT COUNT( * ) FROM name]. *)
Definition select_count (name : string) (d : db) : option (list row) :=
  t ← d !! name; Some [[VInt (Z.of_nat (length (rows t)))]].

(** ** Python exceptions *)

Inductive exn : Type := ValueError | TypeError | OverflowError | SqliteError.

#[global] Instance exn_eq_dec : EqDecision exn.
Proof. solve_decision. Defined.

Inductive outcome (A : Type) : Type :=
| Ok (a : A)
| Raise (e : exn).
Arguments Ok {A} a.
Arguments Raise {A} e.

(** ** Calendar arithmetic of [datetime.date]

    A date is represented by its ordinal: 1 is 0001-01-01 and
    [MAXORDINAL] is 9999-12-31. *)

Definition MAXORDINAL : Z := 3652059.
Definition DI400Y : Z := 146097.
Definition DI100Y : Z := 36524.
Definition DI4Y : Z := 1461.

Definition DAYS_IN_MONTH (month : Z) : Z :=
  nth (Z.to_nat month) [-1; 31; 28; 31; 30; 31; 30; 31; 31; 30; 31; 30; 31] 0.

Definition DAYS_BEFORE_MONTH (month : Z) : Z :=
  nth (Z.to_nat month) [-1; 0; 31; 59; 90; 120; 151; 181; 212; 243; 273; 304; 334] 0.

Definition is_leap (year : Z) : bool :=
  (year mod 4 =? 0) && (negb (year mod 100 =? 0) || (year mod 400 =? 0)).

Definition days_before_year (year : Z) : Z :=
  let y := year - 1 in y * 365 + y / 4 - y / 100 + y / 400.

Definition days_in_month (year month : Z) : Z :=
  if (month =? 2) && is_leap year then 29 else DAYS_IN_MONTH month.

Definition days_before_month (year month : Z) : Z :=
  DAYS_BEFORE_MONTH month + (if (2 <? month) && is_leap year then 1 else 0).

Definition ymd2ord (year month day : Z) : Z :=
  days_before_year year + days_before_month year month + day.

Definition ord2ymd (ordinal : Z) : Z * Z * Z :=
  let n := ordinal - 1 in
  let n400 := n / DI400Y in
  let n := n mod DI400Y in
  let year := n400 * 400 + 1 in
  let n100 := n / DI100Y in
  let n := n mod DI100Y in
  let n4 := n / DI4Y in
  let n := n mod DI4Y in
  let n1 := n / 365 in
  let n := n mod 365 in
  let year := year + n100 * 100 + n4 * 4 + n1 in
  if (n1 =? 4) || (n100 =? 4) then (year - 1, 12, 31)
  else
    let leapyear := (n1 =? 3) && (negb (n4 =? 24) || (n100 =? 3)) in
    let month := Z.shiftr (n + 50) 5 in
    let preceding :=
      DAYS_BEFORE_MONTH month + (if (2 <? month) && leapyear then 1 else 0) in
    if n <? preceding then
      let month := month - 1 in
      let preceding :=
        preceding
        - (DAYS_IN_MONTH month + (if (month =? 2) && leapyear then 1 else 0)) in
      (year, month, n - preceding + 1)
    else (year, month, n - preceding + 1).

Definition date_year (d : Z) : Z := (ord2ymd d).1.1.
Definition date_month (d : Z) : Z := (ord2ymd d).1.2.
Definition date_day (d : Z) : Z := (ord2ymd d).2.

(** [date.weekday()]: Monday is 0, Sunday is 6. *)
Definition weekday (d : Z) : Z := (d + 6) mod 7.

Definition isoweek1monday (year : Z) : Z :=
  let firstday := ymd2ord year 1 1 in
  let firstweekday := (firstday + 6) mod 7 in
  let week1monday := firstday - firstweekday in
  if 3 <? firstweekday then week1monday + 7 else week1monday.

(** [date.isocalendar()[1]]. *)
Definition isoweek (d : Z) : Z :=
  let year := date_year d in
  let week1monday := isoweek1monday year in
  let today := ymd2ord (date_year d) (date_month d) (date_day d) in
  let week := (today - week1monday) / 7 in
  if week <? 0 then (today - isoweek1monday (year - 1)) / 7 + 1
  else if 52 <=? week then
    if isoweek1monday (year + 1) <=? today then 1 else week + 1
  else week + 1.

(** [date(year, month, day)]. *)
Definition make_date (year month day : Z) : outcome Z :=
  if (1 <=? year) && (year <=? 9999) && (1 <=? month) && (month <=? 12)
     && (1 <=? day) && (day <=? days_in_month year month)
  then Ok (ymd2ord year month day)
  else Raise ValueError.

(** [d + timedelta(days=1)]. *)
Definition next_day (d : Z) : outcome Z :=
  if (0 <? d + 1) && (d + 1 <=? MAXORDINAL) then Ok (d + 1) else Raise OverflowError.

(** *** [strftime("%Y-%m-%d")] and [strptime(s, "%Y-%m-%d")] *)

Definition digit_char (k : Z) : ascii := ascii_of_N (48 + Z.to_N k).

Definition char_digit (c : ascii) : option Z :=
  let n := N_of_ascii c in
  if ((48 <=? n) && (n <=? 57))%N then Some (Z.of_N n - 48) else None.

Definition strftime (d : Z) : string :=
  let '(y, m, dd) := ord2ymd d in
  String (digit_char (y / 1000))
    (String (digit_char (y / 100 mod 10))
      (String (digit_char (y / 10 mod 10))
        (String (digit_char (y mod 10))
          (String "-"
            (String (digit_char (m / 10))
              (String (digit_char (m mod 10))
                (String "-"
                  (String (digit_char (dd / 10))
                    (String (digit_char (dd mod 10)) ""))))))))).

Definition in_range (lo hi : Z) (c : ascii) : option Z :=
  match char_digit c with
  | Some k => if (lo <=? k) && (k <=? hi) then Some k else None
  | None => None
  end.

(** The directive [%Y] is the pattern [\d\d\d\d]. *)
Definition parse_year (s : string) : option (Z * string) :=
  match s with
  | String a (String b (String c (String d r))) =>
      match char_digit a, char_digit b, char_digit c, char_digit d with
      | Some x, Some y, Some z, Some w => Some (1000 * x + 100 * y + 10 * z + w, r)
      | _, _, _, _ => None
      end
  | _ => None
  end.

(** The directive [%m] is [1[0-2]|0[1-9]|[1-9]]; a dash must follow. *)
Definition parse_month (s : string) : option (Z * string) :=
  match s with
  | String a (String b (String "-" r)) =>
      match in_range 1 1 a, in_range 0 2 b with
      | Some _, Some k => Some (10 + k, r)
      | _, _ =>
          match in_range 0 0 a, in_range 1 9 b with
          | Some _, Some k => Some (k, r)
          | _, _ => None
          end
      end
  | String a (String "-" r) =>
      match in_range 1 9 a with
      | Some k => Some (k, r)
      | None => None
      end
  | _ => None
  end.

(** The directive [%d] is [3[01]|[12]\d|0[1-9]|[1-9]| [1-9]]; the first
    alternative that matches is taken. *)
Definition parse_day (s : string) : option (Z * string) :=
  let one :=
    match s with
    | String a r =>
        match in_range 1 9 a with
        | Some k => Some (k, r)
        | None =>
            match a, r with
            | " "%char, String b r' =>
                match in_range 1 9 b with
                | Some k => Some (k, r')
                | None => None
                end
            | _, _ => None
            end
        end
    | _ => None
    end in
  match s with
  | String a (String b r) =>
      match in_range 3 3 a, in_range 0 1 b with
      | Some _, Some k => Some (30 + k, r)
      | _, _ =>
          match in_range 1 2 a, in_range 0 9 b with
          | Some j, Some k => Some (10 * j + k, r)
          | _, _ =>
              match in_range 0 0 a, in_range 1 9 b with
              | Some _, Some k => Some (k, r)
              | _, _ => one
              end
          end
      end
  | _ => one
  end.

(** [datetime.strptime(s, "%Y-%m-%d").date()]: any failure is a
    ValueError. *)
Definition strptime (s : string) : outcome Z :=
  match parse_year s with
  | Some (y, String "-" r1) =>
      match parse_month r1 with
      | Some (m, r2) =>
          match parse_day r2 with
          | Some (dd, "") => make_date y m dd
          | _ => Raise ValueError
          end
      | None => Raise ValueError
      end
  | _ => Raise ValueError
  end.

(** ** The connection: database and printed output *)

Inductive event : Type :=
| Say (s : string)
| QueryError (sql : string)
| MissingTables (names : list string)
| UnsupportedDate (v : value)
| FactCreated (name : string) (n : value)
| TableCount (name : string) (n : value)
| CountFailed (name : string)
| Skipping (suffix : string)
| Combining (suffix : string) (year_tables : list string)
| BuildError (e : exn).

Record world : Type := World {
  wdb : db;
  wout : list event
}.

(** A computation runs on the connection and either returns, raises a
    Python exception, or runs out of fuel ([None]). *)
Definition M (A : Type) : Type := world → option (outcome A * world).

Definition ret {A} (a : A) : M A := λ w, Some (Ok a, w).

Definition raise {A} (e : exn) : M A := λ w, Some (Raise e, w).

Definition out_of_fuel {A} : M A := λ _, None.

Definition bind {A B} (m : M A) (k : A → M B) : M B :=
  λ w, match m w with
       | Some (Ok a, w') => k a w'
       | Some (Raise e, w') => Some (Raise e, w')
       | None => None
       end.

(** [try: m except Exception as e: h e]. *)
Definition try_except {A} (m : M A) (h : exn → M A) : M A :=
  λ w, match m w with
       | Some (Raise e, w') => h e w'
       | r => r
       end.

(** [try: m finally: f]. *)
Definition try_finally {A} (m : M A) (f : M unit) : M A :=
  λ w, match m w with
       | Some (r, w') =>
           match f w' with
           | Some (Ok _, w'') => Some (r, w'')
           | Some (Raise e, w'') => Some (Raise e, w'')
           | None => None
           end
       | None => None
       end.

Definition lift {A} (r : outcome A) : M A := λ w, Some (r, w).

Definition print (e : event) : M unit :=
  λ w, Some (Ok tt, {| wdb := wdb w; wout := (wout w ++ [e])%list |}).

Notation "'let*' x ':=' m 'in' k" := (bind m (λ x, k))
  (at level 10, x name, m at level 100, k at level 200).
Notation "m ';;' k" := (bind m (λ _, k))
  (at level 100, k at level 200, right associativity).

(** ** SQL statements

    A statement maps the database to the fetched rows and the new
    database; [None] is an [sqlite3.Error], which leaves the database as
    it was. *)

Definition stmt : Type := db → option (list row * db).

Definition query (q : db → option (list row)) : stmt :=
  λ d, rs ← q d; Some (rs, d).

(** [DROP TABLE IF EXISTS name]: the indexes of the table go with it.  The
    name is taken as it is written: SQLite would also drop a table whose
    name differs from [name] only in case, so what a drop leaves alone is
    stated for databases without such a table (see [case_clean]). *)
Definition drop_table_if_exists (name : string) : stmt :=
  λ d, Some ([], delete name d).

(** [CREATE TABLE name AS <select>]. *)
Definition create_table_as (name : string) (q : db → option relation) : stmt :=
  λ d, match d !! name with
       | Some _ => None
       | None => r ← q d; Some ([], <[name := materialize r]> d)
       end.

(** [CREATE TABLE name (c1 ..., k PRIMARY KEY, ...)]. *)
Definition create_table (name : string) (cs : list string) (k : option string)
  : stmt :=
  λ d, match d !! name with
       | Some _ => None
       | None =>
           Some ([], <[name := {| cols := cs; pkey := k; rows := [];
                                   indexes := ∅ |}]> d)
       end.

(** A row violates the primary key when its key is not NULL and is
    already present. *)
Definition pkey_conflict (t : table) (vals : row) : bool :=
  match pkey t with
  | Some k =>
      match index_of k (cols t) with
      | Some i =>
          bool_decide (field i vals ≠ VNull)
          && bool_decide (field i vals ∈ (field i <$> rows t))
      | None => false
      end
  | None => false
  end.

(** [INSERT INTO name VALUES (?, ..., ?)]. *)
Definition insert_values (name : string) (vals : row) : stmt :=
  λ d, t ← d !! name;
       if bool_decide (length vals = length (cols t)) && negb (pkey_conflict t vals)
       then Some ([], <[name := {| cols := cols t; pkey := pkey t;
                                    rows := (rows t ++ [vals])%list;
                                    indexes := indexes t |}]> d)
       else None.

Definition index_exists (idx : string) (d : db) : bool :=
  bool_decide (map_Exists (λ _ t, is_Some (indexes t !! idx)) d).

(** [CREATE INDEX IF NOT EXISTS idx ON tbl(col)]. *)
Definition create_index_if_not_exists (idx tbl col : string) : stmt :=
  λ d, t ← d !! tbl;
       match d !! idx with
       | Some _ => None
       | None =>
           if index_exists idx d then Some ([], d)
           else
             _ ← index_of col (cols t);
             Some ([], <[tbl := {| cols := cols t; pkey := pkey t; rows := rows t;
                                   indexes := <[idx := col]> (indexes t) |}]> d)
       end.

(** ** 1.4_InitializeDW.py: class BaseballDataWarehouse *)

(** [execute_query(query, params, fetch)]: the statement is committed and
    its rows returned when [fetch] is set; an [sqlite3.Error] is printed
    and gives [None]. *)
Definition execute_query (sql : string) (s : stmt) (fetch : bool)
  : M (option (list row)) :=
  λ w, match s (wdb w) with
       | Some (rs, d') =>
           Some (Ok (if fetch then Some rs else None),
                 {| wdb := d'; wout := wout w |})
       | None =>
           Some (Ok None, {| wdb := wdb w; wout := (wout w ++ [QueryError sql])%list |})
       end.

(** Python's [not result] for a fetched result. *)
Definition is_empty (result : option (list row)) : bool :=
  match result with
  | None => true
  | Some [] => true
  | Some _ => false
  end.

(** [result[0][0]]. *)
Definition first_cell (result : option (list row)) : value :=
  match result with
  | Some (r :: _) => field 0 r
  | _ => VNull
  end.

Definition required_tables : list string :=
  ["gameinfo"; "batting"; "pitching"; "allplayers"; "teamstats"; "fielding"].

Fixpoint find_missing (tables missing : list string) : M (list string) :=
  match tables with
  | [] => ret missing
  | table :: rest =>
      let* result := execute_query
        "SELECT name FROM sqlite_master WHERE type='table' AND name=?;"
        (query (λ d, Some (select_master table d))) true in
      if is_empty result then find_missing rest (missing ++ [table])%list
      else find_missing rest missing
  end.

Definition _verify_source_tables : M bool :=
  let* missing_tables := find_missing required_tables [] in
  match missing_tables with
  | [] => ret true
  | _ => print (MissingTables missing_tables);; ret false
  end.

(** The SELECT lists of the CREATE TABLE ... AS statements. *)

Definition one : expr := Lit (VInt 1).
Definition zero : expr := Lit (VInt 0).

(** [CASE WHEN e = 1 THEN 1 ELSE 0 END]. *)
Definition flag (e : expr) : expr := Case OpEq e one one zero.

Definition DimPlayer_items : list (string * expr) :=
  [("player_id", Col "id");
   ("player_name", Concat (Concat (Col "first") (Lit (VText " "))) (Col "last"));
   ("first_name", Col "first");
   ("last_name", Col "last");
   ("batting_hand", Col "bat");
   ("throwing_hand", Col "throw")].

Definition DimPlayer_select (d : db) : option relation :=
  distinct <$> select_from DimPlayer_items "allplayers" "allplayers" d.

Definition team_column (c src : string) (d : db) : option relation :=
  select_from [(c, Col c)] src src d.

Definition DimTeam_select (d : db) : option relation :=
  select_distinct_sub "team_id" "team"
    (union (union (union (union (union (union
       (team_column "team" "allplayers" d)
       (team_column "visteam" "gameinfo" d))
       (team_column "hometeam" "gameinfo" d))
       (team_column "team" "teamstats" d))
       (team_column "team" "batting" d))
       (team_column "team" "pitching" d))
       (team_column "team" "fielding" d)).

Definition DimGame_items : list (string * expr) :=
  [("game_id", Col "gid");
   ("game_date", Col "date");
   ("season", Col "season");
   ("ballpark", Col "site");
   ("gametype", Col "gametype");
   ("daynight", Col "daynight");
   ("usedh", Col "usedh");
   ("scheduled_innings", Col "innings");
   ("tiebreaker", Col "tiebreaker");
   ("home_team_bat_first", Col "htbf");
   ("game_duration_minutes", Col "timeofgame");
   ("attendance", Col "attendance");
   ("field_condition", Col "fieldcond");
   ("precipitation", Col "precip");
   ("sky_conditions", Col "sky");
   ("temperature", Col "temp");
   ("wind_direction", Col "winddir");
   ("wind_speed", Col "windspeed");
   ("forfeit", Col "forfeit");
   ("suspended", Col "suspend");
   ("visitor_runs", Col "vruns");
   ("home_runs", Col "hruns");
   ("winning_team", Col "wteam");
   ("losing_team", Col "lteam");
   ("visiting_team_id", Col "visteam");
   ("home_team_id", Col "hometeam")].

Definition DimGame_select (d : db) : option relation :=
  select_from DimGame_items "gameinfo" "gameinfo" d.

Definition DimDate_columns : list string :=
  ["date_id"; "date"; "year"; "month"; "day"; "day_of_week"; "week_of_year";
   "season_period"].

Definition FactBatting_items : list (string * expr) :=
  [("game_id", QCol "b" "gid");
   ("player_id", QCol "b" "id");
   ("team_id", QCol "b" "team");
   ("game_date", QCol "g" "date");
   ("plate_appearances", QCol "b" "b_pa");
   ("at_bats", QCol "b" "b_ab");
   ("runs", QCol "b" "b_r");
   ("hits", QCol "b" "b_h");
   ("doubles", QCol "b" "b_d");
   ("triples", QCol "b" "b_t");
   ("home_runs", QCol "b" "b_hr");
   ("rbi", QCol "b" "b_rbi");
   ("sacrifice_hits", QCol "b" "b_sh");
   ("sacrifice_flies", QCol "b" "b_sf");
   ("hit_by_pitch", QCol "b" "b_hbp");
   ("walks", QCol "b" "b_w");
   ("intentional_walks", QCol "b" "b_iw");
   ("strikeouts", QCol "b" "b_k");
   ("stolen_bases", QCol "b" "b_sb");
   ("caught_stealing", QCol "b" "b_cs");
   ("grounded_into_double_plays", QCol "b" "b_gdp");
   ("catcher_interference", QCol "b" "b_xi");
   ("reached_on_error", QCol "b" "b_roe");
   ("is_dh", flag (QCol "b" "dh"));
   ("is_pinch_hitter", flag (QCol "b" "ph"));
   ("is_pinch_runner", flag (QCol "b" "pr"))].

Definition FactBatting_select (d : db) : option relation :=
  select_join FactBatting_items "batting" "b" "gameinfo" "g"
    (QCol "b" "gid") (QCol "g" "gid") d.

Definition FactPitching_items : list (string * expr) :=
  [("game_id", QCol "p" "gid");
   ("player_id", QCol "p" "id");
   ("team_id", QCol "p" "team");
   ("game_date", QCol "g" "date");
   ("outs_recorded", QCol "p" "p_ipouts");
   ("batters_faced", QCol "p" "p_bfp");
   ("hits_allowed", QCol "p" "p_h");
   ("runs_allowed", QCol "p" "p_r");
   ("earned_runs", QCol "p" "p_er");
   ("walks_allowed", QCol "p" "p_w");
   ("intentional_walks_allowed", QCol "p" "p_iw");
   ("strikeouts", QCol "p" "p_k");
   ("hit_batters", QCol "p" "p_hbp");
   ("wild_pitches", QCol "p" "p_wp");
   ("balks", QCol "p" "p_bk");
   ("sacrifice_hits_allowed", QCol "p" "p_sh");
   ("sacrifice_flies_allowed", QCol "p" "p_sf");
   ("home_runs_allowed", QCol "p" "p_hr");
   ("is_winning_pitcher", flag (QCol "p" "wp"));
   ("is_losing_pitcher", flag (QCol "p" "lp"));
   ("is_save", flag (QCol "p" "save"))].

Definition FactPitching_select (d : db) : option relation :=
  select_join FactPitching_items "pitching" "p" "gameinfo" "g"
    (QCol "p" "gid") (QCol "g" "gid") d.

Definition FactGameOutcomes_items : list (string * expr) :=
  [("game_id", QCol "g" "gid");
   ("game_date", QCol "g" "date");
   ("season", QCol "g" "season");
   ("visiting_team_id", QCol "g" "visteam");
   ("home_team_id", QCol "g" "hometeam");
   ("visiting_runs", QCol "g" "vruns");
   ("home_runs", QCol "g" "hruns");
   ("visiting_win", Case OpGt (QCol "g" "vruns") (QCol "g" "hruns") one zero);
   ("home_win", Case OpGt (QCol "g" "hruns") (QCol "g" "vruns") one zero);
   ("tie", Case OpEq (QCol "g" "vruns") (QCol "g" "hruns") one zero);
   ("game_duration_minutes", QCol "g" "timeofgame");
   ("attendance", QCol "g" "attendance")].

Definition FactGameOutcomes_select (d : db) : option relation :=
  select_from FactGameOutcomes_items "gameinfo" "g" d.

(** A Python int that fits the 64-bit INTEGER of SQLite. *)
Definition int64 (z : Z) : bool :=
  (-9223372036854775808 <=? z) && (z <=? 9223372036854775807).

Section Warehouse.

(** [datetime.fromtimestamp(t).date()] depends on the local time zone of
    the machine and is a parameter of the model. *)
Variable fromtimestamp : Z → outcome Z.

(** The aggregate SELECT statements of the two read queries use SUM, AVG,
    ROUND, LIKE and strftime and return REAL values; they are parameters:
    the filters and the database give the fetched rows, or [None] for an
    [sqlite3.Error]. *)
Variable player_stats_select : option string → option Z → Z → db → option (list row).
Variable team_performance_select : string → option Z → db → option (list row).

Definition fromtimestamp_value (v : value) : M Z :=
  match v with
  | VInt t => lift (fromtimestamp t)
  | _ => raise TypeError
  end.

Definition strptime_value (v : value) : M Z :=
  match v with
  | VText s => lift (strptime s)
  | _ => raise TypeError
  end.

(** [except ValueError: print(f"Warning: Unsupported date format: {min_date}"); return]. *)
Definition except_ValueError {A} (min_date : value) (e : exn) : M (option A) :=
  match e with
  | ValueError => print (UnsupportedDate min_date);; ret None
  | _ => raise e
  end.

(** The [try] block of the DimDate section: [Some (min_date, max_date)]
    when it completes, [None] when the handler returned. *)
Definition date_formats (min_date max_date : value) : M (option (value * value)) :=
  match min_date with
  | VInt _ =>
      let* r := try_except
        (let* a := fromtimestamp_value min_date in ret (Some a))
        (except_ValueError min_date) in
      match r with
      | None => ret None
      | Some a =>
          let min_date := VText (strftime a) in
          try_except
            (let* b := fromtimestamp_value max_date in
             ret (Some (min_date, VText (strftime b))))
            (except_ValueError min_date)
      end
  | _ =>
      try_except
        (strptime_value min_date;; ret (Some (min_date, max_date)))
        (except_ValueError min_date)
  end.

Definition season_period (month : Z) : string :=
  if (3 <=? month) && (month <=? 10) then "Regular" else "Offseason".

Definition DimDate_row (current_date : Z) : row :=
  let date_str := strftime current_date in
  [VText date_str; VText date_str;
   VInt (date_year current_date);
   VInt (date_month current_date);
   VInt (date_day current_date);
   VInt (weekday current_date);
   VInt (isoweek current_date);
   VText (season_period (date_month current_date))].

(** [while current_date <= end_date: INSERT ...; current_date += timedelta(days=1)]. *)
Fixpoint insert_dates (fuel : nat) (current_date end_date : Z) : M unit :=
  match fuel with
  | O => out_of_fuel
  | S fuel' =>
      if current_date <=? end_date then
        execute_query "INSERT INTO DimDate VALUES (?, ?, ?, ?, ?, ?, ?, ?)"
          (insert_values "DimDate" (DimDate_row current_date)) false;;
        let* next := lift (next_day current_date) in
        insert_dates fuel' next end_date
      else ret tt
  end.

(** The DimDate part of [_create_dimension_tables] (from
    [print("Creating DimDate...")] to the end of the method). *)
Definition create_DimDate (fuel : nat) : M unit :=
  print (Say "Creating DimDate...");;
  let* min_date_result := execute_query "SELECT MIN(date) FROM gameinfo;"
    (query (select_min "date" "gameinfo")) true in
  let* max_date_result := execute_query "SELECT MAX(date) FROM gameinfo;"
    (query (select_max "date" "gameinfo")) true in
  if is_empty min_date_result || is_empty max_date_result then
    print (Say "Warning: Could not determine date range for DimDate")
  else
    let* formats := date_formats (first_cell min_date_result)
                                 (first_cell max_date_result) in
    match formats with
    | None => ret tt
    | Some (min_date, max_date) =>
        execute_query "CREATE TABLE DimDate (date_id TEXT PRIMARY KEY, ...);"
          (create_table "DimDate" DimDate_columns (Some "date_id")) false;;
        let* current_date := strptime_value min_date in
        let* end_date := strptime_value max_date in
        insert_dates fuel current_date end_date;;
        print (Say "Created all dimension tables")
    end.

Definition _create_dimension_tables (fuel : nat) : M unit :=
  print (Say "Creating dimension tables...");;
  execute_query "DROP TABLE IF EXISTS DimPlayer;" (drop_table_if_exists "DimPlayer") false;;
  execute_query "DROP TABLE IF EXISTS DimTeam;" (drop_table_if_exists "DimTeam") false;;
  execute_query "DROP TABLE IF EXISTS DimGame;" (drop_table_if_exists "DimGame") false;;
  execute_query "DROP TABLE IF EXISTS DimDate;" (drop_table_if_exists "DimDate") false;;
  print (Say "Creating DimPlayer...");;
  execute_query "CREATE TABLE DimPlayer AS SELECT DISTINCT ... FROM allplayers;"
    (create_table_as "DimPlayer" DimPlayer_select) false;;
  print (Say "Creating DimTeam...");;
  execute_query "CREATE TABLE DimTeam AS SELECT DISTINCT team AS team_id FROM (...);"
    (create_table_as "DimTeam" DimTeam_select) false;;
  print (Say "Creating DimGame...");;
  execute_query "CREATE TABLE DimGame AS SELECT ... FROM gameinfo;"
    (create_table_as "DimGame" DimGame_select) false;;
  create_DimDate fuel.

(** [result[0][0] if result else 0]. *)
Definition count_or_zero (result : option (list row)) : value :=
  if is_empty result then VInt 0 else first_cell result.

Definition _create_fact_tables : M unit :=
  print (Say "Creating fact tables...");;
  execute_query "DROP TABLE IF EXISTS FactBatting;" (drop_table_if_exists "FactBatting") false;;
  execute_query "DROP TABLE IF EXISTS FactPitching;" (drop_table_if_exists "FactPitching") false;;
  execute_query "DROP TABLE IF EXISTS FactGameOutcomes;"
    (drop_table_if_exists "FactGameOutcomes") false;;
  print (Say "Creating FactBatting...");;
  execute_query "CREATE TABLE FactBatting AS SELECT ... FROM batting b JOIN gameinfo g ON b.gid = g.gid;"
    (create_table_as "FactBatting" FactBatting_select) false;;
  let* result := execute_query "SELECT COUNT( * ) FROM FactBatting;"
    (query (select_count "FactBatting")) true in
  print (FactCreated "FactBatting" (count_or_zero result));;
  print (Say "Creating FactPitching...");;
  execute_query "CREATE TABLE FactPitching AS SELECT ... FROM pitching p JOIN gameinfo g ON p.gid = g.gid;"
    (create_table_as "FactPitching" FactPitching_select) false;;
  let* result := execute_query "SELECT COUNT( * ) FROM FactPitching;"
    (query (select_count "FactPitching")) true in
  print (FactCreated "FactPitching" (count_or_zero result));;
  print (Say "Creating FactGameOutcomes...");;
  execute_query "CREATE TABLE FactGameOutcomes AS SELECT ... FROM gameinfo g;"
    (create_table_as "FactGameOutcomes" FactGameOutcomes_select) false;;
  let* result := execute_query "SELECT COUNT( * ) FROM FactGameOutcomes;"
    (query (select_count "FactGameOutcomes")) true in
  print (FactCreated "FactGameOutcomes" (count_or_zero result));;
  print (Say "Created all fact tables").

Definition index_list : list (string * string * string) :=
  [("idx_player_id", "DimPlayer", "player_id");
   ("idx_team_id", "DimTeam", "team_id");
   ("idx_game_id", "DimGame", "game_id");
   ("idx_game_date", "DimGame", "game_date");
   ("idx_fact_batting_game", "FactBatting", "game_id");
   ("idx_fact_batting_player", "FactBatting", "player_id");
   ("idx_fact_pitching_game", "FactPitching", "game_id");
   ("idx_fact_pitching_player", "FactPitching", "player_id");
   ("idx_fact_outcomes_game", "FactGameOutcomes", "game_id")].

Fixpoint create_each_index (l : list (string * string * string)) : M unit :=
  match l with
  | [] => ret tt
  | (idx, tbl, col) :: rest =>
      execute_query
        ("CREATE INDEX IF NOT EXISTS " +:+ idx +:+ " ON " +:+ tbl +:+ "(" +:+ col +:+ ");")
        (create_index_if_not_exists idx tbl col) false;;
      create_each_index rest
  end.

Definition _create_indexes : M unit :=
  print (Say "Creating indexes...");;
  create_each_index index_list;;
  print (Say "Created indexes").

Definition warehouse_tables : list string :=
  ["DimPlayer"; "DimTeam"; "DimGame"; "DimDate";
   "FactBatting"; "FactPitching"; "FactGameOutcomes"].

Fixpoint count_each (tables : list string) : M unit :=
  match tables with
  | [] => ret tt
  | table :: rest =>
      let* count := execute_query ("SELECT COUNT( * ) FROM " +:+ table +:+ ";")
        (query (select_count table)) true in
      (if is_empty count then print (CountFailed table)
       else print (TableCount table (first_cell count)));;
      count_each rest
  end.

Definition _verify_table_counts : M unit :=
  print (Say "Verifying table counts:");;
  count_each warehouse_tables.

(** [build_data_warehouse]: the [try] body gives [false] when it leaves
    the method by [return]. *)
Definition build_data_warehouse (fuel : nat) : M unit :=
  print (Say "Starting data warehouse build...");;
  print (Say "Connected to database");;
  let* completed :=
    try_finally
      (try_except
         (let* verified := _verify_source_tables in
          if negb verified then
            print (Say "Aborting build due to missing source tables");;
            ret false
          else
            _create_dimension_tables fuel;;
            _create_fact_tables;;
            _create_indexes;;
            _verify_table_counts;;
            ret true)
         (λ e, print (BuildError e);; ret true))
      (print (Say "Database connection closed")) in
  if completed then print (Say "Data warehouse build completed") else ret tt.

(** Running the build on a database, with nothing printed yet. *)
Definition build (fuel : nat) (d : db) : option (outcome unit * world) :=
  build_data_warehouse fuel {| wdb := d; wout := [] |}.

(** The filters are bound as parameters of the statement: [season] as the
    text [str(season)] here and as an integer in
    [query_team_performance], [limit] as an integer.  Binding an integer
    that does not fit 64 bits raises OverflowError, which is no
    [sqlite3.Error] and so is not caught by [execute_query]. *)
Definition query_player_stats (player_name : option string) (season : option Z)
    (limit : Z) : M (list row) :=
  let* result := execute_query
    "SELECT name FROM sqlite_master WHERE type='table' AND name='FactBatting';"
    (query (λ d, Some (select_master "FactBatting" d))) true in
  if is_empty result then
    print (Say "Error: FactBatting table does not exist");;
    ret []
  else
    let* results :=
      if int64 limit then
        execute_query "SELECT p.player_name, ... LIMIT ?;"
          (query (player_stats_select player_name season limit)) true
      else raise OverflowError in
    if is_empty results then
      print (Say "No player stats found");;
      ret []
    else ret (default [] results).

Definition query_team_performance (team_id : string) (season : option Z)
  : M (option row) :=
  let* result := execute_query
    "SELECT name FROM sqlite_master WHERE type='table' AND name='FactGameOutcomes';"
    (query (λ d, Some (select_master "FactGameOutcomes" d))) true in
  if is_empty result then
    print (Say "Error: FactGameOutcomes table does not exist");;
    ret None
  else
    let* results :=
      if int64 (default 0 season) then
        execute_query "SELECT t.team_id, ... GROUP BY t.team_id;"
          (query (team_performance_select team_id season)) true
      else raise OverflowError in
    if is_empty results then ret None
    else ret (head (default [] results)).

End Warehouse.

(** ** 1.3_Transform.py: combine_tables_with_union *)

Definition is_digit (c : ascii) : bool :=
  match char_digit c with
  | Some _ => true
  | None => false
  end.

Definition is_newline (c : ascii) : bool := bool_decide (c = "010"%char).

(** The tail [.+$] of the pattern: at least one character, none of them a
    newline, up to the end of the string or to a final newline. *)
Fixpoint dotplus_eol (s : string) : bool :=
  match s with
  | EmptyString => false
  | String c r =>
      negb (is_newline c)
      && (bool_decide (r = "") || bool_decide (r = String "010" "") || dotplus_eol r)
  end.

(** [re.match(r'^\d{4}.+$', table)]. *)
Definition year_pattern (table : string) : bool :=
  match table with
  | String a (String b (String c (String d r))) =>
      is_digit a && is_digit b && is_digit c && is_digit d && dotplus_eol r
  | _ => false
  end.

(** [table[n:]] and [table[:n]]. *)
Fixpoint slice_from (n : nat) (s : string) : string :=
  match n, s with
  | O, _ => s
  | S n', String _ r => slice_from n' r
  | S _, EmptyString => EmptyString
  end.

Fixpoint slice_to (n : nat) (s : string) : string :=
  match n, s with
  | O, _ => EmptyString
  | S n', String c r => String c (slice_to n' r)
  | S _, EmptyString => EmptyString
  end.

(** The dict [suffix_groups], in insertion order. *)
Fixpoint dict_append (suffix table : string) (groups : list (string * list string))
  : list (string * list string) :=
  match groups with
  | [] => [(suffix, [table])]
  | (k, ts) :: rest =>
      if decide (k = suffix) then (k, (ts ++ [table])%list) :: rest
      else (k, ts) :: dict_append suffix table rest
  end.

Definition group_tables (tables : list string) : list (string * list string) :=
  foldl (λ groups table,
           if year_pattern table then dict_append (slice_from 4 table) table groups
           else groups)
        [] tables.

(** [SELECT name FROM sqlite_master WHERE type='table'], as the list
    [tables].  SQLite lists the tables in the order of their creation,
    which the database of the model does not record; the listing of the
    model has its own fixed order, and the properties of a whole run are
    stated without regard to it. *)
Definition table_names (d : db) : list string := (map_to_list d).*1.

(** The text [table[:4]] read as the integer literal it is spliced in as. *)
Definition source_year (table : string) : Z :=
  match parse_year (slice_to 4 table) with
  | Some (y, _) => y
  | None => 0
  end.

(** [PRAGMA table_info("table")], column names only. *)
Definition pragma_table_info (table : string) (d : db) : list string :=
  match d !! table with
  | Some t => cols t
  | None => []
  end.

(** [SELECT "c1", ..., "cn", year AS source_year FROM "table"]; with no
    column the text is not a SELECT statement. *)
Definition union_part (table : string) (columns : list string) (d : db)
  : option relation :=
  match columns with
  | [] => None
  | _ =>
      select_from
        (((λ c, (c, Col c)) <$> columns)
           ++ [("source_year", Lit (VInt (source_year table)))])%list
        table table d
  end.

(** [" UNION ALL ".join(union_parts)]. *)
Definition full_union (union_parts : list (db → option relation)) (d : db)
  : option relation :=
  match union_parts with
  | [] => None
  | p :: ps => foldl (λ acc q, union_all acc (q d)) (p d) ps
  end.

(** [cursor.execute(sql)]: an [sqlite3.Error] propagates. *)
Definition cursor_execute (s : stmt) : M (list row) :=
  λ w, match s (wdb w) with
       | Some (rs, d') => Some (Ok rs, {| wdb := d'; wout := wout w |})
       | None => Some (Raise SqliteError, w)
       end.

Fixpoint collect_parts (year_tables : list string)
    (union_parts : list (db → option relation))
  : M (list (db → option relation)) :=
  match year_tables with
  | [] => ret union_parts
  | table :: rest =>
      let* columns := (λ w, Some (Ok (pragma_table_info table (wdb w)), w)) in
      collect_parts rest (union_parts ++ [union_part table columns])%list
  end.

Definition combine_group (suffix : string) (year_tables : list string) : M unit :=
  if (length year_tables <? 2)%nat then print (Skipping suffix)
  else
    let combined_table := suffix in
    print (Combining combined_table year_tables);;
    cursor_execute (drop_table_if_exists combined_table);;
    let* union_parts := collect_parts year_tables [] in
    cursor_execute (create_table_as combined_table (full_union union_parts));;
    print (Say "Created combined table with all combined data");;
    let* total_rows := cursor_execute (query (select_count combined_table)) in
    print (TableCount combined_table (first_cell (Some total_rows))).

Fixpoint process_groups (groups : list (string * list string)) : M unit :=
  match groups with
  | [] => ret tt
  | (suffix, year_tables) :: rest =>
      combine_group suffix year_tables;;
      process_groups rest
  end.

Definition combine_tables_with_union : M unit :=
  let* tables := (λ w, Some (Ok (table_names (wdb w)), w)) in
  let suffix_groups := group_tables tables in
  process_groups suffix_groups;;
  print (Say "All tables processed successfully").

Definition combine (d : db) : option (outcome unit * world) :=
  combine_tables_with_union {| wdb := d; wout := [] |}.

(** ** Reading a table by column name *)

Definition cell (t : table) (c : string) (r : row) : value :=
  match index_of c (cols t) with
  | Some i => field i r
  | None => VNull
  end.

Definition column (t : table) (c : string) : list value := cell t c <$> rows t.

(** The effect of a statement run through [execute_query]. *)
Definition after (s : stmt) (d : db) : db :=
  match s d with
  | Some (_, d') => d'
  | None => d
  end.

Definition fetched (s : stmt) (fetch : bool) (d : db) : option (list row) :=
  match s d with
  | Some (rs, _) => if fetch then Some rs else None
  | None => None
  end.

Definition complaint (sql : string) (s : stmt) (d : db) : list event :=
  match s d with
  | Some _ => []
  | None => [QueryError sql]
  end.

(** The required tables that [_verify_source_tables] does not find. *)
Definition missing_tables (d : db) : list string :=
  filter (λ t, d !! t = None) required_tables.

(** The database after the statements of [_create_dimension_tables] that
    come before the DimDate part. *)
Definition static_dims_db (d : db) : db :=
  after (create_table_as "DimGame" DimGame_select)
    (after (create_table_as "DimTeam" DimTeam_select)
       (after (create_table_as "DimPlayer" DimPlayer_select)
          (delete "DimDate" (delete "DimGame" (delete "DimTeam" (delete "DimPlayer" d)))))).

(** The database after [_create_fact_tables]. *)
Definition facts_db (d : db) : db :=
  after (create_table_as "FactGameOutcomes" FactGameOutcomes_select)
    (after (create_table_as "FactPitching" FactPitching_select)
       (after (create_table_as "FactBatting" FactBatting_select)
          (delete "FactGameOutcomes" (delete "FactPitching" (delete "FactBatting" d))))).

(** ** Well-formed tables and the rows a constituent contributes *)

(** A stored table has at least one column, distinct column names, and
    rows with one value per column. *)
Definition table_wf (t : table) : Prop :=
  cols t ≠ [] ∧ NoDup (cols t) ∧ Forall (λ r, length r = length (cols t)) (rows t).

(** The rows of the year table [table], each followed by its source year. *)
Definition tagged_rows (d : db) (table : string) : list row :=
  match d !! table with
  | Some t => (λ r, r ++ [VInt (source_year table)])%list <$> rows t
  | None => []
  end.

Definition row_count (d : db) (table : string) : nat :=
  match d !! table with
  | Some t => length (rows t)
  | None => 0
  end.

Definition column_count (d : db) (table : string) : nat :=
  length (pragma_table_info table d).

(** Every member of every group is one of [names], has the year prefix
    and has the group's key as its suffix. *)
Definition groups_ok (names : list string) (groups : list (string * list string))
  : Prop :=
  ∀ sfx ts t, (sfx, ts) ∈ groups → t ∈ ts →
    year_pattern t = true ∧ slice_from 4 t = sfx ∧ t ∈ names.

(** The suffixes of the groups that are combined (two tables or more). *)
Definition combined_suffixes (groups : list (string * list string)) : list string :=
  (filter (λ g, 2 ≤ length g.2)%nat groups).*1.

(** What [_verify_table_counts] prints for one table. *)
Definition count_report (d : db) (table : string) : list event :=
  match d !! table with
  | Some t => [TableCount table (VInt (Z.of_nat (length (rows t))))]
  | None => [QueryError ("SELECT COUNT( * ) FROM " +:+ table +:+ ";"); CountFailed table]
  end.

(** The row [r] of the fact table [t] is the batting or pitching line
    [rb] of the table [b] (alias [a]) joined with the game [rg] of
    gameinfo: the selected columns are copied and each flag is 1 exactly
    when its source value is the integer 1. *)
Definition joined_row (items : list (string * expr)) (a : string)
    (t b g : table) (r rb rg : row) : Prop :=
  (∀ c' c, (c', QCol a c) ∈ items → cell t c' r = cell b c rb)
  ∧ (∀ c' c, (c', QCol "g" c) ∈ items → cell t c' r = cell g c rg)
  ∧ (∀ c' c, (c', flag (QCol a c)) ∈ items →
       cell t c' r = if decide (cell b c rb = VInt 1) then VInt 1 else VInt 0).

(** [keeps_contents d d']: the two databases have the same tables, each
    with the same columns, key and rows, and every index of [d] is an
    index of [d']. *)
Definition keeps_contents (d d' : db) : Prop :=
  ∀ n, match d !! n, d' !! n with
       | Some t, Some t' =>
           cols t' = cols t ∧ pkey t' = pkey t ∧ rows t' = rows t
           ∧ ∀ i c, indexes t !! i = Some c → indexes t' !! i = Some c
       | None, None => True
       | _, _ => False
       end.

(** ** Names and storage classes

    SQLite resolves table and index names without regard to ASCII case,
    and a column with a type affinity converts, when a value is stored or
    compared, a text that reads as a number into that number and (for a
    TEXT column) a number into its text.  The model keeps names as they
    are written and values as they are; the predicates below describe the
    databases on which this makes no difference, and the properties that
    depend on it are stated for them. *)

Definition lower_ascii (c : ascii) : ascii :=
  let n := N_of_ascii c in
  if ((65 <=? n) && (n <=? 90))%N then ascii_of_N (n + 32) else c.

Fixpoint lower (s : string) : string :=
  match s with
  | EmptyString => EmptyString
  | String c r => String (lower_ascii c) (lower r)
  end.

(** No table of [d] has a name that differs only in case from one of
    [names]: a statement that names one of them reaches that table only. *)
Definition case_clean (d : db) (names : list string) : Prop :=
  ∀ k n, is_Some (d !! k) → n ∈ names → lower k = lower n → k = n.

(** Letters, digits and the underscore, as the loader writes names. *)
Definition word_char (c : ascii) : bool :=
  let n := N_of_ascii c in
  ((48 <=? n) && (n <=? 57) || (65 <=? n) && (n <=? 90)
   || (97 <=? n) && (n <=? 122) || (n =? 95))%N.

Fixpoint all_chars (p : ascii → bool) (s : string) : bool :=
  match s with
  | EmptyString => true
  | String c r => p c && all_chars p r
  end.

(** A name that means itself between double quotes and is not reserved. *)
Definition plain_name (s : string) : bool :=
  negb (bool_decide (s = EmptyString)) && all_chars word_char s
  && negb (String.prefix "sqlite_" (lower s)).

(** The characters a numeric literal is made of: digits, sign, point,
    exponent mark and white space. *)
Definition numeric_char (c : ascii) : bool :=
  let n := N_of_ascii c in
  ((48 <=? n) && (n <=? 57) || (n =? 43) || (n =? 45) || (n =? 46)
   || (n =? 69) || (n =? 101) || (n =? 32) || (9 <=? n) && (n <=? 13))%N.

(** A text made of such characters only may read as a number. *)
Definition may_be_numeric (s : string) : bool := all_chars numeric_char s.

(** A value that is stored and compared as it is whatever the affinity of
    its column: NULL, or a text that cannot read as a number. *)
Definition stable_value (v : value) : Prop :=
  match v with
  | VNull => True
  | VInt _ => False
  | VText s => may_be_numeric s = false
  end.

Definition int_or_null (v : value) : Prop :=
  match v with
  | VNull | VInt _ => True
  | VText _ => False
  end.

Definition text_or_null (v : value) : Prop :=
  match v with
  | VNull | VText _ => True
  | VInt _ => False
  end.

(** Column [j] of the tables [ts] holds values that CREATE TABLE ... AS
    with UNION ALL stores as they are, whatever the declared types: they
    are all NULL or texts that cannot read as numbers, or they are all
    NULL or integers and every table holds at least one integer there (so
    that none of the columns has the text affinity). *)
Definition column_stable (d : db) (ts : list string) (j : nat) : Prop :=
  (∀ t T r, t ∈ ts → d !! t = Some T → r ∈ rows T → stable_value (field j r))
  ∨ (∀ t T, t ∈ ts → d !! t = Some T →
       (∀ r, r ∈ rows T → int_or_null (field j r))
       ∧ ∃ r x, r ∈ rows T ∧ field j r = VInt x).

(** The group [ts] of the suffix [sfx] can be combined: the suffix is a
    plain name without a year prefix, no index has its name, and the
    tables, at most 500 (the most terms SQLite takes in one compound
    SELECT), exist with plain column names, one value per column, the
    same number of columns, less than 2000, and stable columns. *)
Definition group_combinable (d : db) (sfx : string) (ts : list string) : Prop :=
  year_pattern sfx = false
  ∧ plain_name sfx = true
  ∧ (∀ k T i, d !! k = Some T → is_Some (indexes T !! i) → lower i ≠ lower sfx)
  ∧ (∀ t, t ∈ ts →
       ∃ T, d !! t = Some T ∧ table_wf T ∧ Forall (λ c, plain_name c = true) (cols T))
  ∧ (∀ t t', t ∈ ts → t' ∈ ts → column_count d t = column_count d t')
  ∧ (∀ j, column_stable d ts j)
  ∧ (length ts ≤ 500)%nat
  ∧ (∀ t, t ∈ ts → (column_count d t < 2000)%nat).

(** [case_clean], checked on the list of the tables. *)
Definition case_cleanb (tables names : list string) : bool :=
  forallb (λ k, forallb (λ n, implb (String.eqb (lower k) (lower n)) (String.eqb k n))
                        names) tables.

(** ** Checking a property on an initial segment of the integers *)

Fixpoint forall_from (n : nat) (z : Z) (p : Z → bool) : bool :=
  match n with
  | O => true
  | S k => p z && forall_from k (z + 1) p
  end.

(** What [ord2ymd] and [ymd2ord] must satisfy on day [r + 1] of the first
    400-year cycle. *)
Definition cycle_day_ok (r : Z) : bool :=
  let '(y, m, d) := ord2ymd (r + 1) in
  (1 <=? y) && (y <=? 400) && ((145731 <=? r) || (y <=? 399))
  && (1 <=? m) && (m <=? 12) && (1 <=? d) && (d <=? days_in_month y m)
  && (ymd2ord y m d =? r + 1).

(** The DimDate table holding the rows [rs]. *)
Definition DimDate_table (rs : list row) : table :=
  {| cols := DimDate_columns; pkey := Some "date_id"; rows := rs; indexes := ∅ |}.

(** The game dates [vmin] and [vmax] are valid and denote the dates
    [dmin] and [dmax]: both are ISO texts that [strptime] accepts, or both
    are integer timestamps that [fromtimestamp] converts. *)
Definition date_bounds (fromtimestamp : Z → outcome Z) (vmin vmax : value)
    (dmin dmax : Z) : Prop :=
  (∃ s1 s2, vmin = VText s1 ∧ vmax = VText s2
            ∧ strptime s1 = Ok dmin ∧ strptime s2 = Ok dmax)
  ∨ (∃ t1 t2, vmin = VInt t1 ∧ vmax = VInt t2
              ∧ fromtimestamp t1 = Ok dmin ∧ fromtimestamp t2 = Ok dmax
              ∧ 1 ≤ dmin ≤ MAXORDINAL ∧ 1 ≤ dmax ≤ MAXORDINAL).

(** ** Footprints

    [only_changes names d d']: the database [d'] differs from [d] at most
    on the tables listed in [names]. *)
Definition only_changes (names : list string) (d d' : db) : Prop :=
  ∀ n, n ∉ names → d' !! n = d !! n.

Definition modifies_only {A} (names : list string) (m : M A) : Prop :=
  ∀ w r w', m w = Some (r, w') → only_changes names (wdb w) (wdb w').

Definition stmt_modifies_only (names : list string) (s : stmt) : Prop :=
  ∀ d, only_changes names d (after s d).

(** [agree names d1 d2]: the two databases hold the same table, or none,
    under each name of [names]. *)
Definition agree (names : list string) (d1 d2 : db) : Prop :=
  ∀ n, n ∈ names → d1 !! n = d2 !! n.

(** Two runs end alike on the tables [names]: same outcome and the same
    tables under these names, or both out of fuel. *)
Definition same_result {A} (names : list string)
    (r1 r2 : option (outcome A * world)) : Prop :=
  match r1, r2 with
  | Some (o1, w1), Some (o2, w2) => o1 = o2 ∧ agree names (wdb w1) (wdb w2)
  | None, None => True
  | _, _ => False
  end.

(** The computation [m] reads and writes the tables [names] only. *)
Definition determined_by {A} (names : list string) (m : M A) : Prop :=
  ∀ w1 w2, agree names (wdb w1) (wdb w2) → same_result names (m w1) (m w2).

Definition stmt_determined_by (names : list string) (s : stmt) : Prop :=
  ∀ d1 d2, agree names d1 d2 →
    match s d1, s d2 with
    | Some (rs1, d1'), Some (rs2, d2') => rs1 = rs2 ∧ agree names d1' d2'
    | None, None => True
    | _, _ => False
    end.

(** The database after [_create_indexes]. *)
Definition indexes_db (d : db) : db :=
  foldl (λ d '(idx, tbl, col), after (create_index_if_not_exists idx tbl col) d)
        d index_list.

(** The database a build ends with, given how its dimension stage ended. *)
Definition db_after_dimensions (r : option (outcome unit * world)) : option db :=
  match r with
  | Some (Ok _, w) => Some (indexes_db (facts_db (wdb w)))
  | Some (Raise _, w) => Some (wdb w)
  | None => None
  end.

Definition dimension_tables : list string :=
  ["DimPlayer"; "DimTeam"; "DimGame"; "DimDate"].

Definition fact_tables : list string :=
  ["FactBatting"; "FactPitching"; "FactGameOutcomes"].

(** ** Sample databases *)

Definition sample_table (cs : list string) (rs : list row) : table :=
  {| cols := cs; pkey := None; rows := rs; indexes := ∅ |}.

(** Three games: a home win, a tie, and a game whose visiting runs are
    missing. *)
Definition sample_gameinfo : table :=
  sample_table
    ["gid"; "date"; "season"; "visteam"; "hometeam"; "vruns"; "hruns";
     "timeofgame"; "attendance"]
    [[VText "g1"; VText "2021-03-01"; VInt 2021; VText "BOS"; VText "NYA";
      VInt 3; VInt 5; VInt 180; VInt 30000];
     [VText "g2"; VText "2021-03-03"; VInt 2021; VText "NYA"; VText "BOS";
      VInt 4; VInt 4; VInt 200; VInt 25000];
     [VText "g3"; VText "2021-03-03"; VInt 2021; VText "CHN"; VText "BOS";
      VNull; VInt 2; VNull; VNull]].

(** A roster in which one player is listed with two batting hands. *)
Definition sample_allplayers : table :=
  sample_table
    ["id"; "last"; "first"; "bat"; "throw"; "team"]
    [[VText "doej001"; VText "Doe"; VText "Jo"; VText "R"; VText "R"; VText "BOS"];
     [VText "doej001"; VText "Doe"; VText "Jo"; VText "B"; VText "R"; VText "NYA"];
     [VText "roea001"; VText "Roe"; VText "Al"; VText "L"; VText "L"; VText "NYA"]].

Definition clean_allplayers : table :=
  sample_table
    ["id"; "last"; "first"; "bat"; "throw"; "team"]
    [[VText "doej001"; VText "Doe"; VText "Jo"; VText "R"; VText "R"; VText "BOS"];
     [VText "doej001"; VText "Doe"; VText "Jo"; VText "R"; VText "R"; VText "NYA"];
     [VText "roea001"; VText "Roe"; VText "Al"; VText "L"; VText "L"; VText "NYA"]].

Definition no_timestamp : Z → outcome Z := λ _, Raise OverflowError.

Definition roster_world : world :=
  {| wdb := {["allplayers" := sample_allplayers]}; wout := [] |}.

Definition roster_dims : option (outcome unit * world) :=
  Eval vm_compute in _create_dimension_tables no_timestamp 0 roster_world.

Definition roster_dims_world : world :=
  match roster_dims with
  | Some (_, w) => w
  | None => roster_world
  end.

Definition roster_DimPlayer : table :=
  default (sample_table [] []) (wdb roster_dims_world !! "DimPlayer").

Definition clean_roster_world : world :=
  {| wdb := {["allplayers" := clean_allplayers]}; wout := [] |}.

Definition clean_roster_dims : option (outcome unit * world) :=
  Eval vm_compute in _create_dimension_tables no_timestamp 0 clean_roster_world.

Definition clean_roster_dims_world : world :=
  match clean_roster_dims with
  | Some (_, w) => w
  | None => clean_roster_world
  end.

Definition clean_roster_DimPlayer : table :=
  default (sample_table [] []) (wdb clean_roster_dims_world !! "DimPlayer").

(** A complete source database: two games, 2021-03-01 (visitor 3, home 5)
    and 2021-03-03 (visitor 4, home 4). *)
Definition league_gameinfo : table :=
  sample_table
    ["gid"; "date"; "season"; "site"; "gametype"; "daynight"; "usedh";
     "innings"; "tiebreaker"; "htbf"; "timeofgame"; "attendance"; "fieldcond";
     "precip"; "sky"; "temp"; "winddir"; "windspeed"; "forfeit"; "suspend";
     "vruns"; "hruns"; "wteam"; "lteam"; "visteam"; "hometeam"]
    [[VText "NYA202103010"; VText "2021-03-01"; VInt 2021; VText "NYC21";
      VText "regular"; VText "day"; VInt 1; VInt 9; VNull; VInt 0; VInt 180;
      VInt 30000; VText "dry"; VText "none"; VText "sunny"; VInt 60;
      VText "tocf"; VInt 5; VNull; VNull; VInt 3; VInt 5; VText "NYA";
      VText "BOS"; VText "BOS"; VText "NYA"];
     [VText "BOS202103030"; VText "2021-03-03"; VInt 2021; VText "BOS07";
      VText "regular"; VText "night"; VInt 1; VInt 9; VNull; VInt 0; VInt 200;
      VInt 25000; VText "dry"; VText "none"; VText "cloudy"; VInt 55;
      VText "fromlf"; VInt 8; VNull; VNull; VInt 4; VInt 4; VNull;
      VNull; VText "NYA"; VText "BOS"]].

Definition league_batting : table :=
  sample_table
    ["gid"; "id"; "team"; "b_pa"; "b_ab"; "b_r"; "b_h"; "b_d"; "b_t"; "b_hr";
     "b_rbi"; "b_sh"; "b_sf"; "b_hbp"; "b_w"; "b_iw"; "b_k"; "b_sb"; "b_cs";
     "b_gdp"; "b_xi"; "b_roe"; "dh"; "ph"; "pr"]
    [[VText "NYA202103010"; VText "doej001"; VText "BOS"; VInt 4; VInt 4;
      VInt 1; VInt 2; VInt 1; VInt 0; VInt 0; VInt 1; VInt 0; VInt 0; VInt 0;
      VInt 0; VInt 0; VInt 1; VInt 0; VInt 0; VInt 0; VInt 0; VInt 0;
      VInt 1; VNull; VNull];
     [VText "BOS202103030"; VText "roea001"; VText "NYA"; VInt 5; VInt 4;
      VInt 2; VInt 3; VInt 0; VInt 0; VInt 1; VInt 3; VInt 0; VInt 0; VInt 0;
      VInt 1; VInt 0; VInt 0; VInt 1; VInt 0; VInt 0; VInt 0; VInt 0;
      VNull; VInt 1; VNull];
     [VText "CHN202104010"; VText "roea001"; VText "CHN"; VInt 1; VInt 1;
      VInt 0; VInt 0; VInt 0; VInt 0; VInt 0; VInt 0; VInt 0; VInt 0; VInt 0;
      VInt 0; VInt 0; VInt 1; VInt 0; VInt 0; VInt 0; VInt 0; VInt 0;
      VNull; VNull; VInt 1]].

Definition league_pitching : table :=
  sample_table
    ["gid"; "id"; "team"; "p_ipouts"; "p_bfp"; "p_h"; "p_r"; "p_er"; "p_w";
     "p_iw"; "p_k"; "p_hbp"; "p_wp"; "p_bk"; "p_sh"; "p_sf"; "p_hr"; "wp";
     "lp"; "save"]
    [[VText "NYA202103010"; VText "poea001"; VText "NYA"; VInt 27; VInt 33;
      VInt 6; VInt 3; VInt 3; VInt 2; VInt 0; VInt 9; VInt 0; VInt 0; VInt 0;
      VInt 0; VInt 0; VInt 1; VInt 1; VNull; VNull]].

Definition league_teamstats : table :=
  sample_table ["gid"; "team"]
    [[VText "NYA202103010"; VText "NYA"]; [VText "NYA202103010"; VText "BOS"]].

Definition league_fielding : table :=
  sample_table ["gid"; "id"; "team"]
    [[VText "NYA202103010"; VText "doej001"; VText "BOS"];
     [VText "SLN202104020"; VText "moea001"; VText "SLN"]].

Definition league_db : db :=
  <["gameinfo" := league_gameinfo]>
    (<["batting" := league_batting]>
       (<["pitching" := league_pitching]>
          (<["allplayers" := clean_allplayers]>
             (<["teamstats" := league_teamstats]>
                (<["fielding" := league_fielding]> ∅))))).

Definition league_world : world := {| wdb := league_db; wout := [] |}.

Definition league_dims : option (outcome unit * world) :=
  Eval vm_compute in _create_dimension_tables no_timestamp 10 league_world.

Definition league_dims_world : world :=
  match league_dims with
  | Some (_, w) => w
  | None => league_world
  end.

Definition league_build : option (outcome unit * world) :=
  Eval vm_compute in build no_timestamp 10 league_db.

Definition league_built : world :=
  match league_build with
  | Some (_, w) => w
  | None => league_world
  end.

Definition league_DimTeam : table :=
  default (sample_table [] []) (wdb league_dims_world !! "DimTeam").

Definition league_DimDate : table :=
  default (sample_table [] []) (wdb league_dims_world !! "DimDate").

(** A game record with the given date; the source database with one such
    record per date. *)
Definition game_on (date : value) : row :=
  [VText "NYA202103010"; date; VInt 2021; VText "NYC21";
   VText "regular"; VText "day"; VInt 1; VInt 9; VNull; VInt 0; VInt 180;
   VInt 30000; VText "dry"; VText "none"; VText "sunny"; VInt 60;
   VText "tocf"; VInt 5; VNull; VNull; VInt 3; VInt 5; VText "NYA";
   VText "BOS"; VText "BOS"; VText "NYA"].

Definition season_db (dates : list value) : db :=
  <["gameinfo" := sample_table (cols league_gameinfo) (game_on <$> dates)]> league_db.

(** Two yearly batting tables of the same shape; one record occurs in
    both years. *)
Definition yearly_world : world :=
  {| wdb := <["2021batting" := sample_table ["gid"; "id"]
                 [[VText "g1"; VText "doej001"]; [VText "g2"; VText "roea001"]]]>
              (<["2022batting" := sample_table ["gid"; "id"]
                   [[VText "g1"; VText "doej001"]]]> ∅);
     wout := [] |}.

(** Two yearly tables whose columns differ. *)
Definition divergent_db : db :=
  <["2021batting" := sample_table ["gid"; "id"] [[VText "g1"; VText "doej001"]]]>
    (<["2022batting" := sample_table ["gid"; "id"; "team"]
         [[VText "g1"; VText "doej001"; VText "BOS"]]]> ∅).

(** Two yearly tables whose suffix starts with four digits again, beside
    a yearly table of two columns. *)
Definition nested_db : db :=
  <["20212021x" := sample_table ["a"] [[VInt 7]]]>
    (<["20222021x" := sample_table ["a"] [[VInt 8]]]>
       (<["2020x" := sample_table ["a"; "b"] [[VInt 6; VInt 1]]]> ∅)).

(** The league database with one team written as the integer 1 in
    teamstats and as the text 1 in fielding. *)
Definition mixed_team_db : db :=
  <["teamstats" := sample_table ["gid"; "team"] [[VText "NYA202103010"; VInt 1]]]>
    (<["fielding" := sample_table ["gid"; "id"; "team"]
         [[VText "NYA202103010"; VText "doej001"; VText "1"]]]> league_db).

Definition games_world : world :=
  {| wdb := {["gameinfo" := sample_gameinfo]}; wout := [] |}.

Definition games_facts : option (outcome unit * world) :=
  Eval vm_compute in _create_fact_tables games_world.

Definition games_facts_world : world :=
  match games_facts with
  | Some (_, w) => w
  | None => games_world
  end.

Definition games_outcomes : table :=
  default (sample_table [] []) (wdb games_facts_world !! "FactGameOutcomes").

(** * Properties *)

(** ** Running statements *)

Lemma execute_query_eq sql s fetch w :
  execute_query sql s fetch w
  = Some (Ok (fetched s fetch (wdb w)),
          {| wdb := after s (wdb w); wout := (wout w ++ complaint sql s (wdb w))%list |}).
Proof.
  unfold execute_query, fetched, after, complaint.
  destruct (s (wdb w)) as [[rs d']|]; [|done].
  by rewrite app_nil_r.
Qed.

Lemma after_query q d : after (query q) d = d.
Proof. unfold after, query. by destruct (q d). Qed.

Lemma after_drop name d : after (drop_table_if_exists name) d = delete name d.
Proof. done. Qed.

Lemma after_create_as name q d :
  after (create_table_as name q) d
  = match d !! name, q d with
    | None, Some r => <[name := materialize r]> d
    | _, _ => d
    end.
Proof.
  unfold after, create_table_as.
  destruct (d !! name); [done|]. by destruct (q d).
Qed.

Lemma fetched_master name fetch d :
  fetched (query (λ d, Some (select_master name d))) fetch d
  = if fetch then Some (select_master name d) else None.
Proof. done. Qed.

Lemma is_empty_master name d :
  is_empty (Some (select_master name d)) = bool_decide (d !! name = None).
Proof.
  unfold select_master. destruct (d !! name); [|done].
  by rewrite bool_decide_eq_false_2.
Qed.

(** ** The source-table check *)

Lemma find_missing_eq tables missing w :
  find_missing tables missing w
  = Some (Ok (missing ++ filter (λ t, wdb w !! t = None) tables)%list, w).
Proof.
  revert missing. induction tables as [|t ts IH]; intros missing; simpl.
  - by rewrite app_nil_r.
  - unfold bind. rewrite execute_query_eq, after_query, fetched_master.
    unfold complaint, query; cbn [mbind option_bind]. rewrite app_nil_r, is_empty_master.
    destruct w as [d out]; simpl in *.
    rewrite filter_cons. case_bool_decide; case_decide; try done.
    rewrite IH. simpl. by rewrite <- app_assoc.
Qed.

Lemma verify_source_tables_eq w :
  _verify_source_tables w
  = match missing_tables (wdb w) with
    | [] => Some (Ok true, w)
    | ms => Some (Ok false, {| wdb := wdb w; wout := (wout w ++ [MissingTables ms])%list |})
    end.
Proof.
  unfold _verify_source_tables, bind. rewrite find_missing_eq. simpl.
  unfold missing_tables. by destruct (filter _ required_tables).
Qed.

(** ** C4: the missing-source guard *)

(** C4. When at least one of the six required source tables is absent, the
    build runs no statement that changes the database: the database after
    the call is the database before it, and the output names exactly the
    required tables that are absent. *)
Theorem build_missing_source_guard fts fuel (d : db) :
  (∃ t, t ∈ required_tables ∧ d !! t = None) →
  build fts fuel d
  = Some (Ok tt,
          {| wdb := d;
             wout := [Say "Starting data warehouse build...";
                      Say "Connected to database";
                      MissingTables (missing_tables d);
                      Say "Aborting build due to missing source tables";
                      Say "Database connection closed"] |})
  ∧ ∀ t, t ∈ missing_tables d ↔ t ∈ required_tables ∧ d !! t = None.
Proof.
  intros (t & Hreq & Hnone).
  assert (Hin : ∀ t, t ∈ missing_tables d ↔ t ∈ required_tables ∧ d !! t = None).
  { intros t'. unfold missing_tables. rewrite list_elem_of_filter. tauto. }
  split; [|exact Hin].
  assert (Hmem : t ∈ missing_tables d) by (by apply Hin).
  unfold build, build_data_warehouse, bind, print, try_finally, try_except.
  simpl. rewrite verify_source_tables_eq. simpl.
  destruct (missing_tables d) as [|m ms] eqn:E.
  - by apply elem_of_nil in Hmem.
  - done.
Qed.

Lemma build_missing_source_guard_witness :
  build (λ _, Raise OverflowError) 0 (∅ : db)
  = Some (Ok tt,
          {| wdb := ∅;
             wout := [Say "Starting data warehouse build...";
                      Say "Connected to database";
                      MissingTables required_tables;
                      Say "Aborting build due to missing source tables";
                      Say "Database connection closed"] |}).
Proof.
  refine (proj1 (build_missing_source_guard _ 0%nat ∅ _)).
  exists "gameinfo". split; [|reflexivity]. unfold required_tables. set_solver.
Defined.

(** ** C9: read queries on a warehouse that was not built *)

(** C9. When FactBatting does not exist, [query_player_stats] returns the
    empty list, and when FactGameOutcomes does not exist,
    [query_team_performance] returns [None]; neither raises, and the
    database is left as it was. *)
Theorem queries_without_fact_table
    (player_stats_select : option string → option Z → Z → db → option (list row))
    (team_performance_select : string → option Z → db → option (list row))
    (w : world) :
  (wdb w !! "FactBatting" = None →
   ∀ player_name season limit,
     query_player_stats player_stats_select player_name season limit w
     = Some (Ok [],
             {| wdb := wdb w;
                wout := (wout w ++ [Say "Error: FactBatting table does not exist"])%list |}))
  ∧ (wdb w !! "FactGameOutcomes" = None →
     ∀ team_id season,
       query_team_performance team_performance_select team_id season w
       = Some (Ok None,
               {| wdb := wdb w;
                  wout := (wout w ++ [Say "Error: FactGameOutcomes table does not exist"])%list |})).
Proof.
  split; intros Habs **.
  - unfold query_player_stats, bind.
    rewrite execute_query_eq, after_query, fetched_master, is_empty_master.
    rewrite bool_decide_eq_true_2 by done.
    unfold complaint, query, print; simpl. by rewrite app_nil_r.
  - unfold query_team_performance, bind.
    rewrite execute_query_eq, after_query, fetched_master, is_empty_master.
    rewrite bool_decide_eq_true_2 by done.
    unfold complaint, query, print; simpl. by rewrite app_nil_r.
Qed.

Lemma queries_without_fact_table_witness :
  query_player_stats (λ _ _ _ _, None) None None 5 {| wdb := ∅; wout := [] |}
  = Some (Ok [],
          {| wdb := ∅; wout := [Say "Error: FactBatting table does not exist"] |})
  ∧ query_team_performance (λ _ _ _, None) "ANA" None {| wdb := ∅; wout := [] |}
    = Some (Ok None,
            {| wdb := ∅; wout := [Say "Error: FactGameOutcomes table does not exist"] |}).
Proof.
  pose proof (queries_without_fact_table (λ _ _ _ _, None) (λ _ _ _, None)
                {| wdb := ∅; wout := [] |}) as [H1 H2].
  split.
  - apply (H1 (lookup_empty _)).
  - apply (H2 (lookup_empty _)).
Defined.

(** ** Selecting rows *)

Lemma compile_all_lookup sc es fs k e :
  compile_all sc es = Some fs →
  es !! k = Some e →
  ∃ f, fs !! k = Some f ∧ compile sc e = Some f.
Proof.
  revert fs k. induction es as [|e' es IH]; intros fs k Hc Hk; [done|].
  simpl in Hc.
  destruct (compile sc e') as [f'|] eqn:Ef; [|done]. simpl in Hc.
  destruct (compile_all sc es) as [fs'|] eqn:Efs; [|done]. simpl in Hc.
  injection Hc as <-.
  destruct k as [|k]; simpl in *.
  - injection Hk as <-. eauto.
  - eauto.
Qed.

Lemma select_from_inv items src alias d q :
  select_from items src alias d = Some q →
  ∃ t fs, d !! src = Some t
          ∧ compile_all [(alias, cols t)] (items.*2) = Some fs
          ∧ rcols q = items.*1
          ∧ rrows q = project fs <$> rows t.
Proof.
  unfold select_from. intros H.
  destruct (d !! src) as [t|]; [|done]. simpl in H.
  destruct (compile_all _ _) as [fs|] eqn:E; [|done]. simpl in H.
  injection H as <-. by exists t, fs.
Qed.

Lemma field_project fs r k f :
  fs !! k = Some f → field k (project fs r) = f r.
Proof. intros H. unfold field, project. by rewrite list_lookup_fmap, H. Qed.

(** ** Statements of the fact stage *)

Lemma create_fact_tables_eq w :
  ∃ out, _create_fact_tables w
         = Some (Ok tt, {| wdb := facts_db (wdb w); wout := out |}).
Proof.
  unfold _create_fact_tables, bind, print.
  repeat (rewrite execute_query_eq; cbn [wdb wout]).
  rewrite !after_query, !after_drop. eauto.
Qed.

Lemma lookup_after_create_as name q d :
  d !! name = None →
  after (create_table_as name q) d !! name = materialize <$> q d.
Proof.
  intros H. rewrite after_create_as, H.
  destruct (q d); simpl; [by rewrite lookup_insert_eq | done].
Qed.

Lemma lookup_after_create_as_ne name name' q d :
  name ≠ name' →
  after (create_table_as name q) d !! name' = d !! name'.
Proof.
  intros H. rewrite after_create_as.
  destruct (d !! name); [done|]. destruct (q d); [|done].
  by rewrite lookup_insert_ne.
Qed.

(** ** SQL comparison *)

Lemma sql_compare_antisym a b c :
  sql_compare a b = Some c → sql_compare b a = Some (CompOpp c).
Proof.
  destruct a, b; simpl; intros H; try done; injection H as <-; try done.
  - by rewrite Z.compare_antisym.
  - by rewrite String.compare_antisym.
Qed.

Lemma sql_compare_defined a b :
  a ≠ VNull → b ≠ VNull → sql_compare a b ≠ None.
Proof. by destruct a, b. Qed.

(** The three CASE expressions of FactGameOutcomes on one pair of runs. *)
Lemma outcome_cases v h :
  let vw := if holds (sql_test OpGt v h) then VInt 1 else VInt 0 in
  let hw := if holds (sql_test OpGt h v) then VInt 1 else VInt 0 in
  let tie := if holds (sql_test OpEq v h) then VInt 1 else VInt 0 in
  match sql_compare v h with
  | Some Gt => vw = VInt 1 ∧ hw = VInt 0 ∧ tie = VInt 0
  | Some Lt => vw = VInt 0 ∧ hw = VInt 1 ∧ tie = VInt 0
  | Some Eq => vw = VInt 0 ∧ hw = VInt 0 ∧ tie = VInt 1
  | None => vw = VInt 0 ∧ hw = VInt 0 ∧ tie = VInt 0
  end.
Proof.
  unfold sql_test.
  destruct (sql_compare v h) as [c|] eqn:E.
  - rewrite (sql_compare_antisym _ _ _ E). by destruct c.
  - assert (sql_compare h v = None) as -> by (by destruct v, h).
    done.
Qed.

(** ** C1: the flags of FactGameOutcomes *)

Lemma FactGameOutcomes_rows d q r :
  FactGameOutcomes_select d = Some q →
  r ∈ rrows q →
  ∃ v h,
    field 5 r = v ∧ field 6 r = h
    ∧ field 7 r = (if holds (sql_test OpGt v h) then VInt 1 else VInt 0)
    ∧ field 8 r = (if holds (sql_test OpGt h v) then VInt 1 else VInt 0)
    ∧ field 9 r = (if holds (sql_test OpEq v h) then VInt 1 else VInt 0).
Proof.
  intros Hq Hr. apply select_from_inv in Hq as (t & fs & _ & Hfs & _ & Hrows).
  rewrite Hrows in Hr. apply list_elem_of_fmap in Hr as (r0 & -> & _).
  pose proof (λ k e, compile_all_lookup _ _ _ k e Hfs) as Hk.
  destruct (Hk 5%nat _ eq_refl) as (f5 & E5 & C5).
  destruct (Hk 6%nat _ eq_refl) as (f6 & E6 & C6).
  destruct (Hk 7%nat _ eq_refl) as (f7 & E7 & C7).
  destruct (Hk 8%nat _ eq_refl) as (f8 & E8 & C8).
  destruct (Hk 9%nat _ eq_refl) as (f9 & E9 & C9).
  rewrite (field_project _ _ _ _ E5), (field_project _ _ _ _ E6),
    (field_project _ _ _ _ E7), (field_project _ _ _ _ E8),
    (field_project _ _ _ _ E9).
  cbn [compile snd] in C5, C6, C7, C8, C9. rewrite C5, C6 in C7, C8, C9.
  cbn in C7, C8, C9.
  injection C7 as <-. injection C8 as <-. injection C9 as <-.
  eauto 10.
Qed.


(** ** Footprints of statements and stages *)

Lemma only_changes_refl names d : only_changes names d d.
Proof. by intros n _. Qed.

Lemma only_changes_trans names d1 d2 d3 :
  only_changes names d1 d2 → only_changes names d2 d3 → only_changes names d1 d3.
Proof. intros H1 H2 n Hn. by rewrite H2, H1. Qed.

Lemma only_changes_mono names names' d d' :
  names ⊆ names' → only_changes names d d' → only_changes names' d d'.
Proof. intros Hsub H n Hn. apply H. set_solver. Qed.

Lemma modifies_only_mono {A} names names' (m : M A) :
  names ⊆ names' → modifies_only names m → modifies_only names' m.
Proof. intros Hsub H w r w' Hm. eapply only_changes_mono; eauto. Qed.

Lemma modifies_only_ret {A} names (a : A) : modifies_only names (ret a).
Proof. intros w r w' [= <- <-]. apply only_changes_refl. Qed.

Lemma modifies_only_raise {A} names e : modifies_only names (@raise A e).
Proof. intros w r w' [= <- <-]. apply only_changes_refl. Qed.

Lemma modifies_only_lift {A} names (o : outcome A) : modifies_only names (lift o).
Proof. intros w r w' [= <- <-]. apply only_changes_refl. Qed.

Lemma modifies_only_print names e : modifies_only names (print e).
Proof. intros w r w' [= <- <-]. apply only_changes_refl. Qed.

Lemma modifies_only_out_of_fuel {A} names : modifies_only names (@out_of_fuel A).
Proof. by intros w r w'. Qed.

Lemma modifies_only_bind {A B} names (m : M A) (k : A → M B) :
  modifies_only names m → (∀ a, modifies_only names (k a)) →
  modifies_only names (bind m k).
Proof.
  intros Hm Hk w r w' H. unfold bind in H.
  destruct (m w) as [[[a|e] w1]|] eqn:E; [| |done].
  - eapply only_changes_trans; [by eapply Hm | by eapply Hk].
  - injection H as <- <-. by eapply Hm.
Qed.

Lemma modifies_only_try_except {A} names (m : M A) (h : exn → M A) :
  modifies_only names m → (∀ e, modifies_only names (h e)) →
  modifies_only names (try_except m h).
Proof.
  intros Hm Hh w r w' H. unfold try_except in H.
  destruct (m w) as [[[a|e] w1]|] eqn:E; [| |done].
  - injection H as <- <-. by eapply Hm.
  - eapply only_changes_trans; [by eapply Hm | by eapply Hh].
Qed.

Lemma modifies_only_try_finally {A} names (m : M A) (f : M unit) :
  modifies_only names m → modifies_only names f →
  modifies_only names (try_finally m f).
Proof.
  intros Hm Hf w r w' H. unfold try_finally in H.
  destruct (m w) as [[r1 w1]|] eqn:E; [|done].
  destruct (f w1) as [[[u|e] w2]|] eqn:E2; [| |done]; injection H as <- <-;
    (eapply only_changes_trans; [by eapply Hm | by eapply Hf]).
Qed.

Lemma modifies_only_execute_query names sql s fetch :
  stmt_modifies_only names s → modifies_only names (execute_query sql s fetch).
Proof.
  intros Hs w r w' H. rewrite execute_query_eq in H. injection H as <- <-.
  apply Hs.
Qed.

Lemma stmt_modifies_only_query names q : stmt_modifies_only names (query q).
Proof. intros d. rewrite after_query. apply only_changes_refl. Qed.

Lemma stmt_modifies_only_drop names name :
  name ∈ names → stmt_modifies_only names (drop_table_if_exists name).
Proof.
  intros Hin d n Hn. rewrite after_drop. apply lookup_delete_ne.
  intros ->. done.
Qed.

Lemma stmt_modifies_only_create_as names name q :
  name ∈ names → stmt_modifies_only names (create_table_as name q).
Proof.
  intros Hin d n Hn. apply lookup_after_create_as_ne. by intros ->.
Qed.

Lemma stmt_modifies_only_create names name cs k :
  name ∈ names → stmt_modifies_only names (create_table name cs k).
Proof.
  intros Hin d n Hn. unfold after, create_table.
  destruct (d !! name); [done|]. apply lookup_insert_ne. by intros ->.
Qed.

Lemma stmt_modifies_only_insert names name vals :
  name ∈ names → stmt_modifies_only names (insert_values name vals).
Proof.
  intros Hin d n Hn. unfold after, insert_values.
  destruct (d !! name); simpl; [|done].
  destruct (_ && _); [|done]. apply lookup_insert_ne. by intros ->.
Qed.

Lemma stmt_modifies_only_create_index names idx tbl col :
  tbl ∈ names → stmt_modifies_only names (create_index_if_not_exists idx tbl col).
Proof.
  intros Hin d n Hn. unfold after, create_index_if_not_exists.
  destruct (d !! tbl); simpl; [|done].
  destruct (d !! idx); [done|].
  destruct (index_exists idx d); [done|].
  destruct (index_of col _); simpl; [|done].
  apply lookup_insert_ne. by intros ->.
Qed.

Ltac footprint :=
  repeat first
    [ apply modifies_only_ret | apply modifies_only_raise
    | apply modifies_only_lift | apply modifies_only_print
    | apply modifies_only_out_of_fuel
    | apply modifies_only_bind; [|intros ?]
    | apply modifies_only_try_except; [|intros ?]
    | apply modifies_only_try_finally
    | apply modifies_only_execute_query
    | apply stmt_modifies_only_query
    | apply stmt_modifies_only_drop; solve [repeat constructor]
    | apply stmt_modifies_only_create_as; solve [repeat constructor]
    | apply stmt_modifies_only_create; solve [repeat constructor]
    | apply stmt_modifies_only_insert; solve [repeat constructor]
    | apply stmt_modifies_only_create_index; solve [repeat constructor]
    | match goal with
      | |- modifies_only _ (match ?x with _ => _ end) => destruct x
      | |- modifies_only _ (if ?x then _ else _) => destruct x
      end ].

Lemma insert_dates_footprint fuel current_date end_date :
  modifies_only ["DimDate"] (insert_dates fuel current_date end_date).
Proof.
  revert current_date. induction fuel as [|fuel IH]; intros current_date; simpl.
  - footprint.
  - unfold next_day. footprint. apply IH.
Qed.

Lemma date_formats_footprint fts min_date max_date :
  modifies_only ["DimDate"] (date_formats fts min_date max_date).
Proof.
  unfold date_formats, fromtimestamp_value, strptime_value, except_ValueError.
  footprint.
Qed.

Lemma create_DimDate_footprint fts fuel :
  modifies_only ["DimDate"] (create_DimDate fts fuel).
Proof.
  unfold create_DimDate, strptime_value. footprint.
  - apply date_formats_footprint.
  - apply insert_dates_footprint.
Qed.

Lemma create_dimension_tables_footprint fts fuel :
  modifies_only dimension_tables (_create_dimension_tables fts fuel).
Proof.
  unfold _create_dimension_tables, dimension_tables.
  assert (Htail : modifies_only ["DimPlayer"; "DimTeam"; "DimGame"; "DimDate"]
                    (create_DimDate fts fuel)).
  { eapply modifies_only_mono; [|apply create_DimDate_footprint]. set_solver. }
  revert Htail. generalize (create_DimDate fts fuel). intros tail Htail.
  footprint. exact Htail.
Qed.

(** ** Queries read only the tables they name *)

Lemma agree_delete names name d : name ∉ names → agree names (delete name d) d.
Proof. intros H n Hn. apply lookup_delete_ne. by intros ->. Qed.

Lemma agree_trans names d1 d2 d3 :
  agree names d1 d2 → agree names d2 d3 → agree names d1 d3.
Proof. intros H1 H2 n Hn. by rewrite H1, H2. Qed.

Lemma agree_sym names d1 d2 : agree names d1 d2 → agree names d2 d1.
Proof. intros H n Hn. by rewrite H. Qed.

Lemma agree_mono names names' d1 d2 :
  names ⊆ names' → agree names' d1 d2 → agree names d1 d2.
Proof. intros Hsub H n Hn. apply H. set_solver. Qed.

Lemma select_from_agree items src alias d d' :
  d !! src = d' !! src →
  select_from items src alias d = select_from items src alias d'.
Proof. unfold select_from. by intros ->. Qed.

Lemma select_join_agree items t1 a1 t2 a2 on1 on2 d d' :
  d !! t1 = d' !! t1 → d !! t2 = d' !! t2 →
  select_join items t1 a1 t2 a2 on1 on2 d = select_join items t1 a1 t2 a2 on1 on2 d'.
Proof. unfold select_join. by intros -> ->. Qed.

Lemma column_values_agree c src d d' :
  d !! src = d' !! src → column_values c src d = column_values c src d'.
Proof. unfold column_values. by intros ->. Qed.

Lemma DimPlayer_select_agree d d' :
  agree required_tables d d' → DimPlayer_select d = DimPlayer_select d'.
Proof.
  intros H. unfold DimPlayer_select.
  rewrite (select_from_agree _ _ _ d d'); [done|].
  apply H. unfold required_tables. set_solver.
Qed.

Lemma DimTeam_select_agree d d' :
  agree required_tables d d' → DimTeam_select d = DimTeam_select d'.
Proof.
  intros H. unfold DimTeam_select, team_column.
  rewrite !(select_from_agree _ _ _ d d'); [done|..];
    apply H; unfold required_tables; set_solver.
Qed.

Lemma DimGame_select_agree d d' :
  agree required_tables d d' → DimGame_select d = DimGame_select d'.
Proof.
  intros H. unfold DimGame_select.
  rewrite (select_from_agree _ _ _ d d'); [done|].
  apply H. unfold required_tables. set_solver.
Qed.

Lemma agree_required_drop_dimensions d :
  agree required_tables
    (delete "DimDate" (delete "DimGame" (delete "DimTeam" (delete "DimPlayer" d)))) d.
Proof.
  intros n Hn. rewrite !lookup_delete_ne; [done|..]; intros <-;
    unfold required_tables in Hn; set_solver.
Qed.

(** ** The dimension stage up to DimDate *)

Lemma create_dimension_tables_split fts fuel w :
  ∃ out, _create_dimension_tables fts fuel w
         = create_DimDate fts fuel {| wdb := static_dims_db (wdb w); wout := out |}.
Proof.
  unfold _create_dimension_tables, bind at 1 2 3 4 5 6 7 8 9 10 11, print.
  repeat (rewrite execute_query_eq; cbn [wdb wout]).
  rewrite !after_drop. eauto.
Qed.

Lemma static_dims_db_DimPlayer d :
  static_dims_db d !! "DimPlayer" = materialize <$> DimPlayer_select d.
Proof.
  unfold static_dims_db. rewrite !lookup_after_create_as_ne by done.
  rewrite lookup_after_create_as.
  - by rewrite (DimPlayer_select_agree _ d) by apply agree_required_drop_dimensions.
  - rewrite !lookup_delete_ne by done. apply lookup_delete_eq.
Qed.

Lemma static_dims_db_DimTeam d :
  static_dims_db d !! "DimTeam" = materialize <$> DimTeam_select d.
Proof.
  unfold static_dims_db. rewrite lookup_after_create_as_ne by done.
  rewrite lookup_after_create_as.
  - apply (f_equal (fmap materialize)). apply DimTeam_select_agree.
    intros n Hn. rewrite lookup_after_create_as_ne.
    + by apply agree_required_drop_dimensions.
    + intros <-. unfold required_tables in Hn. set_solver.
  - rewrite lookup_after_create_as_ne by done.
    rewrite !lookup_delete_ne by done. apply lookup_delete_eq.
Qed.

Lemma create_dimension_tables_lookup fts fuel w o w' n :
  _create_dimension_tables fts fuel w = Some (o, w') →
  n ≠ "DimDate" →
  wdb w' !! n = static_dims_db (wdb w) !! n.
Proof.
  intros Hrun Hn.
  destruct (create_dimension_tables_split fts fuel w) as [out Heq].
  rewrite Heq in Hrun.
  apply create_DimDate_footprint in Hrun. apply Hrun. set_solver.
Qed.

(** ** Resolving columns of a single source *)

Lemma resolve_single a cs c : resolve [(a, cs)] c = index_of c cs.
Proof.
  unfold resolve; simpl. by destruct (index_of c cs).
Qed.

Lemma compile_col_single a cs c :
  compile [(a, cs)] (Col c) = field <$> index_of c cs.
Proof. simpl. by rewrite resolve_single. Qed.

Lemma cell_field t c i r : index_of c (cols t) = Some i → cell t c r = field i r.
Proof. unfold cell. by intros ->. Qed.

(** ** C7: rows of DimPlayer *)

Lemma DimPlayer_select_inv d q :
  DimPlayer_select d = Some q →
  ∃ a i f l b t,
    d !! "allplayers" = Some a
    ∧ index_of "id" (cols a) = Some i
    ∧ index_of "first" (cols a) = Some f
    ∧ index_of "last" (cols a) = Some l
    ∧ index_of "bat" (cols a) = Some b
    ∧ index_of "throw" (cols a) = Some t
    ∧ rcols q = DimPlayer_items.*1
    ∧ rrows q
      = remove_dups
          ((λ r, [field i r;
                  sql_concat (sql_concat (field f r) (VText " ")) (field l r);
                  field f r; field l r; field b r; field t r]) <$> rows a).
Proof.
  unfold DimPlayer_select. intros H.
  destruct (select_from _ _ _ d) as [q0|] eqn:E; [|done].
  injection H as <-.
  apply select_from_inv in E as (a & fs & Ha & Hfs & Hcols & Hrows).
  cbn [fmap list_fmap DimPlayer_items snd compile_all] in Hfs.
  cbn [compile] in Hfs. rewrite !resolve_single in Hfs.
  destruct (index_of "id" (cols a)) as [i|] eqn:Ei; [|done].
  destruct (index_of "first" (cols a)) as [f|] eqn:Ef; [|done].
  destruct (index_of "last" (cols a)) as [l|] eqn:El; [|done].
  destruct (index_of "bat" (cols a)) as [b|] eqn:Eb; [|done].
  destruct (index_of "throw" (cols a)) as [t|] eqn:Et; [|done].
  cbn in Hfs. injection Hfs as <-.
  exists a, i, f, l, b, t. repeat split; try done.
  unfold distinct; cbn [rrows]. by rewrite Hrows.
Qed.

(** C7 (as amended). The DimPlayer table left by the dimension build has
    no repeated row: SELECT DISTINCT removes rows that agree on all of
    player_id, player_name, first_name, last_name, batting_hand and
    throwing_hand.  player_id is a unique identity of the rows whenever
    the roster gives each id one first name, last name, batting hand and
    throwing hand. *)
Theorem DimPlayer_rows_distinct fts fuel (w w' : world) (o : outcome unit) (t : table) :
  _create_dimension_tables fts fuel w = Some (o, w') →
  wdb w' !! "DimPlayer" = Some t →
  NoDup (rows t)
  ∧ ∀ a,
      wdb w !! "allplayers" = Some a →
      (∀ r1 r2, r1 ∈ rows a → r2 ∈ rows a →
         cell a "id" r1 = cell a "id" r2 →
         cell a "first" r1 = cell a "first" r2
         ∧ cell a "last" r1 = cell a "last" r2
         ∧ cell a "bat" r1 = cell a "bat" r2
         ∧ cell a "throw" r1 = cell a "throw" r2) →
      NoDup (column t "player_id").
Proof.
  intros Hrun Ht.
  rewrite (create_dimension_tables_lookup _ _ _ _ _ _ Hrun) in Ht by done.
  rewrite static_dims_db_DimPlayer in Ht.
  destruct (DimPlayer_select (wdb w)) as [q|] eqn:Eq; [|done].
  injection Ht as <-.
  apply DimPlayer_select_inv in Eq
    as (a & i & f & l & b & th & Ha & Hi & Hf & Hl & Hb & Hth & Hcols & Hrows).
  cbn [rows materialize]. rewrite Hrows.
  split; [apply NoDup_remove_dups|].
  intros a' Ha' Hfd. rewrite Ha in Ha'. injection Ha' as <-.
  unfold column. cbn [rows materialize]. rewrite Hrows.
  apply NoDup_fmap_2_strong; [|apply NoDup_remove_dups].
  intros x y Hx Hy Hxy.
  apply elem_of_remove_dups, list_elem_of_fmap in Hx as (r1 & -> & Hr1).
  apply elem_of_remove_dups, list_elem_of_fmap in Hy as (r2 & -> & Hr2).
  unfold cell in Hxy. cbn [cols materialize] in Hxy. rewrite Hcols in Hxy.
  change (index_of "player_id" (DimPlayer_items.*1)) with (Some 0%nat) in Hxy.
  cbn in Hxy.
  specialize (Hfd r1 r2 Hr1 Hr2).
  rewrite !(cell_field a _ _ _ Hi), !(cell_field a _ _ _ Hf),
    !(cell_field a _ _ _ Hl), !(cell_field a _ _ _ Hb),
    !(cell_field a _ _ _ Hth) in Hfd.
  destruct (Hfd Hxy) as (-> & -> & -> & ->). by rewrite Hxy.
Qed.

Lemma DimPlayer_rows_distinct_witness :
  NoDup (rows clean_roster_DimPlayer)
  ∧ NoDup (column clean_roster_DimPlayer "player_id")
  ∧ column clean_roster_DimPlayer "player_id" = [VText "doej001"; VText "roea001"].
Proof.
  assert (Hrun : _create_dimension_tables no_timestamp 0 clean_roster_world
                 = Some (Ok tt, clean_roster_dims_world)) by (vm_compute; reflexivity).
  assert (Ht : wdb clean_roster_dims_world !! "DimPlayer" = Some clean_roster_DimPlayer)
    by (vm_compute; reflexivity).
  destruct (DimPlayer_rows_distinct _ _ _ _ _ _ Hrun Ht) as [Hrows Hid].
  split; [exact Hrows|]. split; [|vm_compute; reflexivity].
  apply (Hid clean_allplayers); [reflexivity|].
  intros r1 r2 H1%list_elem_of_In H2%list_elem_of_In Heq.
  simpl in H1, H2.
  destruct H1 as [<-|[<-|[<-|[]]]], H2 as [<-|[<-|[<-|[]]]];
    vm_compute in Heq; try discriminate Heq; vm_compute; done.
Defined.

(** C7, counterexample to the claim as stated: a player listed in the
    roster with two batting hands has two rows in DimPlayer, with the same
    player_id. *)
Lemma DimPlayer_rows_distinct_counterexample :
  let r1 := [VText "doej001"; VText "Jo Doe"; VText "Jo"; VText "Doe";
             VText "R"; VText "R"] in
  let r2 := [VText "doej001"; VText "Jo Doe"; VText "Jo"; VText "Doe";
             VText "B"; VText "R"] in
  _create_dimension_tables no_timestamp 0 roster_world = Some (Ok tt, roster_dims_world)
  ∧ wdb roster_dims_world !! "DimPlayer" = Some roster_DimPlayer
  ∧ r1 ∈ rows roster_DimPlayer
  ∧ r2 ∈ rows roster_DimPlayer
  ∧ r1 ≠ r2
  ∧ cell roster_DimPlayer "player_id" r1 = cell roster_DimPlayer "player_id" r2.
Proof.
  intros r1 r2.
  split; [vm_compute; reflexivity|].
  split; [vm_compute; reflexivity|].
  split; [vm_compute; set_solver|].
  split; [vm_compute; set_solver|].
  split; [discriminate|].
  vm_compute; reflexivity.
Qed.

(** ** C6: the team dimension *)

Lemma team_column_inv c src d q :
  team_column c src d = Some q →
  ∃ t, d !! src = Some t
       ∧ rcols q = [c]
       ∧ ∀ r, r ∈ rrows q ↔ ∃ v, r = [v] ∧ v ∈ column t c.
Proof.
  unfold team_column. intros H.
  apply select_from_inv in H as (t & fs & Ht & Hfs & Hcols & Hrows).
  cbn [fmap list_fmap snd compile_all] in Hfs. rewrite compile_col_single in Hfs.
  destruct (index_of c (cols t)) as [i|] eqn:Ei; [|done].
  cbn in Hfs. injection Hfs as <-.
  exists t. split; [done|]. split; [done|].
  intros r. rewrite Hrows. unfold column. rewrite !list_elem_of_fmap.
  split.
  - intros (r0 & -> & Hr0). exists (field i r0). split; [done|].
    apply list_elem_of_fmap. exists r0. by rewrite (cell_field _ _ _ _ Ei).
  - intros (v & -> & Hv). apply list_elem_of_fmap in Hv as (r0 & -> & Hr0).
    exists r0. by rewrite (cell_field _ _ _ _ Ei).
Qed.

Lemma union_inv q1 q2 q :
  union q1 q2 = Some q →
  ∃ a b, q1 = Some a ∧ q2 = Some b
         ∧ rcols q = rcols a
         ∧ ∀ r, r ∈ rrows q ↔ r ∈ rrows a ∨ r ∈ rrows b.
Proof.
  unfold union. intros H.
  destruct q1 as [a|]; [|done]. destruct q2 as [b|]; [|done]. simpl in H.
  case_decide; [|done]. injection H as <-.
  exists a, b. repeat split; try done; simpl.
  - intros Hr. by apply elem_of_remove_dups, elem_of_app in Hr.
  - intros Hr. by apply elem_of_remove_dups, elem_of_app.
Qed.

Lemma select_distinct_sub_inv c' c q r :
  select_distinct_sub c' c q = Some r →
  ∃ a i, q = Some a
         ∧ index_of c (rcols a) = Some i
         ∧ rcols r = [c']
         ∧ rrows r = remove_dups ((λ x, [field i x]) <$> rrows a).
Proof.
  unfold select_distinct_sub. intros H.
  destruct q as [a|]; [|done]. simpl in H.
  rewrite resolve_single in H.
  destruct (index_of c (rcols a)) as [i|] eqn:Ei; [|done].
  simpl in H. injection H as <-. by exists a, i.
Qed.


(** ** The calendar *)

Lemma forall_from_spec n z0 p z :
  forall_from n z0 p = true → z0 ≤ z < z0 + Z.of_nat n → p z = true.
Proof.
  revert z0. induction n as [|k IH]; simpl; intros z0 H Hz; [lia|].
  apply andb_true_iff in H as [H1 H2].
  destruct (decide (z = z0)) as [->|Hne]; [done|].
  apply (IH (z0 + 1)); [done|lia].
Qed.

Lemma first_cycle_ok r : 0 ≤ r < DI400Y → cycle_day_ok r = true.
Proof.
  intros H. apply (forall_from_spec (Z.to_nat DI400Y) 0); [|unfold DI400Y in *; lia].
  vm_compute. reflexivity.
Qed.

Lemma ord2ymd_shift k r :
  0 ≤ r < DI400Y →
  ord2ymd (DI400Y * k + r + 1)
  = ((400 * k + (ord2ymd (r + 1)).1.1, (ord2ymd (r + 1)).1.2), (ord2ymd (r + 1)).2).
Proof.
  intros Hr. unfold ord2ymd.
  replace (DI400Y * k + r + 1 - 1) with (r + k * DI400Y) by lia.
  replace (r + 1 - 1) with r by lia.
  rewrite Z.div_add, Z.mod_add by done.
  rewrite (Z.div_small r DI400Y), (Z.mod_small r DI400Y) by lia.
  cbv zeta.
  repeat match goal with
         | |- context [if ?c then _ else _] => destruct c
         end; simpl; f_equal; try f_equal; lia.
Qed.

Lemma is_leap_shift k y : is_leap (400 * k + y) = is_leap y.
Proof.
  unfold is_leap.
  replace (400 * k + y) with (y + (100 * k) * 4) at 1 by lia.
  replace (400 * k + y) with (y + (4 * k) * 100) at 1 by lia.
  replace (400 * k + y) with (y + k * 400) by lia.
  by rewrite !Z.mod_add.
Qed.

Lemma days_before_year_shift k y :
  days_before_year (400 * k + y) = DI400Y * k + days_before_year y.
Proof.
  unfold days_before_year, DI400Y. cbv zeta.
  replace (400 * k + y - 1) with (y - 1 + (100 * k) * 4) at 2 by lia.
  replace (400 * k + y - 1) with (y - 1 + (4 * k) * 100) at 2 by lia.
  replace (400 * k + y - 1) with (y - 1 + k * 400) at 2 by lia.
  rewrite !Z.div_add by done. lia.
Qed.

Lemma ymd2ord_shift k y m d :
  ymd2ord (400 * k + y) m d = DI400Y * k + ymd2ord y m d.
Proof.
  unfold ymd2ord, days_before_month.
  rewrite days_before_year_shift, is_leap_shift. lia.
Qed.

Lemma days_in_month_shift k y m :
  days_in_month (400 * k + y) m = days_in_month y m.
Proof. unfold days_in_month. by rewrite is_leap_shift. Qed.

(** Every ordinal of the supported range is a valid calendar date, and
    [ymd2ord] inverts [ord2ymd] on it. *)
Lemma ord2ymd_valid n :
  1 ≤ n ≤ MAXORDINAL →
  1 ≤ date_year n ≤ 9999
  ∧ 1 ≤ date_month n ≤ 12
  ∧ 1 ≤ date_day n ≤ days_in_month (date_year n) (date_month n)
  ∧ ymd2ord (date_year n) (date_month n) (date_day n) = n.
Proof.
  intros Hn. unfold date_year, date_month, date_day, MAXORDINAL in *.
  pose proof (Z.div_mod (n - 1) DI400Y ltac:(done)) as Hdm.
  pose proof (Z.mod_pos_bound (n - 1) DI400Y ltac:(done)) as Hr.
  set (k := (n - 1) / DI400Y) in *. set (r := (n - 1) mod DI400Y) in *.
  assert (Hk : 0 ≤ k ≤ 24) by (unfold DI400Y in *; lia).
  replace n with (DI400Y * k + r + 1) by lia.
  rewrite ord2ymd_shift by done. cbn [fst snd].
  pose proof (first_cycle_ok r Hr) as Hok. unfold cycle_day_ok in Hok.
  destruct (ord2ymd (r + 1)) as [[y m] d]. cbn [fst snd].
  rewrite days_in_month_shift, ymd2ord_shift.
  repeat (apply andb_true_iff in Hok as [Hok ?]).
  assert (r < 145731 → y ≤ 399).
  { intros ?. destruct (145731 <=? r) eqn:E; [lia|]. simpl in *. lia. }
  unfold DI400Y in *. lia.
Qed.

Lemma Z_range_cases (P : Z → Prop) lo n :
  (∀ i, (i < n)%nat → P (lo + Z.of_nat i)) → ∀ z, lo ≤ z < lo + Z.of_nat n → P z.
Proof.
  intros H z Hz. replace z with (lo + Z.of_nat (Z.to_nat (z - lo))) by lia.
  apply H. lia.
Qed.

Lemma char_digit_digit_char k : 0 ≤ k ≤ 9 → char_digit (digit_char k) = Some k.
Proof.
  intros Hk. revert k Hk.
  assert (∀ k, 0 ≤ k < 0 + Z.of_nat 10 → char_digit (digit_char k) = Some k) as H;
    [|intros k Hk; apply H; lia].
  apply (Z_range_cases _ 0 10). intros i Hi.
  do 10 (destruct i as [|i]; [reflexivity|]). lia.
Qed.

Lemma parse_year_pad y rest :
  0 ≤ y ≤ 9999 →
  parse_year
    (String (digit_char (y / 1000))
       (String (digit_char (y / 100 mod 10))
          (String (digit_char (y / 10 mod 10))
             (String (digit_char (y mod 10)) rest))))
  = Some (y, rest).
Proof.
  intros Hy. unfold parse_year.
  rewrite !char_digit_digit_char by (Z.div_mod_to_equations; lia).
  do 2 f_equal. Z.div_mod_to_equations. lia.
Qed.

Lemma parse_month_pad m rest :
  1 ≤ m ≤ 12 →
  parse_month (String (digit_char (m / 10)) (String (digit_char (m mod 10)) (String "-" rest)))
  = Some (m, rest).
Proof.
  intros Hm. revert m Hm.
  assert (∀ m, 1 ≤ m < 1 + Z.of_nat 12 →
    parse_month (String (digit_char (m / 10)) (String (digit_char (m mod 10)) (String "-" rest)))
    = Some (m, rest)) as H; [|intros m Hm; apply H; lia].
  apply (Z_range_cases _ 1 12). intros i Hi.
  do 12 (destruct i as [|i]; [reflexivity|]). lia.
Qed.

Lemma parse_day_pad d :
  1 ≤ d ≤ 31 →
  parse_day (String (digit_char (d / 10)) (String (digit_char (d mod 10)) ""))
  = Some (d, "").
Proof.
  intros Hd. revert d Hd.
  assert (∀ d, 1 ≤ d < 1 + Z.of_nat 31 →
    parse_day (String (digit_char (d / 10)) (String (digit_char (d mod 10)) ""))
    = Some (d, "")) as H; [|intros d Hd; apply H; lia].
  apply (Z_range_cases _ 1 31). intros i Hi.
  do 31 (destruct i as [|i]; [reflexivity|]). lia.
Qed.

Lemma days_in_month_le y m : 1 ≤ m ≤ 12 → days_in_month y m ≤ 31.
Proof.
  intros Hm. unfold days_in_month. destruct (_ && _); [lia|].
  revert m Hm.
  assert (∀ m, 1 ≤ m < 1 + Z.of_nat 12 → DAYS_IN_MONTH m ≤ 31) as H;
    [|intros m Hm; apply H; lia].
  apply (Z_range_cases _ 1 12). intros i Hi.
  do 12 (destruct i as [|i]; [vm_compute; discriminate|]). lia.
Qed.

Lemma make_date_valid y m d :
  1 ≤ y ≤ 9999 → 1 ≤ m ≤ 12 → 1 ≤ d ≤ days_in_month y m →
  make_date y m d = Ok (ymd2ord y m d).
Proof.
  intros Hy Hm Hd. unfold make_date.
  rewrite !(proj2 (Z.leb_le _ _)) by lia. done.
Qed.

(** Formatting a date and parsing the text gives the date back. *)
Lemma strptime_strftime n :
  1 ≤ n ≤ MAXORDINAL → strptime (strftime n) = Ok n.
Proof.
  intros Hn. destruct (ord2ymd_valid n Hn) as (Hy & Hm & Hd & Hord).
  unfold strftime, date_year, date_month, date_day in *.
  destruct (ord2ymd n) as [[y m] d]. cbn [fst snd] in *.
  pose proof (days_in_month_le y m Hm).
  unfold strptime. rewrite parse_year_pad by lia.
  rewrite parse_month_pad by lia. rewrite parse_day_pad by lia.
  rewrite make_date_valid by lia. by rewrite Hord.
Qed.

Lemma strftime_inj a b :
  1 ≤ a ≤ MAXORDINAL → 1 ≤ b ≤ MAXORDINAL → strftime a = strftime b → a = b.
Proof.
  intros Ha Hb H. apply strptime_strftime in Ha, Hb.
  rewrite H in Ha. rewrite Ha in Hb. by injection Hb.
Qed.

Lemma month_day_bound y m d :
  1 ≤ m ≤ 12 → 1 ≤ d ≤ days_in_month y m →
  1 ≤ days_before_month y m + d ≤ (if is_leap y then 366 else 365).
Proof.
  intros Hm. revert d. unfold days_in_month, days_before_month.
  generalize (is_leap y). intros leap.
  assert (∀ m, 1 ≤ m < 1 + Z.of_nat 12 → ∀ d,
    1 ≤ d ≤ (if (m =? 2) && leap then 29 else DAYS_IN_MONTH m) →
    1 ≤ DAYS_BEFORE_MONTH m + (if (2 <? m) && leap then 1 else 0) + d
      ≤ (if leap then 366 else 365)) as H;
    [|apply H; lia].
  clear m Hm.
  refine (Z_range_cases (λ m, ∀ d, _ → _) 1 12 _). intros i Hi.
  do 12 (destruct i as [|i];
    [repeat match goal with
            | |- context [DAYS_IN_MONTH ?a] =>
                let v := eval vm_compute in (DAYS_IN_MONTH a) in
                change (DAYS_IN_MONTH a) with v
            | |- context [DAYS_BEFORE_MONTH ?a] =>
                let v := eval vm_compute in (DAYS_BEFORE_MONTH a) in
                change (DAYS_BEFORE_MONTH a) with v
            | |- context [?a =? 2] =>
                let v := eval vm_compute in (a =? 2) in change (a =? 2) with v
            | |- context [2 <? ?a] =>
                let v := eval vm_compute in (2 <? a) in change (2 <? a) with v
            end; destruct leap; cbn [andb]; lia|]).
  lia.
Qed.

Lemma days_before_year_bound y :
  1 ≤ y ≤ 9999 → 0 ≤ days_before_year y ≤ 3651694.
Proof.
  intros Hy. unfold days_before_year. cbv zeta.
  Z.div_mod_to_equations. lia.
Qed.

Lemma ymd2ord_range y m d :
  1 ≤ y ≤ 9999 → 1 ≤ m ≤ 12 → 1 ≤ d ≤ days_in_month y m →
  1 ≤ ymd2ord y m d ≤ MAXORDINAL.
Proof.
  intros Hy Hm Hd. pose proof (month_day_bound y m d Hm Hd) as Hb.
  pose proof (days_before_year_bound y Hy) as Hy'.
  unfold ymd2ord, MAXORDINAL.
  assert (Hleap : is_leap y = true → y ≤ 9996).
  { unfold is_leap. intros H%andb_true_iff. destruct H as [H%Z.eqb_eq _].
    Z.div_mod_to_equations. lia. }
  destruct (is_leap y).
  - specialize (Hleap eq_refl).
    assert (days_before_year y ≤ 3650598).
    { unfold days_before_year. cbv zeta. Z.div_mod_to_equations. lia. }
    lia.
  - lia.
Qed.

Lemma make_date_range y m d n :
  make_date y m d = Ok n → 1 ≤ n ≤ MAXORDINAL.
Proof.
  unfold make_date. destruct (_ && _) eqn:E; [|done]. intros [= <-].
  repeat (apply andb_true_iff in E as [E ?]).
  apply ymd2ord_range; lia.
Qed.

Lemma strptime_range s n : strptime s = Ok n → 1 ≤ n ≤ MAXORDINAL.
Proof.
  unfold strptime. intros H.
  repeat match type of H with
         | match ?x with _ => _ end = _ => destruct x; try done
         end.
  by eapply make_date_range.
Qed.

(** ** The DimDate loop *)

Lemma after_insert_DimDate d rs vals :
  d !! "DimDate" = Some (DimDate_table rs) →
  length vals = 8%nat →
  (∀ r, r ∈ rs → field 0 r ≠ field 0 vals) →
  after (insert_values "DimDate" vals) d
  = <["DimDate" := DimDate_table (rs ++ [vals])]> d.
Proof.
  intros Hd Hlen Hnew. unfold after, insert_values. rewrite Hd. simpl.
  rewrite bool_decide_eq_true_2 by done.
  unfold pkey_conflict. simpl.
  rewrite (bool_decide_eq_false_2 (_ ∈ _)); [by rewrite andb_false_r|].
  intros (r & Heq & Hr)%list_elem_of_fmap. by eapply Hnew.
Qed.

Lemma seqZ_cons_pos m n : 0 < n → seqZ m n = m :: seqZ (m + 1) (n - 1).
Proof. intros H. rewrite seqZ_cons by done. by rewrite Z.pred_succ || done. Qed.

Lemma insert_dates_spec fuel : ∀ current_date end_date w rs,
  wdb w !! "DimDate" = Some (DimDate_table rs) →
  (∀ r, r ∈ rs → ∃ k, 1 ≤ k < current_date ∧ field 0 r = VText (strftime k)) →
  1 ≤ current_date → end_date ≤ MAXORDINAL →
  (Z.to_nat (end_date - current_date + 1) < fuel)%nat →
  ∃ o w',
    insert_dates fuel current_date end_date w = Some (o, w')
    ∧ wdb w'
      = <["DimDate" := DimDate_table
            (rs ++ (DimDate_row <$> seqZ current_date (end_date - current_date + 1)))]>
          (wdb w)
    ∧ (end_date < MAXORDINAL → o = Ok tt).
Proof.
  induction fuel as [|fuel IH]; intros cur end_ w rs Hd Hrs Hcur Hend Hfuel; [lia|].
  simpl. destruct (cur <=? end_) eqn:Ele.
  - apply Z.leb_le in Ele.
    unfold bind at 1. rewrite execute_query_eq.
    rewrite (after_insert_DimDate _ rs) by
      (try done; intros r (k & Hk & ->)%Hrs; simpl; intros [= Heq];
       apply strftime_inj in Heq; lia).
    cbn [wdb wout]. rewrite (seqZ_cons_pos cur) by lia.
    replace (end_ - cur + 1 - 1) with (end_ - (cur + 1) + 1) by lia.
    unfold bind at 1, lift, next_day.
    destruct ((0 <? cur + 1) && (cur + 1 <=? MAXORDINAL)) eqn:Enext.
    + set (w1 := {| wdb := _; wout := _ |}).
      destruct (IH (cur + 1) end_ w1 (rs ++ [DimDate_row cur])%list) as (o & w' & Hrun & Hdb & Ho).
      * subst w1. cbn [wdb]. apply lookup_insert_eq.
      * intros r [Hr|Hr%list_elem_of_singleton]%elem_of_app.
        -- destruct (Hrs r Hr) as (k & Hk & Hf). exists k. split; [lia|done].
        -- subst r. exists cur. split; [lia|done].
      * lia.
      * done.
      * lia.
      * exists o, w'. split; [done|]. split; [|done].
        rewrite Hdb. subst w1. cbn [wdb]. rewrite insert_insert_eq.
        by rewrite <- app_assoc.
    + assert (cur = end_ ∧ end_ = MAXORDINAL) as [-> ->].
      { apply andb_false_iff in Enext as [H%Z.ltb_ge|H%Z.leb_gt]; lia. }
      eexists _, _. split; [done|]. split; [|lia].
      cbn [wdb]. rewrite seqZ_nil by lia. done.
  - apply Z.leb_gt in Ele. exists (Ok tt), w. split; [done|]. split; [|done].
    rewrite seqZ_nil by lia. rewrite app_nil_r. by rewrite insert_id.
Qed.

(** ** The DimDate part of the dimension build *)

Lemma index_of_elem c cs : c ∈ cs → ∃ i, index_of c cs = Some i.
Proof.
  induction cs as [|x cs IH]; intros H; [by apply elem_of_nil in H|].
  simpl. case_decide; [eauto|].
  apply elem_of_cons in H as [->|H]; [done|].
  destruct (IH H) as [i ->]. eauto.
Qed.

Lemma column_values_eq c src d t :
  d !! src = Some t → c ∈ cols t → column_values c src d = Some (column t c).
Proof.
  intros Ht Hc. unfold column_values. rewrite Ht. simpl.
  rewrite resolve_single. destruct (index_of_elem _ _ Hc) as [i Hi].
  rewrite Hi. simpl. f_equal. unfold column. apply list_fmap_ext.
  intros k r _. by rewrite (cell_field _ _ _ _ Hi).
Qed.

Lemma date_formats_valid fts vmin vmax dmin dmax w :
  date_bounds fts vmin vmax dmin dmax →
  ∃ min_date max_date,
    date_formats fts vmin vmax w = Some (Ok (Some (min_date, max_date)), w)
    ∧ strptime_value min_date = lift (Ok dmin)
    ∧ strptime_value max_date = lift (Ok dmax)
    ∧ 1 ≤ dmin ≤ MAXORDINAL ∧ 1 ≤ dmax ≤ MAXORDINAL.
Proof.
  intros [(s1 & s2 & -> & -> & H1 & H2)|(t1 & t2 & -> & -> & H1 & H2 & R1 & R2)].
  - exists (VText s1), (VText s2).
    unfold date_formats, try_except, bind, strptime_value, lift. rewrite H1, H2.
    repeat split; try done; by eapply strptime_range.
  - exists (VText (strftime dmin)), (VText (strftime dmax)).
    unfold date_formats, try_except, bind, fromtimestamp_value, strptime_value, lift.
    rewrite H1, H2. simpl. by rewrite !strptime_strftime.
Qed.

Lemma create_DimDate_spec fts fuel w g dmin dmax :
  wdb w !! "gameinfo" = Some g →
  "date" ∈ cols g →
  wdb w !! "DimDate" = None →
  date_bounds fts (sql_min (column g "date")) (sql_max (column g "date")) dmin dmax →
  (Z.to_nat (dmax - dmin + 1) < fuel)%nat →
  ∃ o w',
    create_DimDate fts fuel w = Some (o, w')
    ∧ wdb w'
      = <["DimDate" := DimDate_table (DimDate_row <$> seqZ dmin (dmax - dmin + 1))]>
          (wdb w)
    ∧ (dmax < MAXORDINAL → o = Ok tt).
Proof.
  intros Hg Hdate Hnone Hbounds Hfuel.
  unfold create_DimDate, bind at 1 2 3, print.
  rewrite !execute_query_eq. cbn [wdb wout]. rewrite !after_query.
  unfold fetched, query, select_min, select_max.
  rewrite !(column_values_eq _ _ _ _ Hg Hdate). cbn [mbind option_bind is_empty orb first_cell].
  change (field 0 [?v]) with v.
  set (w1 := {| wdb := wdb w; wout := _ |}).
  destruct (date_formats_valid fts _ _ _ _ w1 Hbounds)
    as (min_date & max_date & Hfmt & Hmin & Hmax & Rmin & Rmax).
  unfold bind at 1. rewrite Hfmt.
  unfold bind at 1. rewrite execute_query_eq. cbn [wdb wout].
  assert (Hcreate : after (create_table "DimDate" DimDate_columns (Some "date_id")) (wdb w1)
                    = <["DimDate" := DimDate_table []]> (wdb w1)).
  { unfold after, create_table. subst w1. cbn [wdb]. by rewrite Hnone. }
  rewrite Hcreate. rewrite Hmin, Hmax. unfold bind at 1 2, lift.
  set (w2 := {| wdb := _; wout := _ |}).
  destruct (insert_dates_spec fuel dmin dmax w2 []) as (o & w' & Hrun & Hdb & Ho).
  - subst w2. cbn [wdb]. apply lookup_insert_eq.
  - intros r Hr. by apply elem_of_nil in Hr.
  - lia.
  - lia.
  - done.
  - unfold bind. rewrite Hrun. destruct o as [[]|e].
    + eexists _, _. split; [done|]. split; [|done].
      cbn [wdb]. rewrite Hdb. subst w2 w1. cbn [wdb]. by rewrite insert_insert_eq.
    + eexists _, _. split; [done|]. split; [|done].
      rewrite Hdb. subst w2 w1. cbn [wdb]. by rewrite insert_insert_eq.
Qed.

Lemma static_dims_db_source d n :
  n ∈ required_tables → static_dims_db d !! n = d !! n.
Proof.
  intros Hn. unfold static_dims_db.
  rewrite !lookup_after_create_as_ne, !lookup_delete_ne; [done|..];
    intros <-; unfold required_tables in Hn; set_solver.
Qed.

Lemma static_dims_db_DimDate d : static_dims_db d !! "DimDate" = None.
Proof.
  unfold static_dims_db. rewrite !lookup_after_create_as_ne by done.
  apply lookup_delete_eq.
Qed.

(** ** C2: the date dimension *)



(** ** C8: date bounds that are missing or cannot be parsed *)

Lemma create_DimDate_null fts fuel w g :
  wdb w !! "gameinfo" = Some g →
  "date" ∈ cols g →
  sql_min (column g "date") = VNull →
  ∃ out, create_DimDate fts fuel w
         = Some (Raise TypeError, {| wdb := wdb w; wout := out |}).
Proof.
  intros Hg Hdate Hmin.
  unfold create_DimDate, bind at 1 2 3, print.
  rewrite !execute_query_eq. cbn [wdb wout]. rewrite !after_query.
  unfold fetched, query, select_min, select_max.
  rewrite !(column_values_eq _ _ _ _ Hg Hdate).
  cbn [mbind option_bind is_empty orb first_cell].
  change (field 0 [?v]) with v. rewrite Hmin.
  unfold bind, date_formats, try_except, strptime_value, raise, except_ValueError.
  eauto.
Qed.

(** C8, what the code does when the bounds are missing.  When all six
    source tables exist and gameinfo has a date column without any
    non-NULL date (for instance no row at all), MIN(date) is NULL,
    [strptime] raises TypeError, which [except ValueError] does not
    catch: the build prints the error and stops after the first three
    dimension tables.  No DimDate table is left, but the fact tables are
    not rebuilt (they are as before the call), and no index or count
    statement runs. *)
Theorem build_stops_on_null_date_bounds fts fuel (d : db) (g : table) :
  missing_tables d = [] →
  d !! "gameinfo" = Some g →
  "date" ∈ cols g →
  sql_min (column g "date") = VNull →
  ∃ out,
    build fts fuel d
    = Some (Ok tt,
            {| wdb := static_dims_db d;
               wout := (out ++ [BuildError TypeError;
                                Say "Database connection closed";
                                Say "Data warehouse build completed"])%list |})
    ∧ static_dims_db d !! "DimDate" = None
    ∧ ∀ n, n ∈ fact_tables → static_dims_db d !! n = d !! n.
Proof.
  intros Hmissing Hg Hdate Hmin.
  set (w1 := {| wdb := d;
                wout := [Say "Starting data warehouse build...";
                         Say "Connected to database"] |}).
  destruct (create_dimension_tables_split fts fuel w1) as [out0 Hsplit].
  destruct (create_DimDate_null fts fuel
              {| wdb := static_dims_db (wdb w1); wout := out0 |} g) as [out Hnull];
    try done.
  { cbn [wdb]. rewrite static_dims_db_source; [done|].
    unfold required_tables. set_solver. }
  rewrite Hnull in Hsplit.
  exists out. split; [|split].
  - unfold build, build_data_warehouse, bind at 1 2, print. cbn [wdb wout app].
    fold w1. unfold bind at 1, try_finally, try_except, bind at 1.
    rewrite verify_source_tables_eq. subst w1. cbn [wdb]. rewrite Hmissing.
    cbn [negb]. unfold bind at 1. rewrite Hsplit.
    unfold bind, print, ret. cbn [wdb wout].
    by rewrite <- !app_assoc.
  - apply static_dims_db_DimDate.
  - intros n Hn. unfold static_dims_db.
    rewrite !lookup_after_create_as_ne, !lookup_delete_ne; [done|..];
      intros <-; unfold fact_tables in Hn; set_solver.
Qed.

Lemma build_stops_on_null_date_bounds_witness :
  ∃ w, build no_timestamp 10 (season_db []) = Some (Ok tt, w)
       ∧ wout w = [Say "Starting data warehouse build...";
                   Say "Connected to database"; Say "Creating dimension tables...";
                   Say "Creating DimPlayer..."; Say "Creating DimTeam...";
                   Say "Creating DimGame..."; Say "Creating DimDate...";
                   BuildError TypeError; Say "Database connection closed";
                   Say "Data warehouse build completed"]
       ∧ wdb w !! "DimDate" = None
       ∧ wdb w !! "FactGameOutcomes" = None.
Proof.
  destruct (build_stops_on_null_date_bounds no_timestamp 10 (season_db [])
              (sample_table (cols league_gameinfo) []))
    as (out & Hrun & Hdate & Hfacts).
  - vm_compute; reflexivity.
  - vm_compute; reflexivity.
  - vm_compute; set_solver.
  - vm_compute; reflexivity.
  - eexists. split; [exact Hrun|]. cbn [wdb wout].
    split; [|split].
    + assert (Hrun' : ∃ w, build no_timestamp 10 (season_db []) = Some (Ok tt, w)
        ∧ wout w = [Say "Starting data warehouse build...";
                   Say "Connected to database"; Say "Creating dimension tables...";
                   Say "Creating DimPlayer..."; Say "Creating DimTeam...";
                   Say "Creating DimGame..."; Say "Creating DimDate...";
                   BuildError TypeError; Say "Database connection closed";
                   Say "Data warehouse build completed"]).
      { eexists. split; vm_compute; reflexivity. }
      destruct Hrun' as (w & Hw & Hout). rewrite Hrun in Hw.
      injection Hw as <-. exact Hout.
    + exact Hdate.
    + vm_compute; reflexivity.
Defined.

(** C8 on three concrete source databases: with no game at all the build
    stops with TypeError; with a valid minimum and an unparsable maximum
    date it stops with ValueError and leaves an empty DimDate table; with
    an unparsable minimum date it prints the warning, leaves no DimDate
    table and goes on with the fact tables, the indexes and the counts. *)
Lemma build_date_bound_cases :
  (∃ w, build no_timestamp 10 (season_db []) = Some (Ok tt, w)
        ∧ wout w = [Say "Starting data warehouse build...";
                    Say "Connected to database"; Say "Creating dimension tables...";
                    Say "Creating DimPlayer..."; Say "Creating DimTeam...";
                    Say "Creating DimGame..."; Say "Creating DimDate...";
                    BuildError TypeError; Say "Database connection closed";
                    Say "Data warehouse build completed"]
        ∧ wdb w !! "DimDate" = None
        ∧ wdb w !! "FactGameOutcomes" = None)
  ∧ (∃ w, build no_timestamp 10 (season_db [VText "2021-03-01"; VText "unknown"])
          = Some (Ok tt, w)
          ∧ wout w = [Say "Starting data warehouse build...";
                      Say "Connected to database"; Say "Creating dimension tables...";
                      Say "Creating DimPlayer..."; Say "Creating DimTeam...";
                      Say "Creating DimGame..."; Say "Creating DimDate...";
                      BuildError ValueError; Say "Database connection closed";
                      Say "Data warehouse build completed"]
          ∧ wdb w !! "DimDate" = Some (DimDate_table [])
          ∧ wdb w !! "FactGameOutcomes" = None)
  ∧ (∃ w, build no_timestamp 10 (season_db [VText "03/01/2021"]) = Some (Ok tt, w)
          ∧ wout w = [Say "Starting data warehouse build...";
                      Say "Connected to database"; Say "Creating dimension tables...";
                      Say "Creating DimPlayer..."; Say "Creating DimTeam...";
                      Say "Creating DimGame..."; Say "Creating DimDate...";
                      UnsupportedDate (VText "03/01/2021");
                      Say "Creating fact tables..."; Say "Creating FactBatting...";
                      FactCreated "FactBatting" (VInt 1);
                      Say "Creating FactPitching...";
                      FactCreated "FactPitching" (VInt 1);
                      Say "Creating FactGameOutcomes...";
                      FactCreated "FactGameOutcomes" (VInt 1);
                      Say "Created all fact tables"; Say "Creating indexes...";
                      Say "Created indexes"; Say "Verifying table counts:";
                      TableCount "DimPlayer" (VInt 2); TableCount "DimTeam" (VInt 4);
                      TableCount "DimGame" (VInt 1);
                      QueryError "SELECT COUNT( * ) FROM DimDate;";
                      CountFailed "DimDate"; TableCount "FactBatting" (VInt 1);
                      TableCount "FactPitching" (VInt 1);
                      TableCount "FactGameOutcomes" (VInt 1);
                      Say "Database connection closed";
                      Say "Data warehouse build completed"]
          ∧ wdb w !! "DimDate" = None
          ∧ length (rows (default (DimDate_table []) (wdb w !! "FactGameOutcomes")))
            = 1%nat).
Proof.
  split; [|split]; eexists; (split; [vm_compute; reflexivity|]);
    cbn [wdb wout]; repeat split; vm_compute; reflexivity.
Qed.

(** ** Computations determined by some tables *)

Lemma determined_by_ret {A} names (a : A) : determined_by names (ret a).
Proof. by intros w1 w2 H. Qed.

Lemma determined_by_raise {A} names e : determined_by names (@raise A e).
Proof. by intros w1 w2 H. Qed.

Lemma determined_by_lift {A} names (o : outcome A) : determined_by names (lift o).
Proof. by intros w1 w2 H. Qed.

Lemma determined_by_print names e : determined_by names (print e).
Proof. by intros w1 w2 H. Qed.

Lemma determined_by_out_of_fuel {A} names : determined_by names (@out_of_fuel A).
Proof. by intros w1 w2 H. Qed.

Lemma determined_by_bind {A B} names (m : M A) (k : A → M B) :
  determined_by names m → (∀ a, determined_by names (k a)) →
  determined_by names (bind m k).
Proof.
  intros Hm Hk w1 w2 H. specialize (Hm w1 w2 H). unfold bind, same_result in *.
  destruct (m w1) as [[[a1|e1] v1]|], (m w2) as [[[a2|e2] v2]|]; try done;
    destruct Hm as [Ho Hv]; simplify_eq; try done.
  by apply Hk.
Qed.

Lemma determined_by_try_except {A} names (m : M A) (h : exn → M A) :
  determined_by names m → (∀ e, determined_by names (h e)) →
  determined_by names (try_except m h).
Proof.
  intros Hm Hh w1 w2 H. specialize (Hm w1 w2 H). unfold try_except, same_result in *.
  destruct (m w1) as [[[a1|e1] v1]|], (m w2) as [[[a2|e2] v2]|]; try done;
    destruct Hm as [Ho Hv]; simplify_eq; try done.
  by apply Hh.
Qed.

Lemma determined_by_execute_query names sql s fetch :
  stmt_determined_by names s → determined_by names (execute_query sql s fetch).
Proof.
  intros Hs w1 w2 H. specialize (Hs _ _ H).
  rewrite !execute_query_eq. unfold same_result, fetched, after. cbn [wdb].
  destruct (s (wdb w1)) as [[rs1 d1]|], (s (wdb w2)) as [[rs2 d2]|]; try done.
  destruct Hs as [-> Hd]. done.
Qed.

Lemma stmt_determined_by_query names q :
  (∀ d1 d2, agree names d1 d2 → q d1 = q d2) → stmt_determined_by names (query q).
Proof.
  intros Hq d1 d2 H. unfold query. rewrite (Hq _ _ H).
  destruct (q d2); simpl; done.
Qed.

Lemma agree_insert names name t d1 d2 :
  agree names d1 d2 → agree names (<[name := t]> d1) (<[name := t]> d2).
Proof.
  intros H n Hn. destruct (decide (name = n)) as [->|Hne].
  - by rewrite !lookup_insert_eq.
  - rewrite !lookup_insert_ne by done. by apply H.
Qed.

Lemma stmt_determined_by_create names name cs k :
  name ∈ names → stmt_determined_by names (create_table name cs k).
Proof.
  intros Hin d1 d2 H. unfold create_table. rewrite (H name Hin).
  destruct (d2 !! name); [done|]. split; [done|]. by apply agree_insert.
Qed.

Lemma stmt_determined_by_insert names name vals :
  name ∈ names → stmt_determined_by names (insert_values name vals).
Proof.
  intros Hin d1 d2 H. unfold insert_values. rewrite (H name Hin).
  destruct (d2 !! name); simpl; [|done].
  destruct (_ && _); [|done]. split; [done|]. by apply agree_insert.
Qed.

Ltac determined :=
  repeat first
    [ apply determined_by_ret | apply determined_by_raise
    | apply determined_by_lift | apply determined_by_print
    | apply determined_by_out_of_fuel
    | apply determined_by_bind; [|intros ?]
    | apply determined_by_try_except; [|intros ?]
    | apply determined_by_execute_query
    | apply stmt_determined_by_create; solve [repeat constructor]
    | apply stmt_determined_by_insert; solve [repeat constructor]
    | match goal with
      | |- determined_by _ (match ?x with _ => _ end) => destruct x
      | |- determined_by _ (if ?x then _ else _) => destruct x
      end ].

Lemma insert_dates_determined fuel current_date end_date :
  determined_by ["gameinfo"; "DimDate"] (insert_dates fuel current_date end_date).
Proof.
  revert current_date. induction fuel as [|fuel IH]; intros current_date; simpl.
  - determined.
  - unfold next_day. determined. apply IH.
Qed.

Lemma create_DimDate_determined fts fuel :
  determined_by ["gameinfo"; "DimDate"] (create_DimDate fts fuel).
Proof.
  unfold create_DimDate, date_formats, fromtimestamp_value, strptime_value,
    except_ValueError.
  determined;
    try (apply stmt_determined_by_query; intros d1 d2 H;
         unfold select_min, select_max;
         rewrite (column_values_agree _ _ d1 d2); [done|];
         apply H; repeat constructor).
  apply insert_dates_determined.
Qed.

(** ** The stages of the build as functions of the database *)

Lemma static_dims_db_DimGame d :
  static_dims_db d !! "DimGame" = materialize <$> DimGame_select d.
Proof.
  unfold static_dims_db. rewrite lookup_after_create_as.
  - apply (f_equal (fmap materialize)). apply DimGame_select_agree.
    intros n Hn. rewrite !lookup_after_create_as_ne.
    + by apply agree_required_drop_dimensions.
    + intros <-. unfold required_tables in Hn. set_solver.
    + intros <-. unfold required_tables in Hn. set_solver.
  - rewrite !lookup_after_create_as_ne by done.
    rewrite !lookup_delete_ne by done. apply lookup_delete_eq.
Qed.

Lemma create_each_index_eq l : ∀ w,
  ∃ out, create_each_index l w
         = Some (Ok tt,
                 {| wdb := foldl (λ d '(idx, tbl, col),
                                    after (create_index_if_not_exists idx tbl col) d)
                                 (wdb w) l;
                    wout := out |}).
Proof.
  induction l as [|[[idx tbl] col] l IH]; intros w; simpl.
  - exists (wout w). by destruct w.
  - unfold bind. rewrite execute_query_eq.
    destruct (IH {| wdb := after (create_index_if_not_exists idx tbl col) (wdb w);
                    wout := (wout w ++ complaint
                      ("CREATE INDEX IF NOT EXISTS " +:+ idx +:+ " ON " +:+ tbl
                         +:+ "(" +:+ col +:+ ");")
                      (create_index_if_not_exists idx tbl col) (wdb w))%list |})
      as [out Hout].
    rewrite Hout. eauto.
Qed.

Lemma create_indexes_eq w :
  ∃ out, _create_indexes w
         = Some (Ok tt, {| wdb := indexes_db (wdb w); wout := out |}).
Proof.
  unfold _create_indexes, bind at 1, print. cbn [wdb wout].
  destruct (create_each_index_eq index_list
              {| wdb := wdb w; wout := (wout w ++ [Say "Creating indexes..."])%list |})
    as [out Hout].
  unfold bind. rewrite Hout. unfold print, indexes_db. cbn [wdb wout].
  eexists. reflexivity.
Qed.

Lemma count_each_eq tables : ∀ w,
  ∃ out, count_each tables w = Some (Ok tt, {| wdb := wdb w; wout := out |}).
Proof.
  induction tables as [|t ts IH]; intros w; simpl.
  - exists (wout w). by destruct w.
  - unfold bind at 1. rewrite execute_query_eq, after_query.
    unfold bind at 1.
    destruct (is_empty _); unfold print; cbn [wdb wout];
      apply (IH {| wdb := wdb w; wout := _ |}).
Qed.

Lemma verify_table_counts_eq w :
  ∃ out, _verify_table_counts w = Some (Ok tt, {| wdb := wdb w; wout := out |}).
Proof.
  unfold _verify_table_counts, bind, print. cbn [wdb wout].
  apply (count_each_eq _ {| wdb := wdb w; wout := _ |}).
Qed.

Lemma build_db fts fuel d :
  missing_tables d = [] →
  (λ r, wdb r.2) <$> build fts fuel d
  = db_after_dimensions
      (_create_dimension_tables fts fuel
         {| wdb := d;
            wout := [Say "Starting data warehouse build...";
                     Say "Connected to database"] |}).
Proof.
  intros Hmissing.
  unfold build, build_data_warehouse, bind at 1 2, print. cbn [wdb wout app].
  unfold bind at 1, try_finally, try_except, bind at 1.
  rewrite verify_source_tables_eq. cbn [wdb]. rewrite Hmissing. cbn [negb].
  unfold bind at 1.
  destruct (_create_dimension_tables _ _ _) as [[[[]|e] wD]|]; [| |done].
  - destruct (create_fact_tables_eq wD) as [out1 H1].
    unfold bind at 1. rewrite H1.
    destruct (create_indexes_eq {| wdb := facts_db (wdb wD); wout := out1 |})
      as [out2 H2].
    unfold bind at 1. rewrite H2. cbn [wdb].
    destruct (verify_table_counts_eq
                {| wdb := indexes_db (facts_db (wdb wD)); wout := out2 |})
      as [out3 H3].
    unfold bind at 1. rewrite H3. done.
  - done.
Qed.

Lemma build_outcome fts fuel d o w : build fts fuel d = Some (o, w) → o = Ok tt.
Proof.
  unfold build, build_data_warehouse, bind at 1 2, print. cbn [wdb wout app].
  unfold bind at 1, try_finally.
  destruct (try_except _ _ _) as [[[[]|e] w1]|] eqn:E; simpl; try done.
  - by intros [= <- _].
  - by intros [= <- _].
  - exfalso. unfold try_except in E.
    destruct (bind _ _ _) as [[[b|e'] w2]|]; try done.
Qed.

(** ** C5: building twice *)

Lemma facts_db_footprint d : only_changes fact_tables d (facts_db d).
Proof.
  intros n Hn. unfold facts_db.
  rewrite !lookup_after_create_as_ne, !lookup_delete_ne; [done|..];
    intros <-; unfold fact_tables in Hn; set_solver.
Qed.

Lemma facts_db_agree d d' :
  only_changes fact_tables d d' → facts_db d' = facts_db d.
Proof.
  intros H. unfold facts_db. do 3 f_equal. apply map_eq. intros n.
  rewrite !lookup_delete. repeat case_decide; try done.
  apply H. unfold fact_tables. set_solver.
Qed.

Lemma indexes_db_footprint d :
  only_changes (dimension_tables ++ fact_tables) d (indexes_db d).
Proof.
  unfold indexes_db, index_list, dimension_tables, fact_tables. cbn [foldl app].
  repeat (eapply only_changes_trans;
          [|apply stmt_modifies_only_create_index; solve [repeat constructor]]).
  apply only_changes_refl.
Qed.

Lemma missing_tables_agree d d' :
  agree required_tables d d' → missing_tables d = missing_tables d'.
Proof.
  intros H. unfold missing_tables, required_tables.
  rewrite !filter_cons, !filter_nil.
  rewrite (H "gameinfo"), (H "batting"), (H "pitching"), (H "allplayers"),
    (H "teamstats"), (H "fielding") by (unfold required_tables; repeat constructor).
  done.
Qed.

Lemma create_dimension_tables_sources fts fuel w1 w2 :
  agree required_tables (wdb w1) (wdb w2) →
  same_result dimension_tables
    (_create_dimension_tables fts fuel w1) (_create_dimension_tables fts fuel w2).
Proof.
  intros H.
  destruct (create_dimension_tables_split fts fuel w1) as [out1 E1].
  destruct (create_dimension_tables_split fts fuel w2) as [out2 E2].
  rewrite E1, E2.
  set (v1 := {| wdb := static_dims_db (wdb w1); wout := out1 |}).
  set (v2 := {| wdb := static_dims_db (wdb w2); wout := out2 |}).
  assert (Hpre : agree ["gameinfo"; "DimDate"] (wdb v1) (wdb v2)).
  { intros n Hn. subst v1 v2. cbn [wdb].
    apply elem_of_cons in Hn as [->|Hn%list_elem_of_singleton].
    - rewrite !static_dims_db_source by (unfold required_tables; set_solver).
      apply H. unfold required_tables. set_solver.
    - subst n. by rewrite !static_dims_db_DimDate. }
  pose proof (create_DimDate_determined fts fuel v1 v2 Hpre) as Hsim.
  pose proof (create_DimDate_footprint fts fuel v1) as Hf1.
  pose proof (create_DimDate_footprint fts fuel v2) as Hf2.
  unfold same_result in *.
  destruct (create_DimDate fts fuel v1) as [[o1 u1]|],
           (create_DimDate fts fuel v2) as [[o2 u2]|]; try done.
  destruct Hsim as [-> Hpost]. split; [done|].
  specialize (Hf1 _ _ eq_refl). specialize (Hf2 _ _ eq_refl).
  intros n Hn. unfold dimension_tables in Hn.
  assert (Hstatic : n ≠ "DimDate" → wdb u1 !! n = wdb u2 !! n
                    ∨ static_dims_db (wdb w1) !! n ≠ static_dims_db (wdb w2) !! n).
  { intros Hne. left. rewrite Hf1, Hf2 by set_solver. subst v1 v2. cbn [wdb].
    apply elem_of_cons in Hn as [->|Hn]; [|apply elem_of_cons in Hn as [->|Hn];
      [|apply elem_of_cons in Hn as [->|Hn%list_elem_of_singleton]]].
    - rewrite !static_dims_db_DimPlayer. by rewrite (DimPlayer_select_agree _ _ H).
    - rewrite !static_dims_db_DimTeam. by rewrite (DimTeam_select_agree _ _ H).
    - rewrite !static_dims_db_DimGame. by rewrite (DimGame_select_agree _ _ H).
    - done. }
  destruct (decide (n = "DimDate")) as [->|Hne].
  - apply Hpost. set_solver.
  - destruct (Hstatic Hne) as [Heq|Hbad]; [done|].
    exfalso. apply Hbad. apply elem_of_cons in Hn as [->|Hn];
      [|apply elem_of_cons in Hn as [->|Hn];
        [|apply elem_of_cons in Hn as [->|Hn%list_elem_of_singleton]]].
    + rewrite !static_dims_db_DimPlayer. by rewrite (DimPlayer_select_agree _ _ H).
    + rewrite !static_dims_db_DimTeam. by rewrite (DimTeam_select_agree _ _ H).
    + rewrite !static_dims_db_DimGame. by rewrite (DimGame_select_agree _ _ H).
    + done.
Qed.

Lemma build_when_missing fts fuel d :
  missing_tables d ≠ [] → ∃ out, build fts fuel d = Some (Ok tt, {| wdb := d; wout := out |}).
Proof.
  intros Hm. unfold build, build_data_warehouse, bind, print, try_finally, try_except.
  simpl. rewrite verify_source_tables_eq. simpl.
  destruct (missing_tables d); [done|]. eauto.
Qed.

Lemma build_keeps_sources fts fuel d o w :
  build fts fuel d = Some (o, w) → agree required_tables d (wdb w).
Proof.
  intros Hrun.
  destruct (decide (missing_tables d = [])) as [Hm|Hm].
  - pose proof (build_db fts fuel d Hm) as Hdb. rewrite Hrun in Hdb.
    cbn [fmap option_fmap option_map snd] in Hdb.
    destruct (_create_dimension_tables _ _ _) as [[oD wD]|] eqn:ED; [|done].
    apply create_dimension_tables_footprint in ED. cbn [wdb] in ED.
    intros n Hn.
    assert ((n ∉ dimension_tables) ∧ (n ∉ fact_tables)) as [Hd Hf].
    { unfold required_tables, dimension_tables, fact_tables in *. set_solver. }
    destruct oD as [[]|e]; cbn [db_after_dimensions] in Hdb; injection Hdb as Hw;
      rewrite Hw.
    + rewrite indexes_db_footprint by (by intros [?|?]%elem_of_app).
      rewrite facts_db_footprint by done. by rewrite ED.
    + by rewrite ED.
  - destruct (build_when_missing fts fuel d Hm) as [out Hout].
    rewrite Hout in Hrun. by injection Hrun as <- <-.
Qed.

(** C5. A build that ends leaves a database on which a second build, run
    on the unchanged source tables, ends with exactly the same database:
    every dimension and fact table has the same rows (and the same
    indexes) after the second build as after the first. *)
Theorem build_idempotent fts fuel (d : db) (o : outcome unit) (w : world) :
  build fts fuel d = Some (o, w) →
  ∃ w', build fts fuel (wdb w) = Some (Ok tt, w') ∧ wdb w' = wdb w.
Proof.
  intros Hrun.
  pose proof (build_keeps_sources _ _ _ _ _ Hrun) as Hsrc.
  destruct (decide (missing_tables d = [])) as [Hm|Hm].
  - pose proof (build_db fts fuel d Hm) as Hdb. rewrite Hrun in Hdb.
    cbn [fmap option_fmap option_map snd] in Hdb.
    assert (Hm2 : missing_tables (wdb w) = [])
      by (by rewrite <- (missing_tables_agree _ _ Hsrc)).
    pose proof (build_db fts fuel (wdb w) Hm2) as Hdb2.
    set (w1 := {| wdb := d; wout := _ |}) in Hdb.
    set (w2 := {| wdb := wdb w; wout := _ |}) in Hdb2.
    pose proof (create_dimension_tables_sources fts fuel w1 w2 Hsrc) as Hsim.
    pose proof (create_dimension_tables_footprint fts fuel w1) as Hf1.
    pose proof (create_dimension_tables_footprint fts fuel w2) as Hf2.
    unfold same_result in Hsim.
    destruct (_create_dimension_tables fts fuel w1) as [[o1 u1]|]; [|done].
    destruct (_create_dimension_tables fts fuel w2) as [[o2 u2]|]; [|done].
    destruct Hsim as [<- Hdims].
    specialize (Hf1 _ _ eq_refl). specialize (Hf2 _ _ eq_refl).
    subst w1 w2. cbn [wdb] in Hf1, Hf2.
    assert (Hsame : db_after_dimensions (Some (o1, u2)) = Some (wdb w)).
    { destruct o1 as [[]|e]; cbn [db_after_dimensions] in *; injection Hdb as Hw.
      - rewrite Hw. do 2 f_equal. apply facts_db_agree.
        intros n Hn. destruct (decide (n ∈ dimension_tables)) as [Hd|Hd].
        + symmetry. by apply Hdims.
        + rewrite Hf2 by done. rewrite Hw.
          rewrite indexes_db_footprint by (by intros [?|?]%elem_of_app).
          by rewrite facts_db_footprint.
      - f_equal. apply map_eq. intros n.
        destruct (decide (n ∈ dimension_tables)) as [Hd|Hd].
        + rewrite Hw. symmetry. by apply Hdims.
        + by rewrite Hf2. }
    rewrite Hsame in Hdb2.
    destruct (build fts fuel (wdb w)) as [[o' w']|] eqn:E2; [|done].
    injection Hdb2 as Hw'. cbn [snd] in Hw'.
    rewrite (build_outcome _ _ _ _ _ E2). eauto.
  - destruct (build_when_missing fts fuel d Hm) as [out Hout].
    rewrite Hout in Hrun. injection Hrun as <- <-. cbn [wdb]. eauto.
Qed.

Lemma build_idempotent_witness :
  build no_timestamp 10 league_db = Some (Ok tt, league_built)
  ∧ ∃ w', build no_timestamp 10 (wdb league_built) = Some (Ok tt, w')
          ∧ wdb w' = wdb league_built.
Proof.
  assert (Hrun : build no_timestamp 10 league_db = Some (Ok tt, league_built))
    by (vm_compute; reflexivity).
  split; [exact Hrun|].
  exact (build_idempotent no_timestamp 10 league_db (Ok tt) league_built Hrun).
Defined.

(** ** Selecting every column of a table *)

Lemma index_of_app_NoDup pre c post :
  NoDup (pre ++ c :: post) → index_of c (pre ++ c :: post) = Some (length pre).
Proof.
  induction pre as [|x pre IH]; simpl; intros Hnd.
  - by rewrite decide_True.
  - apply NoDup_cons in Hnd as [Hx Hnd].
    rewrite decide_False; [by rewrite IH|].
    intros ->. apply Hx. apply elem_of_app. right. apply list_elem_of_here.
Qed.

Lemma compile_all_columns a pre post :
  NoDup (pre ++ post) →
  compile_all [(a, (pre ++ post)%list)] (Col <$> post)
  = Some (field <$> seq (length pre) (length post)).
Proof.
  revert pre. induction post as [|c post IH]; intros pre Hnd; [done|].
  cbn [fmap list_fmap compile_all]. rewrite compile_col_single.
  rewrite index_of_app_NoDup by done. cbn [fmap option_fmap option_map mbind option_bind].
  replace (pre ++ c :: post)%list with ((pre ++ [c]) ++ post)%list
    by (by rewrite <- app_assoc).
  rewrite IH by (by rewrite <- app_assoc).
  rewrite length_app. simpl. by rewrite Nat.add_1_r.
Qed.

Lemma compile_all_app sc es1 es2 fs1 fs2 :
  compile_all sc es1 = Some fs1 → compile_all sc es2 = Some fs2 →
  compile_all sc (es1 ++ es2) = Some (fs1 ++ fs2)%list.
Proof.
  revert fs1. induction es1 as [|e es1 IH]; intros fs1 H1 H2; simpl in *.
  - by injection H1 as <-.
  - destruct (compile sc e) as [f|]; [|done]. simpl in *.
    destruct (compile_all sc es1) as [fs|]; [|done]. simpl in *.
    injection H1 as <-. by rewrite (IH fs eq_refl H2).
Qed.

Lemma project_all_fields (r : row) :
  project (field <$> seq 0 (length r)) r = r.
Proof.
  unfold project. rewrite <- list_fmap_compose.
  apply list_eq. intros i. rewrite list_lookup_fmap.
  destruct (decide (i < length r)%nat) as [Hlt|Hge].
  - rewrite lookup_seq_lt by done. simpl. unfold field.
    destruct (lookup_lt_is_Some_2 r i Hlt) as [x Hx]. by rewrite Hx.
  - rewrite lookup_seq_ge by lia. simpl. symmetry. apply lookup_ge_None. lia.
Qed.

Lemma union_items_snd (cs : list string) (e : expr) :
  (((λ c, (c, Col c)) <$> cs) ++ [("source_year", e)])%list.*2
  = ((Col <$> cs) ++ [e])%list.
Proof.
  by rewrite fmap_app, <- list_fmap_compose.
Qed.

Lemma union_items_fst (cs : list string) (e : expr) :
  (((λ c, (c, Col c)) <$> cs) ++ [("source_year", e)])%list.*1
  = (cs ++ ["source_year"])%list.
Proof.
  rewrite fmap_app, <- list_fmap_compose. cbn [fmap list_fmap fst].
  f_equal. rewrite <- (list_fmap_id cs) at 2. by apply list_fmap_ext.
Qed.

(** On a well-formed table, one part of the UNION ALL returns every row
    unchanged, followed by the source year. *)
Lemma union_part_wf table d t :
  d !! table = Some t → table_wf t →
  union_part table (cols t) d
  = Some {| rcols := (cols t ++ ["source_year"])%list;
            rrows := (λ r, r ++ [VInt (source_year table)])%list <$> rows t |}.
Proof.
  intros Ht (Hne & Hnd & Hrows). unfold union_part.
  destruct (cols t) as [|c cs] eqn:Ec; [done|]. rewrite <- Ec in *.
  unfold select_from. rewrite Ht. cbn [mbind option_bind].
  rewrite union_items_snd, union_items_fst.
  erewrite compile_all_app; cycle 1.
  { apply (compile_all_columns table [] (cols t)). exact Hnd. }
  { reflexivity. }
  cbn [mbind option_bind]. do 2 f_equal.
  apply Forall_fmap_ext_1. eapply Forall_impl; [exact Hrows|].
  intros r Hr. unfold project. rewrite fmap_app. simpl.
  rewrite <- Hr. fold (project (field <$> seq 0 (length r)) r).
  by rewrite project_all_fields.
Qed.

(** ** One suffix group *)

Lemma collect_parts_eq year_tables : ∀ union_parts w,
  collect_parts year_tables union_parts w
  = Some (Ok (union_parts
              ++ ((λ t, union_part t (pragma_table_info t (wdb w))) <$> year_tables))%list,
          w).
Proof.
  induction year_tables as [|t ts IH]; intros acc w; simpl.
  - by rewrite app_nil_r.
  - unfold bind. rewrite IH. by rewrite <- app_assoc.
Qed.

Lemma union_all_some a b :
  length (rcols a) = length (rcols b) →
  union_all (Some a) (Some b)
  = Some {| rcols := rcols a; rrows := (rrows a ++ rrows b)%list |}.
Proof. intros H. unfold union_all. simpl. by rewrite decide_True. Qed.

Lemma union_all_fold d ts : ∀ a,
  (∀ t, t ∈ ts → ∃ T, d !! t = Some T ∧ table_wf T
                      ∧ S (length (cols T)) = length (rcols a)) →
  foldl (λ acc q, union_all acc (q d)) (Some a)
        ((λ t, union_part t (pragma_table_info t d)) <$> ts)
  = Some {| rcols := rcols a; rrows := (rrows a ++ (ts ≫= tagged_rows d))%list |}.
Proof.
  induction ts as [|t ts IH]; intros a H.
  - simpl. rewrite app_nil_r. by destruct a.
  - destruct (H t (list_elem_of_here _ _)) as (T & HT & Hwf & Hlen).
    cbn [fmap list_fmap foldl]. unfold pragma_table_info at 1. rewrite HT.
    rewrite (union_part_wf _ _ _ HT Hwf).
    rewrite union_all_some by (cbn [rcols]; rewrite length_app; simpl; lia).
    rewrite IH.
    + cbn [rcols rrows mbind list_bind]. unfold tagged_rows at 2. rewrite HT.
      by rewrite <- app_assoc.
    + intros t' Ht'. cbn [rcols]. apply H. by apply list_elem_of_further.
Qed.

Lemma tagged_rows_agree d d' ts :
  (∀ t, t ∈ ts → d' !! t = d !! t) → ts ≫= tagged_rows d' = ts ≫= tagged_rows d.
Proof.
  induction ts as [|t ts IH]; intros H; [done|]. cbn [mbind list_bind].
  rewrite IH by (intros t' Ht'; apply H; by apply list_elem_of_further).
  f_equal. unfold tagged_rows. by rewrite (H t (list_elem_of_here _ _)).
Qed.

Lemma suffix_not_member suffix t :
  slice_from 4 t = suffix → year_pattern t = true → t ≠ suffix.
Proof.
  intros <- Hp Heq.
  assert (Hlen : String.length (slice_from 4 t) = String.length t) by (by rewrite <- Heq).
  destruct t as [|a [|b [|c [|d r]]]]; try done. simpl in Hlen. lia.
Qed.

Lemma combine_group_spec suffix year_tables w :
  (2 ≤ length year_tables)%nat →
  suffix ∉ year_tables →
  (∀ t, t ∈ year_tables → ∃ T, wdb w !! t = Some T ∧ table_wf T) →
  (∀ t t', t ∈ year_tables → t' ∈ year_tables →
     column_count (wdb w) t = column_count (wdb w) t') →
  ∃ out cs,
    combine_group suffix year_tables w
    = Some (Ok tt,
            {| wdb := <[suffix := materialize
                          {| rcols := (cs ++ ["source_year"])%list;
                             rrows := year_tables ≫= tagged_rows (wdb w) |}]> (wdb w);
               wout := out |})
    ∧ ∀ t, t ∈ year_tables → length (pragma_table_info t (wdb w)) = length cs.
Proof.
  intros Hlen Hnot Hwf Huni. unfold combine_group.
  destruct year_tables as [|t1 ts]; [simpl in Hlen; lia|].
  replace (length (t1 :: ts) <? 2)%nat with false
    by (symmetry; apply Nat.ltb_ge; done).
  unfold bind at 1 2, print, cursor_execute at 1. cbn [drop_table_if_exists wdb wout].
  unfold bind at 1. rewrite collect_parts_eq. cbn [wdb app].
  set (d := wdb w). set (d1 := delete suffix d).
  assert (Hd1 : ∀ t, t ∈ t1 :: ts → d1 !! t = d !! t).
  { intros t Ht. subst d1. apply lookup_delete_ne. by intros ->. }
  destruct (Hwf t1 (list_elem_of_here _ _)) as (T1 & HT1 & HwfT1).
  assert (Hunion : full_union
            ((λ t, union_part t (pragma_table_info t d1)) <$> t1 :: ts) d1
          = Some {| rcols := (cols T1 ++ ["source_year"])%list;
                    rrows := (t1 :: ts) ≫= tagged_rows d |}).
  { unfold full_union. cbn [fmap list_fmap].
    assert (HT1' : d1 !! t1 = Some T1) by (rewrite Hd1; [done|apply list_elem_of_here]).
    unfold pragma_table_info at 1. rewrite HT1'.
    rewrite (union_part_wf _ _ _ HT1' HwfT1).
    rewrite union_all_fold.
    - cbn [rcols rrows mbind list_bind]. do 2 f_equal. f_equal.
      + unfold tagged_rows, d. by rewrite HT1.
      + apply tagged_rows_agree. intros t Ht. apply Hd1. by apply list_elem_of_further.
    - intros t Ht. assert (Ht' : t ∈ t1 :: ts) by (by apply list_elem_of_further).
      destruct (Hwf t Ht') as (T & HT & HwfT). exists T.
      split; [by rewrite Hd1|]. split; [done|].
      cbn [rcols]. rewrite length_app. simpl.
      specialize (Huni t t1 Ht' (list_elem_of_here _ _)).
      unfold column_count, pragma_table_info in Huni.
      rewrite HT, HT1 in Huni. lia. }
  eexists _, (cols T1). split.
  - unfold bind, print, cursor_execute, create_table_as, query, select_count.
    cbn [wdb wout]. subst d1. rewrite lookup_delete_eq, Hunion.
    cbn [mbind option_bind wdb wout]. rewrite lookup_insert_eq.
    cbn [mbind option_bind wdb wout]. subst d. rewrite insert_delete_eq.
    reflexivity.
  - intros t Ht. subst d.
    specialize (Huni t t1 Ht (list_elem_of_here _ _)).
    unfold column_count in Huni. rewrite Huni.
    unfold pragma_table_info. by rewrite HT1.
Qed.

(** ** C3: what one group is combined into *)

Lemma tagged_rows_length d ts :
  length (ts ≫= tagged_rows d) = sum_list (row_count d <$> ts).
Proof.
  induction ts as [|t ts IH]; [done|]. cbn [mbind list_bind fmap list_fmap sum_list].
  change (sum_list (row_count d t :: (row_count d <$> ts)))
    with (row_count d t + sum_list (row_count d <$> ts))%nat.
  rewrite length_app, IH. f_equal. unfold tagged_rows, row_count.
  destruct (d !! t); [by rewrite length_fmap|done].
Qed.

Lemma char_digit_Some c : is_digit c = true → ∃ k, char_digit c = Some k.
Proof. unfold is_digit. destruct (char_digit c); [eauto|done]. Qed.

Lemma year_pattern_parse t :
  year_pattern t = true →
  parse_year t = Some (source_year t, slice_from 4 t) ∧ slice_from 4 t ≠ "".
Proof.
  destruct t as [|a [|b [|c [|d r]]]]; try done. cbn [year_pattern].
  intros H. repeat (apply andb_true_iff in H as [H ?]).
  destruct (char_digit_Some a) as [ka Ha]; [done|].
  destruct (char_digit_Some b) as [kb Hb]; [done|].
  destruct (char_digit_Some c) as [kc Hc]; [done|].
  destruct (char_digit_Some d) as [kd Hd]; [done|].
  unfold source_year. cbn [slice_to slice_from parse_year].
  rewrite Ha, Hb, Hc, Hd. split; [done|]. by destruct r.
Qed.


(** ** Grouping by suffix *)

Lemma dict_append_ok names suffix table groups :
  groups_ok names groups →
  year_pattern table = true → slice_from 4 table = suffix → table ∈ names →
  groups_ok names (dict_append suffix table groups).
Proof.
  intros Hok Hp Hs Hn. induction groups as [|[k ks] rest IH]; simpl.
  - intros sfx ts t Hg Ht. apply list_elem_of_singleton in Hg.
    injection Hg as -> ->. apply list_elem_of_singleton in Ht. by subst t.
  - assert (Hrest : groups_ok names rest).
    { intros sfx ts t Hin Ht. apply (Hok sfx ts t); [|done].
      by apply list_elem_of_further. }
    case_decide as Hk.
    + subst k. intros sfx ts t Hg Ht. apply elem_of_cons in Hg as [Hg|Hin].
      * injection Hg as -> ->. apply elem_of_app in Ht as [Ht|Ht].
        -- apply (Hok suffix ks t); [apply list_elem_of_here|done].
        -- apply list_elem_of_singleton in Ht. by subst t.
      * by apply (Hrest sfx ts t).
    + intros sfx ts t Hg Ht. apply elem_of_cons in Hg as [Hg|Hin].
      * injection Hg as -> ->. apply (Hok k ks t); [apply list_elem_of_here|done].
      * by apply (IH Hrest sfx ts t).
Qed.

Lemma group_tables_fold names tables : ∀ groups,
  groups_ok names groups → (∀ t, t ∈ tables → t ∈ names) →
  groups_ok names
    (foldl (λ groups table,
              if year_pattern table
              then dict_append (slice_from 4 table) table groups else groups)
           groups tables).
Proof.
  induction tables as [|t tables IH]; intros groups Hok Hin; [done|]. simpl.
  apply IH.
  - destruct (year_pattern t) eqn:Hp; [|done].
    apply dict_append_ok; try done. apply Hin, list_elem_of_here.
  - intros t' Ht'. by apply Hin, list_elem_of_further.
Qed.

Lemma group_tables_ok names : groups_ok names (group_tables names).
Proof.
  apply group_tables_fold; [|done]. intros sfx ts t Hin. by apply elem_of_nil in Hin.
Qed.

Lemma elem_of_table_names d t : t ∈ table_names d ↔ is_Some (d !! t).
Proof.
  unfold table_names. rewrite list_elem_of_fmap. split.
  - intros ([k T] & -> & Hin). apply elem_of_map_to_list in Hin. eauto.
  - intros [T HT]. exists (t, T). split; [done|]. by apply elem_of_map_to_list.
Qed.

(** ** What the combiner changes *)

Lemma modifies_only_cursor_execute names s :
  stmt_modifies_only names s → modifies_only names (cursor_execute s).
Proof.
  intros Hs w r w' H. unfold cursor_execute in H. specialize (Hs (wdb w)).
  unfold after in Hs. destruct (s (wdb w)) as [[rs d']|]; injection H as <- <-.
  - exact Hs.
  - apply only_changes_refl.
Qed.

Lemma combine_group_footprint suffix year_tables :
  modifies_only [suffix] (combine_group suffix year_tables).
Proof.
  unfold combine_group. destruct (_ <? _)%nat; [apply modifies_only_print|].
  apply modifies_only_bind; [apply modifies_only_print|intros _].
  apply modifies_only_bind.
  { apply modifies_only_cursor_execute, stmt_modifies_only_drop, list_elem_of_here. }
  intros _. apply modifies_only_bind.
  { intros w r w' H. rewrite collect_parts_eq in H. injection H as <- <-.
    apply only_changes_refl. }
  intros parts. apply modifies_only_bind.
  { apply modifies_only_cursor_execute, stmt_modifies_only_create_as, list_elem_of_here. }
  intros _. apply modifies_only_bind; [apply modifies_only_print|intros _].
  apply modifies_only_bind; [|intros ?; apply modifies_only_print].
  apply modifies_only_cursor_execute, stmt_modifies_only_query.
Qed.

Lemma combine_group_short suffix year_tables w :
  (length year_tables < 2)%nat →
  combine_group suffix year_tables w
  = Some (Ok tt, {| wdb := wdb w; wout := (wout w ++ [Skipping suffix])%list |}).
Proof.
  intros H. unfold combine_group. by rewrite (proj2 (Nat.ltb_lt _ _) H).
Qed.

Lemma process_groups_footprint groups :
  modifies_only (combined_suffixes groups) (process_groups groups).
Proof.
  induction groups as [|[suffix year_tables] rest IH]; simpl.
  - apply modifies_only_ret.
  - unfold combined_suffixes. rewrite filter_cons. cbn [snd].
    case_decide as Hlen.
    + apply modifies_only_bind.
      * eapply modifies_only_mono; [|apply combine_group_footprint].
        intros x ->%list_elem_of_singleton. apply list_elem_of_here.
      * intros _. eapply modifies_only_mono; [|exact IH].
        intros x Hx. by apply list_elem_of_further.
    + apply modifies_only_bind; [|intros _; exact IH].
      intros w r w' H. rewrite combine_group_short in H by lia.
      injection H as <- <-. apply only_changes_refl.
Qed.

Lemma combine_footprint d o w :
  combine d = Some (o, w) →
  only_changes (combined_suffixes (group_tables (table_names d))) d (wdb w).
Proof.
  unfold combine, combine_tables_with_union. intros H.
  unfold bind at 1 in H. cbn [wdb] in H.
  assert (Hm : modifies_only (combined_suffixes (group_tables (table_names d)))
                 (process_groups (group_tables (table_names d));;
                  print (Say "All tables processed successfully"))).
  { apply modifies_only_bind; [apply process_groups_footprint|].
    intros _. apply modifies_only_print. }
  apply (Hm _ _ _ H).
Qed.

Lemma year_pattern_shape t :
  year_pattern t = true →
  ∃ a b c e r, t = String a (String b (String c (String e r)))
    ∧ is_digit a = true ∧ is_digit b = true ∧ is_digit c = true
    ∧ is_digit e = true ∧ r = slice_from 4 t ∧ r ≠ "".
Proof.
  destruct t as [|a [|b [|c [|e r]]]]; try done. cbn [year_pattern].
  intros H. repeat (apply andb_true_iff in H as [H ?]).
  exists a, b, c, e, r. repeat (split; [done|]). by destruct r.
Qed.

(** C10, amended: every member of every group the combiner forms is a
    table of the database whose name is four decimal digits followed by
    the group's key, which is not empty; a name of any other shape is in
    no group.  The bare suffix of a combined table is kept out of the
    groups only by its shape: provided no suffix of a group that is
    combined matches the year pattern itself, the run leaves every table
    named in a group of a second run as it was, so a second run groups
    only original yearly tables, none of them a combined table of the
    first run. *)
Theorem combiner_groups_only_year_tables (d : db) (o : outcome unit) (w : world) :
  combine d = Some (o, w) →
  (∀ sfx, sfx ∈ combined_suffixes (group_tables (table_names d)) →
     year_pattern sfx = false) →
  (∀ sfx ts t, (sfx, ts) ∈ group_tables (table_names d) → t ∈ ts →
     is_Some (d !! t)
     ∧ ∃ a b c e, t = String a (String b (String c (String e sfx)))
         ∧ is_digit a = true ∧ is_digit b = true ∧ is_digit c = true
         ∧ is_digit e = true ∧ sfx ≠ "")
  ∧ (∀ sfx ts t, (sfx, ts) ∈ group_tables (table_names (wdb w)) → t ∈ ts →
       (t ∉ combined_suffixes (group_tables (table_names d)))
       ∧ is_Some (d !! t) ∧ wdb w !! t = d !! t).
Proof.
  intros Hrun Hsfx. split.
  - intros sfx ts t Hg Ht.
    destruct (group_tables_ok (table_names d) sfx ts t Hg Ht) as (Hp & Hs & Hn).
    split; [by apply elem_of_table_names|].
    destruct (year_pattern_shape t Hp) as (a & b & c & e & r & -> & ? & ? & ? & ? & Hr & ?).
    exists a, b, c, e. rewrite <- Hs, <- Hr. done.
  - intros sfx ts t Hg Ht.
    destruct (group_tables_ok (table_names (wdb w)) sfx ts t Hg Ht) as (Hp & Hs & Hn).
    assert (Hnot : t ∉ combined_suffixes (group_tables (table_names d))).
    { intros Hin. apply Hsfx in Hin. congruence. }
    pose proof (combine_footprint d o w Hrun t Hnot) as Heq.
    split; [done|]. split; [|done].
    rewrite <- Heq. by apply elem_of_table_names.
Qed.

Lemma combiner_groups_only_year_tables_witness :
  ∃ w, combine (wdb yearly_world) = Some (Ok tt, w)
    ∧ ∀ sfx ts t, (sfx, ts) ∈ group_tables (table_names (wdb w)) → t ∈ ts →
        (t ∉ combined_suffixes (group_tables (table_names (wdb yearly_world))))
        ∧ is_Some (wdb yearly_world !! t)
        ∧ wdb w !! t = wdb yearly_world !! t.
Proof.
  eexists. split; [vm_compute; reflexivity|].
  eapply (combiner_groups_only_year_tables (wdb yearly_world) (Ok tt)).
  - vm_compute. reflexivity.
  - assert (Hc : combined_suffixes (group_tables (table_names (wdb yearly_world)))
                 = ["batting"]) by (vm_compute; reflexivity).
    rewrite Hc. intros sfx Hin. apply list_elem_of_singleton in Hin. by subst sfx.
Defined.

(** C10, counterexample to the claim as stated: the yearly tables
    20212021x and 20222021x are combined into 2021x, a bare suffix that
    has the year prefix itself.  A second run puts this output of the
    first run into the group x beside the yearly table 2020x and derives
    the combined table x from it. *)
Lemma combiner_groups_only_year_tables_counterexample :
  ∃ w1 w2 T,
    combine nested_db = Some (Ok tt, w1)
    ∧ nested_db !! "2021x" = None
    ∧ "2021x" ∈ combined_suffixes (group_tables (table_names nested_db))
    ∧ group_tables (table_names (wdb w1))
      = [("2021x", ["20212021x"; "20222021x"]); ("x", ["2021x"; "2020x"])]
    ∧ combine (wdb w1) = Some (Ok tt, w2)
    ∧ wdb w2 !! "x" = Some T
    ∧ rows T = [[VInt 7; VInt 2021; VInt 2021]; [VInt 8; VInt 2022; VInt 2021];
                [VInt 6; VInt 1; VInt 2020]].
Proof.
  eexists _, _, _. split; [vm_compute; reflexivity|]. cbn [wdb].
  split; [vm_compute; reflexivity|].
  split.
  { assert (Hc : combined_suffixes (group_tables (table_names nested_db)) = ["2021x"])
      by (vm_compute; reflexivity).
    rewrite Hc. apply list_elem_of_here. }
  split; [vm_compute; reflexivity|].
  split; [vm_compute; reflexivity|]. cbn [wdb].
  split; [vm_compute; reflexivity|]. reflexivity.
Qed.

(** * Further properties of the warehouse build *)

(** X1. [_verify_source_tables] leaves the database as it is.  It answers
    True and prints nothing when all six required tables exist; otherwise
    it answers False after printing one line that lists the absent tables
    in the order of the required list. *)
Theorem verify_source_tables_spec (w : world) :
  ∃ b out,
    _verify_source_tables w
    = Some (Ok b, {| wdb := wdb w; wout := (wout w ++ out)%list |})
    ∧ (b = true ↔ ∀ t, t ∈ required_tables → is_Some (wdb w !! t))
    ∧ out = (if b then []
             else [MissingTables (filter (λ t, wdb w !! t = None) required_tables)]).
Proof.
  rewrite verify_source_tables_eq. unfold missing_tables.
  destruct (filter _ required_tables) as [|m ms] eqn:E.
  - exists true, []. rewrite app_nil_r. split; [by destruct w|]. split; [|done].
    split; [|done]. intros _ t Ht.
    destruct (wdb w !! t) eqn:Et; [done|].
    assert (Hin : t ∈ filter (λ t, wdb w !! t = None) required_tables)
      by (by apply list_elem_of_filter).
    rewrite E in Hin. by apply elem_of_nil in Hin.
  - exists false, [MissingTables (m :: ms)]. split; [done|]. split; [|done].
    split; [done|]. intros Hall.
    assert (Hin : m ∈ filter (λ t, wdb w !! t = None) required_tables)
      by (rewrite E; apply list_elem_of_here).
    apply list_elem_of_filter in Hin as [Hnone Hreq].
    destruct (Hall m Hreq) as [T HT]. congruence.
Qed.

Lemma count_each_report tables : ∀ w,
  count_each tables w
  = Some (Ok tt, {| wdb := wdb w;
                    wout := (wout w ++ (tables ≫= count_report (wdb w)))%list |}).
Proof.
  induction tables as [|t ts IH]; intros w; simpl.
  - rewrite app_nil_r. by destruct w.
  - unfold bind at 1. rewrite execute_query_eq, after_query.
    unfold bind at 1, fetched, complaint, query, select_count, count_report.
    destruct (wdb w !! t) as [T|]; cbn [mbind option_bind is_empty first_cell field];
      unfold print; cbn [wdb wout]; rewrite IH; cbn [wdb wout];
      by rewrite <- !app_assoc.
Qed.


Lemma index_of_lookup_NoDup cs k c :
  NoDup cs → cs !! k = Some c → index_of c cs = Some k.
Proof.
  intros Hnd Hk. rewrite <- (take_drop_middle cs k c Hk) in Hnd |- *.
  rewrite index_of_app_NoDup by done.
  rewrite length_take. f_equal. apply lookup_lt_Some in Hk. lia.
Qed.

Lemma create_as_fails sql name q d :
  q d = None →
  after (create_table_as name q) d = d
  ∧ complaint sql (create_table_as name q) d = [QueryError sql].
Proof.
  intros Hq. unfold after, complaint, create_table_as.
  destruct (d !! name); [done|]. by rewrite Hq.
Qed.

Lemma count_fails sql name d :
  d !! name = None →
  fetched (query (select_count name)) true d = None
  ∧ complaint sql (query (select_count name)) d = [QueryError sql].
Proof.
  intros Hn. unfold fetched, complaint, query, select_count. by rewrite Hn.
Qed.

(** X4. DimGame is a renamed copy of gameinfo: whenever the dimension
    build leaves a DimGame table, it has the 26 columns of the SELECT
    list, exactly as many rows as gameinfo, and each of its columns
    holds, row by row and in the same order, the values of the gameinfo
    column it is selected from; no game is dropped, added or merged. *)
Theorem DimGame_copies_gameinfo fts fuel (w w' : world) (o : outcome unit) (t : table) :
  _create_dimension_tables fts fuel w = Some (o, w') →
  wdb w' !! "DimGame" = Some t →
  ∃ g, wdb w !! "gameinfo" = Some g
     ∧ cols t = DimGame_items.*1
     ∧ length (rows t) = length (rows g)
     ∧ ∀ c' c, (c', Col c) ∈ DimGame_items → column t c' = column g c.
Proof.
  intros Hrun Ht.
  rewrite (create_dimension_tables_lookup _ _ _ _ _ _ Hrun) in Ht by done.
  rewrite static_dims_db_DimGame in Ht.
  destruct (DimGame_select (wdb w)) as [q|] eqn:Eq; [|done].
  injection Ht as <-. unfold DimGame_select in Eq.
  apply select_from_inv in Eq as (g & fs & Hg & Hfs & Hcols & Hrows).
  exists g. split; [done|]. split; [done|].
  split; [cbn [rows materialize]; by rewrite Hrows, length_fmap|].
  intros c' c Hin. apply list_elem_of_lookup in Hin as [k Hk].
  assert (Hk2 : DimGame_items.*2 !! k = Some (Col c))
    by (by rewrite list_lookup_fmap, Hk).
  destruct (compile_all_lookup _ _ _ _ _ Hfs Hk2) as (f & Hf & Hc).
  rewrite compile_col_single in Hc.
  destruct (index_of c (cols g)) as [i|] eqn:Ei; [|done].
  injection Hc as <-.
  assert (Hi' : index_of c' (cols (materialize q)) = Some k).
  { cbn [cols materialize]. rewrite Hcols. apply index_of_lookup_NoDup.
    - apply (bool_decide_unpack _). vm_compute. exact I.
    - by rewrite list_lookup_fmap, Hk. }
  unfold column. cbn [rows materialize]. rewrite Hrows, <- list_fmap_compose.
  apply list_fmap_ext. intros j r _. cbn [compose].
  rewrite (cell_field _ _ _ _ Hi'), (cell_field _ _ _ _ Ei).
  by apply field_project.
Qed.

Lemma DimGame_copies_gameinfo_witness :
  ∃ t, wdb league_dims_world !! "DimGame" = Some t
     ∧ length (rows t) = length (rows league_gameinfo)
     ∧ column t "game_id" = column league_gameinfo "gid".
Proof.
  destruct (wdb league_dims_world !! "DimGame") as [t|] eqn:Et;
    [|by vm_compute in Et].
  destruct (DimGame_copies_gameinfo no_timestamp 10 league_world league_dims_world
              (Ok tt) t) as (g & Hg & Hcols & Hlen & Hcol).
  - vm_compute. reflexivity.
  - exact Et.
  - assert (g = league_gameinfo) as ->.
    { assert (Hl : wdb league_world !! "gameinfo" = Some league_gameinfo)
        by (vm_compute; reflexivity).
      congruence. }
    exists t. split; [reflexivity|].
    split; [exact Hlen|]. apply Hcol. apply list_elem_of_here.
Defined.

(** X5. The rows of DimPlayer are exactly the rows computed from the
    roster: each roster row gives the row made of its id, the name
    first || ' ' || last, first, last, bat and throw, and DimPlayer holds
    nothing else.  The player_name is the first name, a blank and the
    last name when both are texts, and NULL as soon as the first or the
    last name is NULL. *)
Theorem DimPlayer_rows_from_roster fts fuel (w w' : world) (o : outcome unit)
    (t a : table) :
  _create_dimension_tables fts fuel w = Some (o, w') →
  wdb w' !! "DimPlayer" = Some t →
  wdb w !! "allplayers" = Some a →
  let name r := sql_concat (sql_concat (cell a "first" r) (VText " ")) (cell a "last" r) in
  (∀ r', r' ∈ rows t ↔
     ∃ r, r ∈ rows a
        ∧ r' = [cell a "id" r; name r; cell a "first" r; cell a "last" r;
                cell a "bat" r; cell a "throw" r])
  ∧ (∀ r f l, cell a "first" r = VText f → cell a "last" r = VText l →
       name r = VText ((f +:+ " ") +:+ l))
  ∧ (∀ r, cell a "first" r = VNull ∨ cell a "last" r = VNull → name r = VNull).
Proof.
  intros Hrun Ht Ha name.
  rewrite (create_dimension_tables_lookup _ _ _ _ _ _ Hrun) in Ht by done.
  rewrite static_dims_db_DimPlayer in Ht.
  destruct (DimPlayer_select (wdb w)) as [q|] eqn:Eq; [|done].
  injection Ht as <-.
  apply DimPlayer_select_inv in Eq
    as (a' & i & f & l & b & h & Ha' & Hi & Hf & Hl & Hb & Hh & Hcols & Hrows).
  assert (a' = a) as -> by congruence.
  split; [|split].
  - intros r'. cbn [rows materialize]. rewrite Hrows, elem_of_remove_dups.
    rewrite list_elem_of_fmap. unfold name.
    setoid_rewrite (cell_field _ _ _ _ Hi). setoid_rewrite (cell_field _ _ _ _ Hf).
    setoid_rewrite (cell_field _ _ _ _ Hl). setoid_rewrite (cell_field _ _ _ _ Hb).
    setoid_rewrite (cell_field _ _ _ _ Hh).
    split; intros (r & H1 & H2); exists r; done.
  - intros r x y Hx Hy. unfold name. by rewrite Hx, Hy.
  - intros r [Hn|Hn]; unfold name; rewrite Hn; [done|].
    unfold sql_concat. by destruct (sql_text _).
Qed.

Lemma DimPlayer_rows_from_roster_witness :
  [VText "doej001"; VText "Jo Doe"; VText "Jo"; VText "Doe"; VText "R"; VText "R"]
  ∈ rows roster_DimPlayer.
Proof.
  destruct (DimPlayer_rows_from_roster no_timestamp 0 roster_world roster_dims_world
              (Ok tt) roster_DimPlayer sample_allplayers) as (Hrows & _ & _).
  - vm_compute. reflexivity.
  - vm_compute. reflexivity.
  - vm_compute. reflexivity.
  - apply Hrows. eexists. split; [apply list_elem_of_here|]. vm_compute. reflexivity.
Defined.



(** ** Rows of a join *)

Lemma select_join_inv items t1 a1 t2 a2 on1 on2 d q :
  select_join items t1 a1 t2 a2 on1 on2 d = Some q →
  ∃ x1 x2 f1 f2 fs,
    d !! t1 = Some x1 ∧ d !! t2 = Some x2
    ∧ compile [(a1, cols x1); (a2, cols x2)] on1 = Some f1
    ∧ compile [(a1, cols x1); (a2, cols x2)] on2 = Some f2
    ∧ compile_all [(a1, cols x1); (a2, cols x2)] (items.*2) = Some fs
    ∧ rcols q = items.*1
    ∧ ∀ r, r ∈ rrows q ↔
        ∃ r1 r2, r1 ∈ rows x1 ∧ r2 ∈ rows x2
          ∧ holds (sql_test OpEq (f1 (r1 ++ r2)%list) (f2 (r1 ++ r2)%list)) = true
          ∧ r = project fs (r1 ++ r2)%list.
Proof.
  unfold select_join. intros H.
  destruct (d !! t1) as [x1|]; [|done]. destruct (d !! t2) as [x2|]; [|done].
  cbn [mbind option_bind] in H.
  destruct (compile _ on1) as [f1|] eqn:E1; [|done].
  destruct (compile _ on2) as [f2|] eqn:E2; [|done].
  cbn [mbind option_bind] in H.
  destruct (compile_all _ _) as [fs|] eqn:E3; [|done].
  cbn [mbind option_bind] in H. injection H as <-.
  exists x1, x2, f1, f2, fs. do 6 (split; [done|]).
  intros r. cbn [rrows]. rewrite list_elem_of_fmap. split.
  - intros (p & -> & Hp). apply list_elem_of_filter in Hp as [Hon Hp].
    apply list_elem_of_bind in Hp as (r1 & Hp & Hr1).
    apply list_elem_of_bind in Hp as (r2 & Hp & Hr2).
    apply list_elem_of_singleton in Hp as ->. by exists r1, r2.
  - intros (r1 & r2 & Hr1 & Hr2 & Hon & ->). exists (r1 ++ r2)%list.
    split; [done|]. apply list_elem_of_filter. split; [done|].
    apply list_elem_of_bind. exists r1. split; [|done].
    apply list_elem_of_bind. exists r2. split; [|done].
    apply list_elem_of_here.
Qed.

Lemma compile_qcol_left a1 cs1 a2 cs2 c :
  compile [(a1, cs1); (a2, cs2)] (QCol a1 c) = field <$> index_of c cs1.
Proof. simpl. by rewrite decide_True. Qed.

Lemma compile_qcol_right a1 cs1 a2 cs2 c :
  a1 ≠ a2 →
  compile [(a1, cs1); (a2, cs2)] (QCol a2 c)
  = (λ i, field (length cs1 + i)) <$> index_of c cs2.
Proof.
  intros Hne. simpl. rewrite decide_False by done. rewrite decide_True by done.
  by destruct (index_of c cs2).
Qed.

Lemma index_of_lt c cs i : index_of c cs = Some i → (i < length cs)%nat.
Proof.
  revert i. induction cs as [|x cs IH]; intros i; simpl; [done|].
  case_decide.
  - intros [= <-]. lia.
  - destruct (index_of c cs) as [j|]; [|done]. intros [= <-].
    specialize (IH j eq_refl). lia.
Qed.

Lemma field_app_l i (r1 r2 : row) :
  (i < length r1)%nat → field i (r1 ++ r2)%list = field i r1.
Proof. intros H. unfold field. by rewrite lookup_app_l. Qed.

Lemma field_app_r i n (r1 r2 : row) :
  length r1 = n → field (n + i) (r1 ++ r2)%list = field i r2.
Proof.
  intros <-. unfold field. rewrite lookup_app_r by lia.
  by replace (length r1 + i - length r1)%nat with i by lia.
Qed.

Lemma joined_cell (q : relation) items fs sc k c' e f r0 :
  rcols q = items.*1 → NoDup (items.*1) →
  compile_all sc (items.*2) = Some fs →
  items !! k = Some (c', e) → compile sc e = Some f →
  cell (materialize q) c' (project fs r0) = f r0.
Proof.
  intros Hcols Hnd Hfs Hk Hc.
  assert (Hk2 : items.*2 !! k = Some e) by (by rewrite list_lookup_fmap, Hk).
  destruct (compile_all_lookup _ _ _ _ _ Hfs Hk2) as (f' & Hf' & Hc').
  assert (f' = f) as -> by congruence.
  rewrite (cell_field _ _ k).
  - by apply field_project.
  - cbn [cols materialize]. rewrite Hcols. apply index_of_lookup_NoDup; [done|].
    by rewrite list_lookup_fmap, Hk.
Qed.

Lemma sql_eq_holds a b :
  holds (sql_test OpEq a b) = true ↔ a = b ∧ a ≠ VNull.
Proof.
  unfold sql_test. destruct a as [|x|s], b as [|y|u]; simpl;
    try (split; [done|by intros [? ?]]).
  - destruct (Z.compare_spec x y); simpl; split; try done; try (by intros [[= ?] _]; lia).
    by subst.
  - destruct (String.compare s u) eqn:E; simpl; split; try done.
    + apply String.compare_eq_iff in E. by subst.
    + intros [[= ->] _]. pose proof (String.compare_antisym u u) as Ha.
      by rewrite E in Ha.
    + intros [[= ->] _]. pose proof (String.compare_antisym u u) as Ha.
      by rewrite E in Ha.
Qed.

Lemma flag_value v :
  (if holds (sql_test OpEq v (VInt 1)) then VInt 1 else VInt 0)
  = (if decide (v = VInt 1) then VInt 1 else VInt 0).
Proof.
  destruct (holds _) eqn:E.
  - apply sql_eq_holds in E as [-> _]. by rewrite decide_True.
  - case_decide as Hv; [|done]. subst v. done.
Qed.

Lemma compile_flag_inv sc e f' :
  compile sc (flag e) = Some f' →
  ∃ f, compile sc e = Some f
     ∧ f' = λ r, if holds (sql_test OpEq (f r) (VInt 1)) then VInt 1 else VInt 0.
Proof.
  unfold flag, one, zero. cbn [compile].
  destruct (compile sc e) as [f|]; [|done]. cbn [mbind option_bind].
  intros [= <-]. by exists f.
Qed.

Lemma join_rows_spec items src a (d : db) (q : relation) (b g : table) :
  select_join items src a "gameinfo" "g" (QCol a "gid") (QCol "g" "gid") d = Some q →
  a ≠ "g" → NoDup (items.*1) →
  d !! src = Some b → d !! "gameinfo" = Some g →
  Forall (λ r, length r = length (cols b)) (rows b) →
  (∀ r, r ∈ rrows q →
     ∃ rb rg, rb ∈ rows b ∧ rg ∈ rows g
       ∧ cell b "gid" rb = cell g "gid" rg ∧ cell b "gid" rb ≠ VNull
       ∧ joined_row items a (materialize q) b g r rb rg)
  ∧ (∀ rb rg, rb ∈ rows b → rg ∈ rows g →
       cell b "gid" rb = cell g "gid" rg → cell b "gid" rb ≠ VNull →
       ∃ r, r ∈ rrows q ∧ joined_row items a (materialize q) b g r rb rg).
Proof.
  intros Hq Ha Hnd Hb Hg Hwf.
  apply select_join_inv in Hq
    as (x1 & x2 & f1 & f2 & fs & H1 & H2 & Hf1 & Hf2 & Hfs & Hcols & Hrows).
  assert (x1 = b) as -> by congruence. assert (x2 = g) as -> by congruence.
  rewrite compile_qcol_left in Hf1. rewrite compile_qcol_right in Hf2 by done.
  destruct (index_of "gid" (cols b)) as [ib|] eqn:Eib; [|done].
  destruct (index_of "gid" (cols g)) as [ig|] eqn:Eig; [|done].
  injection Hf1 as <-. injection Hf2 as <-.
  assert (Hlen : ∀ rb, rb ∈ rows b → length rb = length (cols b)).
  { intros rb Hrb. by apply (proj1 (Forall_forall _ _) Hwf). }
  assert (Hleft : ∀ c i rb rg, rb ∈ rows b → index_of c (cols b) = Some i →
            field i (rb ++ rg)%list = cell b c rb).
  { intros c i rb rg Hrb Hi. rewrite (cell_field _ _ _ _ Hi).
    apply field_app_l. rewrite (Hlen rb Hrb). by eapply index_of_lt. }
  assert (Hright : ∀ c i rb rg, rb ∈ rows b → index_of c (cols g) = Some i →
            field (length (cols b) + i) (rb ++ rg)%list = cell g c rg).
  { intros c i rb rg Hrb Hi. rewrite (cell_field _ _ _ _ Hi).
    apply field_app_r. by apply Hlen. }
  assert (Hjoined : ∀ rb rg, rb ∈ rows b →
            joined_row items a (materialize q) b g (project fs (rb ++ rg)%list) rb rg).
  { intros rb rg Hrb. split; [|split].
    - intros c' c Hin. apply list_elem_of_lookup in Hin as [k Hk].
      assert (Hk2 : items.*2 !! k = Some (QCol a c))
        by (by rewrite list_lookup_fmap, Hk).
      destruct (compile_all_lookup _ _ _ _ _ Hfs Hk2) as (f & Hf & Hc).
      rewrite (joined_cell q items fs _ k c' _ f _ Hcols Hnd Hfs Hk Hc).
      rewrite compile_qcol_left in Hc.
      destruct (index_of c (cols b)) as [i|] eqn:Ei; [|done].
      injection Hc as <-. by apply Hleft.
    - intros c' c Hin. apply list_elem_of_lookup in Hin as [k Hk].
      assert (Hk2 : items.*2 !! k = Some (QCol "g" c))
        by (by rewrite list_lookup_fmap, Hk).
      destruct (compile_all_lookup _ _ _ _ _ Hfs Hk2) as (f & Hf & Hc).
      rewrite (joined_cell q items fs _ k c' _ f _ Hcols Hnd Hfs Hk Hc).
      rewrite compile_qcol_right in Hc by done.
      destruct (index_of c (cols g)) as [i|] eqn:Ei; [|done].
      injection Hc as <-. by apply Hright.
    - intros c' c Hin. apply list_elem_of_lookup in Hin as [k Hk].
      assert (Hk2 : items.*2 !! k = Some (flag (QCol a c)))
        by (by rewrite list_lookup_fmap, Hk).
      destruct (compile_all_lookup _ _ _ _ _ Hfs Hk2) as (f' & Hf & Hc).
      rewrite (joined_cell q items fs _ k c' _ f' _ Hcols Hnd Hfs Hk Hc).
      apply compile_flag_inv in Hc as (f & Hc & ->).
      rewrite compile_qcol_left in Hc.
      destruct (index_of c (cols b)) as [i|] eqn:Ei; [|done].
      injection Hc as <-. rewrite (Hleft c i rb rg Hrb Ei). apply flag_value. }
  split.
  - intros r Hr. apply Hrows in Hr as (rb & rg & Hrb & Hrg & Hon & ->).
    exists rb, rg. split; [done|]. split; [done|].
    apply sql_eq_holds in Hon as [Heq Hnn].
    rewrite (Hleft _ _ rb rg Hrb Eib) in Heq, Hnn.
    rewrite (Hright _ _ rb rg Hrb Eig) in Heq.
    split; [done|]. split; [done|]. by apply Hjoined.
  - intros rb rg Hrb Hrg Heq Hnn. exists (project fs (rb ++ rg)%list).
    split; [|by apply Hjoined].
    apply Hrows. exists rb, rg. split; [done|]. split; [done|]. split; [|done].
    apply sql_eq_holds.
    rewrite (Hleft _ _ rb rg Hrb Eib), (Hright _ _ rb rg Hrb Eig). done.
Qed.

Lemma facts_db_FactBatting d :
  facts_db d !! "FactBatting"
  = materialize <$> FactBatting_select
      (delete "FactGameOutcomes" (delete "FactPitching" (delete "FactBatting" d))).
Proof.
  unfold facts_db. rewrite !lookup_after_create_as_ne by done.
  apply lookup_after_create_as.
  rewrite !lookup_delete_ne by done. apply lookup_delete_eq.
Qed.

Lemma facts_db_FactPitching d :
  ∃ d', facts_db d !! "FactPitching" = materialize <$> FactPitching_select d'
      ∧ d' !! "pitching" = d !! "pitching" ∧ d' !! "gameinfo" = d !! "gameinfo".
Proof.
  unfold facts_db. eexists. split; [|split].
  - rewrite lookup_after_create_as_ne by done.
    apply lookup_after_create_as.
    rewrite lookup_after_create_as_ne by done.
    rewrite lookup_delete_ne by done. apply lookup_delete_eq.
  - rewrite lookup_after_create_as_ne by done. by rewrite !lookup_delete_ne by done.
  - rewrite lookup_after_create_as_ne by done. by rewrite !lookup_delete_ne by done.
Qed.

(** ** Indexes *)

Lemma keeps_contents_refl d : keeps_contents d d.
Proof. intros n. by destruct (d !! n). Qed.

Lemma keeps_contents_trans d1 d2 d3 :
  keeps_contents d1 d2 → keeps_contents d2 d3 → keeps_contents d1 d3.
Proof.
  intros H12 H23 n. specialize (H12 n). specialize (H23 n).
  destruct (d1 !! n), (d2 !! n), (d3 !! n); try done.
  destruct H12 as (? & ? & ? & ?), H23 as (? & ? & ? & ?).
  repeat split; try congruence. eauto.
Qed.

Lemma create_index_keeps_contents idx tbl col d :
  keeps_contents d (after (create_index_if_not_exists idx tbl col) d).
Proof.
  unfold after, create_index_if_not_exists.
  destruct (d !! tbl) as [t|] eqn:Et; cbn [mbind option_bind];
    [|apply keeps_contents_refl].
  destruct (d !! idx); [apply keeps_contents_refl|].
  destruct (index_exists idx d) eqn:Ex; [apply keeps_contents_refl|].
  destruct (index_of col (cols t)) as [k|]; cbn [mbind option_bind];
    [|apply keeps_contents_refl].
  intros n. destruct (decide (n = tbl)) as [->|Hne].
  - rewrite Et, lookup_insert_eq. cbn [cols pkey rows indexes].
    repeat split. intros i c Hi.
    destruct (decide (i = idx)) as [->|Hi'].
    + exfalso. unfold index_exists in Ex. apply bool_decide_eq_false in Ex.
      apply Ex. exists tbl, t. split; [done|]. by exists c.
    + by rewrite lookup_insert_ne.
  - rewrite lookup_insert_ne by done. by destruct (d !! n).
Qed.

Lemma create_indexes_fold l : ∀ d,
  keeps_contents d
    (foldl (λ d '(idx, tbl, col), after (create_index_if_not_exists idx tbl col) d)
           d l).
Proof.
  induction l as [|[[idx tbl] col] l IH]; intros d; simpl.
  - apply keeps_contents_refl.
  - eapply keeps_contents_trans; [apply create_index_keeps_contents|apply IH].
Qed.

(** X9. [_create_indexes] always returns normally and touches nothing but
    indexes: the database has the same tables after it as before, every
    table has the same columns, primary key and rows, and every index that
    existed still exists on the same column. *)
Theorem create_indexes_keeps_contents (w : world) :
  ∃ w', _create_indexes w = Some (Ok tt, w') ∧ keeps_contents (wdb w) (wdb w').
Proof.
  destruct (create_indexes_eq w) as [out Hout]. eexists. split; [exact Hout|].
  cbn [wdb]. apply create_indexes_fold.
Qed.

Lemma complaint_master sql name d :
  complaint sql (query (λ d, Some (select_master name d))) d = [].
Proof. done. Qed.

(** ** The date-format check *)

(** X11. The [try] block that checks the date format never changes the
    database and never lets a ValueError escape.  When it completes, the
    minimum date it hands on is a text that [strptime] accepts; in the
    timestamp branch both dates are the texts written by [strftime], which
    parse back to the dates [fromtimestamp] gave; in the text branch the
    two values are handed on as they are, the maximum date unchecked. *)
Theorem date_formats_outcome (fts : Z → outcome Z) (min_date max_date : value)
    (w w' : world) (r : outcome (option (value * value))) :
  (∀ t d, fts t = Ok d → 1 ≤ d ≤ MAXORDINAL) →
  date_formats fts min_date max_date w = Some (r, w') →
  wdb w' = wdb w
  ∧ r ≠ Raise ValueError
  ∧ ∀ a b, r = Ok (Some (a, b)) →
      w' = w
      ∧ (∃ s d, a = VText s ∧ strptime s = Ok d)
      ∧ (∀ t, min_date = VInt t →
           ∃ t2 d d2, max_date = VInt t2 ∧ fts t = Ok d ∧ fts t2 = Ok d2
             ∧ a = VText (strftime d) ∧ b = VText (strftime d2)
             ∧ strptime (strftime d) = Ok d ∧ strptime (strftime d2) = Ok d2)
      ∧ (∀ s, min_date = VText s → a = min_date ∧ b = max_date).
Proof.
  intros Hfts Hrun. unfold date_formats in Hrun.
  destruct min_date as [|t|s].
  - unfold try_except, bind, strptime_value, raise, except_ValueError in Hrun.
    injection Hrun as <- <-. repeat split; done.
  - unfold bind at 1, try_except at 1, bind at 1, fromtimestamp_value at 1, lift at 1
      in Hrun.
    destruct (fts t) as [d|e] eqn:Et.
    + cbn [ret] in Hrun. unfold ret at 1 in Hrun.
      unfold try_except, bind, fromtimestamp_value in Hrun.
      destruct max_date as [|t2|s2].
      * unfold raise, except_ValueError in Hrun. injection Hrun as <- <-.
        repeat split; done.
      * unfold lift in Hrun. destruct (fts t2) as [d2|e2] eqn:Et2.
        -- unfold ret in Hrun. injection Hrun as <- <-.
           split; [done|]. split; [done|]. intros a b [= <- <-].
           pose proof (strptime_strftime d (Hfts _ _ Et)) as Hd.
           pose proof (strptime_strftime d2 (Hfts _ _ Et2)) as Hd2.
           split; [done|]. split; [eauto|]. split; [|done].
           intros t' [= <-]. exists t2, d, d2. repeat split; done.
        -- destruct e2; unfold except_ValueError, bind, print, ret, raise in Hrun;
             injection Hrun as <- <-; repeat split; done.
      * unfold raise, except_ValueError in Hrun. injection Hrun as <- <-.
        repeat split; done.
    + destruct e; unfold except_ValueError, bind, print, ret, raise in Hrun;
        injection Hrun as <- <-; repeat split; done.
  - unfold try_except, bind, strptime_value, lift in Hrun.
    destruct (strptime s) as [d|e] eqn:Es.
    + unfold ret in Hrun. injection Hrun as <- <-.
      split; [done|]. split; [done|]. intros a b [= <- <-].
      split; [done|]. split; [eauto|]. split; [done|]. by intros s' [= <-].
    + destruct e; unfold except_ValueError, bind, print, ret, raise in Hrun;
        injection Hrun as <- <-; repeat split; done.
Qed.

Lemma date_formats_outcome_witness :
  strptime (strftime 737850) = Ok 737850
  ∧ strptime (strftime 737852) = Ok 737852.
Proof.
  destruct (date_formats_outcome
              (λ t, if t =? 0 then Ok 737850 else Ok 737852) (VInt 0) (VInt 172800)
              {| wdb := ∅; wout := [] |} {| wdb := ∅; wout := [] |}
              (Ok (Some (VText (strftime 737850), VText (strftime 737852)))))
    as (_ & _ & H).
  - intros t d Ht. unfold MAXORDINAL. destruct (t =? 0); injection Ht as <-; lia.
  - vm_compute. reflexivity.
  - destruct (H _ _ eq_refl) as (_ & _ & Hint & _).
    destruct (Hint 0 eq_refl) as (t2 & d & d2 & Ht2 & Hd & Hd2 & _ & _ & H1 & H2).
    injection Ht2 as <-. injection Hd as <-. injection Hd2 as <-. by split.
Defined.

(** * Further properties of the union combiner *)

Lemma dict_append_keys suffix table groups :
  (dict_append suffix table groups).*1
  = if decide (suffix ∈ groups.*1) then groups.*1 else (groups.*1 ++ [suffix])%list.
Proof.
  induction groups as [|[k ts] rest IH]; cbn [dict_append].
  - case_decide as Hin; [by apply elem_of_nil in Hin|done].
  - destruct (decide (k = suffix)) as [->|Hk]; rewrite !fmap_cons; cbn [fst].
    + clear IH. case_decide as Hin; [done|]. exfalso. apply Hin, list_elem_of_here.
    + rewrite IH. clear IH. destruct (decide (suffix ∈ rest.*1)) as [Hin|Hin].
      * case_decide as Hin'; [done|]. exfalso. by apply Hin', list_elem_of_further.
      * case_decide as Hin'; [|done].
        apply elem_of_cons in Hin' as [->|H]; done.
Qed.

Lemma dict_append_NoDup suffix table groups :
  NoDup (groups.*1) → NoDup ((dict_append suffix table groups).*1).
Proof.
  intros Hnd. rewrite dict_append_keys. case_decide as Hin; [done|].
  apply NoDup_app. split; [done|]. split; [|apply NoDup_singleton].
  intros x Hx ->%list_elem_of_singleton. done.
Qed.

Lemma dict_append_members suffix table groups :
  dict_append suffix table groups ≫= snd ≡ₚ (groups ≫= snd) ++ [table].
Proof.
  induction groups as [|[k ts] rest IH]; simpl; [done|].
  case_decide as Hk.
  - rewrite !bind_cons. cbn [snd]. rewrite <- !app_assoc.
    apply Permutation_app_head. apply Permutation_app_comm.
  - rewrite !bind_cons. cbn [snd]. rewrite IH. by rewrite app_assoc.
Qed.

Lemma dict_append_nonempty suffix table groups :
  (∀ k ts, (k, ts) ∈ groups → ts ≠ []) →
  ∀ k ts, (k, ts) ∈ dict_append suffix table groups → ts ≠ [].
Proof.
  induction groups as [|[k0 ts0] rest IH]; simpl; intros Hne k ts Hin.
  - apply list_elem_of_singleton in Hin. injection Hin as -> ->. done.
  - assert (Hrest : ∀ k ts, (k, ts) ∈ rest → ts ≠ []).
    { intros k' ts' H. apply (Hne k' ts'). by apply list_elem_of_further. }
    case_decide as Hk.
    + apply elem_of_cons in Hin as [Hin|Hin].
      * injection Hin as -> ->. by destruct ts0.
      * by apply (Hrest k ts).
    + apply elem_of_cons in Hin as [Hin|Hin].
      * injection Hin as -> ->. apply (Hne k0 ts0). apply list_elem_of_here.
      * by apply (IH Hrest k ts).
Qed.

Lemma group_tables_fold_partition tables : ∀ groups,
  NoDup (groups.*1) → (∀ k ts, (k, ts) ∈ groups → ts ≠ []) →
  let groups' :=
    foldl (λ groups table,
             if year_pattern table
             then dict_append (slice_from 4 table) table groups else groups)
          groups tables in
  NoDup (groups'.*1)
  ∧ (∀ k ts, (k, ts) ∈ groups' → ts ≠ [])
  ∧ groups' ≫= snd
    ≡ₚ (groups ≫= snd) ++ filter (λ t, year_pattern t = true) tables.
Proof.
  induction tables as [|t tables IH]; intros groups Hnd Hne; simpl.
  - by rewrite app_nil_r.
  - rewrite filter_cons. destruct (year_pattern t) eqn:Hp.
    + rewrite decide_True by done.
      destruct (IH (dict_append (slice_from 4 t) t groups)) as (H1 & H2 & H3).
      * by apply dict_append_NoDup.
      * by apply dict_append_nonempty.
      * split; [done|]. split; [done|].
        rewrite H3, dict_append_members. rewrite <- app_assoc. done.
    + rewrite decide_False by done. by apply IH.
Qed.

(** X12. The grouping loop sorts the year-prefixed tables of the database
    into disjoint groups: no two groups have the same suffix, no group is
    empty, every table whose name matches the pattern is a member of the
    group of its suffix, and no table is listed twice, in one group or in
    two; the members of all groups together are exactly the tables whose
    names match the pattern. *)
Theorem group_tables_partition (d : db) :
  let groups := group_tables (table_names d) in
  NoDup (groups.*1)
  ∧ (∀ sfx ts, (sfx, ts) ∈ groups → ts ≠ [])
  ∧ NoDup (groups ≫= snd)
  ∧ (∀ t, t ∈ groups ≫= snd ↔ is_Some (d !! t) ∧ year_pattern t = true)
  ∧ (∀ t, is_Some (d !! t) → year_pattern t = true →
       ∃ ts, (slice_from 4 t, ts) ∈ groups ∧ t ∈ ts).
Proof.
  intros groups.
  destruct (group_tables_fold_partition (table_names d) []) as (H1 & H2 & H3).
  { apply NoDup_nil_2. }
  { intros k ts H. by apply elem_of_nil in H. }
  fold (group_tables (table_names d)) in H1, H2, H3. fold groups in H1, H2, H3.
  simpl in H3.
  assert (Hmem : ∀ t, t ∈ groups ≫= snd ↔ is_Some (d !! t) ∧ year_pattern t = true).
  { intros t. rewrite H3, list_elem_of_filter, elem_of_table_names. tauto. }
  split; [done|]. split; [done|]. split.
  { rewrite H3. apply NoDup_filter. unfold table_names.
    apply NoDup_fst_map_to_list. }
  split; [done|].
  intros t Ht Hp. assert (Hin : t ∈ groups ≫= snd) by (by apply Hmem).
  apply list_elem_of_bind in Hin as ([sfx ts] & Hts & Hg). cbn [snd] in Hts.
  destruct (group_tables_ok (table_names d) sfx ts t Hg Hts) as (_ & <- & _).
  by exists ts.
Qed.

Lemma process_groups_spec (d : db) groups : ∀ w,
  NoDup (groups.*1) →
  (∀ sfx ts t, (sfx, ts) ∈ groups → t ∈ ts →
     year_pattern t = true ∧ slice_from 4 t = sfx) →
  (∀ sfx ts, (sfx, ts) ∈ groups → (2 ≤ length ts)%nat →
     year_pattern sfx = false
     ∧ (∀ t, t ∈ ts → ∃ T, d !! t = Some T ∧ table_wf T)
     ∧ (∀ t t', t ∈ ts → t' ∈ ts → column_count d t = column_count d t')) →
  (∀ t, year_pattern t = true → wdb w !! t = d !! t) →
  ∃ w',
    process_groups groups w = Some (Ok tt, w')
    ∧ (∀ t, year_pattern t = true → wdb w' !! t = d !! t)
    ∧ (∀ sfx ts, (sfx, ts) ∈ groups → (2 ≤ length ts)%nat →
         ∃ T, wdb w' !! sfx = Some T ∧ rows T = ts ≫= tagged_rows d)
    ∧ (∀ n, n ∉ groups.*1 → wdb w' !! n = wdb w !! n).
Proof.
  induction groups as [|[sfx ts] rest IH]; intros w Hnd Hok Hgood Hinv.
  - exists w. split; [done|]. split; [done|]. split; [|done].
    intros sfx ts H. by apply elem_of_nil in H.
  - rewrite fmap_cons in Hnd. cbn [fst] in Hnd.
    apply NoDup_cons in Hnd as [Hsfx Hnd].
    assert (Hok' : ∀ sfx ts t, (sfx, ts) ∈ rest → t ∈ ts →
              year_pattern t = true ∧ slice_from 4 t = sfx).
    { intros s l t H. apply (Hok s l t). by apply list_elem_of_further. }
    assert (Hgood' : ∀ sfx ts, (sfx, ts) ∈ rest → (2 ≤ length ts)%nat →
              year_pattern sfx = false
              ∧ (∀ t, t ∈ ts → ∃ T, d !! t = Some T ∧ table_wf T)
              ∧ (∀ t t', t ∈ ts → t' ∈ ts → column_count d t = column_count d t')).
    { intros s l H. apply (Hgood s l). by apply list_elem_of_further. }
    cbn [process_groups]. unfold bind at 1.
    destruct (decide (length ts < 2)%nat) as [Hshort|Hlong].
    + rewrite combine_group_short by done.
      destruct (IH {| wdb := wdb w; wout := (wout w ++ [Skipping sfx])%list |}
                  Hnd Hok' Hgood' Hinv) as (w' & Hrun & Hinv' & Hmem & Hother).
      exists w'. split; [done|]. split; [done|]. split.
      * intros s l Hin Hlen. apply elem_of_cons in Hin as [Hin|Hin].
        -- injection Hin as -> ->. lia.
        -- by apply Hmem.
      * intros n Hn. rewrite fmap_cons in Hn. cbn [fst] in Hn.
        rewrite Hother; [done|]. intros H. apply Hn. by apply list_elem_of_further.
    + assert (Hlen : (2 ≤ length ts)%nat) by lia.
      destruct (Hgood sfx ts (list_elem_of_here _ _) Hlen) as (Hp & Hwf & Huni).
      assert (Hsame : ∀ t, t ∈ ts → wdb w !! t = d !! t).
      { intros t Ht. apply Hinv.
        by destruct (Hok sfx ts t (list_elem_of_here _ _) Ht). }
      destruct (combine_group_spec sfx ts w Hlen) as (out & cs & Hrun1 & _).
      { intros Hin. destruct (Hok sfx ts sfx (list_elem_of_here _ _) Hin) as [H1 H2].
        by apply (suffix_not_member sfx sfx). }
      { intros t Ht. rewrite (Hsame t Ht). by apply Hwf. }
      { intros t t' Ht Ht'. unfold column_count, pragma_table_info.
        rewrite (Hsame t Ht), (Hsame t' Ht'). by apply Huni. }
      rewrite Hrun1.
      match type of Hrun1 with _ = Some (_, ?w1) =>
        destruct (IH w1 Hnd Hok' Hgood') as (w' & Hrun & Hinv' & Hmem & Hother)
      end.
      { intros t Ht. cbn [wdb]. rewrite lookup_insert_ne; [by apply Hinv|].
        intros ->. congruence. }
      exists w'. split; [done|]. split; [done|]. split.
      * intros s l Hin Hl. apply elem_of_cons in Hin as [Hin|Hin].
        -- injection Hin as -> ->. rewrite (Hother sfx Hsfx). cbn [wdb].
           rewrite lookup_insert_eq. eexists. split; [done|].
           cbn [rows materialize rrows]. by apply tagged_rows_agree.
        -- by apply Hmem.
      * intros n Hn. rewrite fmap_cons in Hn. cbn [fst] in Hn.
        rewrite Hother by (intros H; apply Hn; by apply list_elem_of_further).
        cbn [wdb]. apply lookup_insert_ne. intros ->. apply Hn, list_elem_of_here.
Qed.

(** ** An unsupported date format *)

Lemma create_DimDate_unsupported fts fuel w g s :
  wdb w !! "gameinfo" = Some g →
  "date" ∈ cols g →
  sql_min (column g "date") = VText s →
  strptime s = Raise ValueError →
  create_DimDate fts fuel w
  = Some (Ok tt,
          {| wdb := wdb w;
             wout := (wout w ++ [Say "Creating DimDate...";
                                 UnsupportedDate (VText s)])%list |}).
Proof.
  intros Hg Hdate Hmin Hs.
  unfold create_DimDate, bind at 1 2 3, print.
  rewrite !execute_query_eq. cbn [wdb wout]. rewrite !after_query.
  unfold fetched, complaint, query, select_min, select_max.
  rewrite !(column_values_eq _ _ _ _ Hg Hdate).
  cbn [mbind option_bind is_empty orb first_cell].
  change (field 0 [?v]) with v. rewrite Hmin.
  unfold bind, date_formats, try_except, strptime_value, lift. rewrite Hs.
  unfold except_ValueError, bind, print, ret. cbn [wdb wout].
  by rewrite !app_nil_r, <- app_assoc.
Qed.

Lemma keeps_contents_None d d' n :
  keeps_contents d d' → d !! n = None → d' !! n = None.
Proof.
  intros H Hn. specialize (H n). rewrite Hn in H. by destruct (d' !! n).
Qed.

Lemma indexes_db_keeps_contents d : keeps_contents d (indexes_db d).
Proof. unfold indexes_db. apply create_indexes_fold. Qed.

(** X16. When the earliest game date is a text that [strptime] rejects,
    the dimension stage prints the warning about the unsupported format
    and returns without creating DimDate, and the build goes on: it ends
    normally with the three other dimension tables, the fact tables and
    the indexes built as usual, and without any DimDate table. *)
Theorem build_without_DimDate fts fuel (d : db) (g : table) (s : string) :
  missing_tables d = [] →
  d !! "gameinfo" = Some g →
  "date" ∈ cols g →
  sql_min (column g "date") = VText s →
  strptime s = Raise ValueError →
  (∀ w, wdb w = d →
     ∃ out, _create_dimension_tables fts fuel w
            = Some (Ok tt,
                    {| wdb := static_dims_db d;
                       wout := (out ++ [Say "Creating DimDate...";
                                        UnsupportedDate (VText s)])%list |}))
  ∧ ∃ w, build fts fuel d = Some (Ok tt, w)
       ∧ wdb w = indexes_db (facts_db (static_dims_db d))
       ∧ wdb w !! "DimDate" = None.
Proof.
  intros Hmissing Hg Hdate Hmin Hs.
  assert (Hdims : ∀ w, wdb w = d →
            ∃ out, _create_dimension_tables fts fuel w
                   = Some (Ok tt,
                           {| wdb := static_dims_db d;
                              wout := (out ++ [Say "Creating DimDate...";
                                               UnsupportedDate (VText s)])%list |})).
  { intros w Hw. destruct (create_dimension_tables_split fts fuel w) as [out0 Hsplit].
    rewrite Hsplit, Hw. exists out0.
    assert (Hg' : wdb {| wdb := static_dims_db d; wout := out0 |} !! "gameinfo"
                  = Some g).
    { cbn [wdb]. rewrite static_dims_db_source; [exact Hg|].
      apply list_elem_of_here. }
    rewrite (create_DimDate_unsupported fts fuel _ g s Hg' Hdate Hmin Hs).
    reflexivity. }
  split; [exact Hdims|].
  pose proof (build_db fts fuel d Hmissing) as Hdb.
  destruct (Hdims {| wdb := d;
                     wout := [Say "Starting data warehouse build...";
                              Say "Connected to database"] |} eq_refl) as [out Hout].
  rewrite Hout in Hdb. cbn [db_after_dimensions wdb] in Hdb.
  destruct (build fts fuel d) as [[o w]|] eqn:Hrun; [|done].
  cbn [fmap option_fmap option_map snd] in Hdb. injection Hdb as Hw.
  pose proof (build_outcome _ _ _ _ _ Hrun) as ->.
  exists w. split; [done|]. split; [done|]. rewrite Hw.
  apply (keeps_contents_None (facts_db (static_dims_db d))).
  - apply indexes_db_keeps_contents.
  - rewrite facts_db_footprint; [apply static_dims_db_DimDate|].
    unfold fact_tables. rewrite !elem_of_cons, elem_of_nil.
    intros [H|[H|[H|[]]]]; discriminate H.
Qed.

Lemma build_without_DimDate_witness :
  ∃ w, build no_timestamp 10 (season_db [VText "03/01/2021"]) = Some (Ok tt, w)
     ∧ wdb w !! "DimDate" = None.
Proof.
  destruct (build_without_DimDate no_timestamp 10 (season_db [VText "03/01/2021"])
              (sample_table (cols league_gameinfo) (game_on <$> [VText "03/01/2021"]))
              "03/01/2021") as (_ & w & Hrun & _ & Hnone).
  - vm_compute. reflexivity.
  - vm_compute. reflexivity.
  - apply (bool_decide_unpack _). vm_compute. exact I.
  - vm_compute. reflexivity.
  - vm_compute. reflexivity.
  - exists w. split; [exact Hrun|exact Hnone].
Defined.

(** ** Row counts of the fact tables *)

Lemma select_join_length items t1 a1 t2 a2 on1 on2 d q :
  select_join items t1 a1 t2 a2 on1 on2 d = Some q →
  ∃ x1 x2 f1 f2,
    d !! t1 = Some x1 ∧ d !! t2 = Some x2
    ∧ compile [(a1, cols x1); (a2, cols x2)] on1 = Some f1
    ∧ compile [(a1, cols x1); (a2, cols x2)] on2 = Some f2
    ∧ length (rrows q)
      = length (filter (λ r, holds (sql_test OpEq (f1 r) (f2 r)) = true)
                  (r1 ← rows x1; r2 ← rows x2; [(r1 ++ r2)%list])).
Proof.
  unfold select_join. intros H.
  destruct (d !! t1) as [x1|]; [|done]. destruct (d !! t2) as [x2|]; [|done].
  cbn [mbind option_bind] in H.
  destruct (compile _ on1) as [f1|] eqn:E1; [|done].
  destruct (compile _ on2) as [f2|] eqn:E2; [|done].
  cbn [mbind option_bind] in H.
  destruct (compile_all _ _) as [fs|] eqn:E3; [|done].
  cbn [mbind option_bind] in H. injection H as <-.
  exists x1, x2, f1, f2. do 4 (split; [done|]).
  cbn [rrows]. by rewrite length_fmap.
Qed.

Lemma filter_pairs_length (P : row → Prop) `{!∀ r, Decision (P r)} (r1 : row)
    (l2 : list row) :
  length (filter P (r2 ← l2; [(r1 ++ r2)%list]))
  = length (filter (λ r2, P (r1 ++ r2)%list) l2).
Proof.
  induction l2 as [|r2 l2 IH]; [done|].
  rewrite bind_cons. cbn [app]. rewrite !filter_cons.
  destruct (decide (P (r1 ++ r2)%list)); simpl; by rewrite IH.
Qed.

Lemma filter_key_length (Q : row → Prop) `{!∀ r, Decision (Q r)}
    (key : row → value) (v : value) (l : list row) :
  (∀ r, r ∈ l → Q r → key r = v) → NoDup (key <$> l) →
  (length (filter Q l) ≤ 1)%nat
  ∧ ((∃ r, r ∈ l ∧ Q r) → length (filter Q l) = 1%nat).
Proof.
  induction l as [|r l IH]; intros Hkey Hnd.
  - split; [simpl; lia|]. intros (r & Hr & _). by apply elem_of_nil in Hr.
  - rewrite fmap_cons in Hnd. apply NoDup_cons in Hnd as [Hr Hnd].
    assert (Hkey' : ∀ r, r ∈ l → Q r → key r = v).
    { intros x Hx. apply Hkey. by apply list_elem_of_further. }
    destruct (IH Hkey' Hnd) as [Hle Heq]. rewrite filter_cons.
    destruct (decide (Q r)) as [Hq|Hq].
    + assert (Hnil : filter Q l = []).
      { destruct (filter Q l) as [|x xs] eqn:E; [done|]. exfalso.
        assert (Hx : x ∈ filter Q l) by (rewrite E; apply list_elem_of_here).
        apply list_elem_of_filter in Hx as [HQx Hx].
        apply Hr. apply list_elem_of_fmap. exists x. split; [|done].
        rewrite (Hkey' x Hx HQx). apply Hkey; [apply list_elem_of_here|done]. }
      rewrite Hnil. simpl. split; [lia|done].
    + split; [done|]. intros (x & Hx & HQx).
      apply elem_of_cons in Hx as [->|Hx]; [done|]. apply Heq. eauto.
Qed.

Lemma join_length (P : row → Prop) `{!∀ r, Decision (P r)}
    (key1 key2 : row → value) (l1 l2 : list row) :
  (∀ r1 r2, r1 ∈ l1 → r2 ∈ l2 → P (r1 ++ r2)%list → key2 r2 = key1 r1) →
  NoDup (key2 <$> l2) →
  (length (filter P (r1 ← l1; r2 ← l2; [(r1 ++ r2)%list])) ≤ length l1)%nat
  ∧ ((∀ r1, r1 ∈ l1 → ∃ r2, r2 ∈ l2 ∧ P (r1 ++ r2)%list) →
     length (filter P (r1 ← l1; r2 ← l2; [(r1 ++ r2)%list])) = length l1).
Proof.
  intros Hkey Hnd. induction l1 as [|r1 l1 IH].
  - split; [simpl; lia|done].
  - rewrite bind_cons, filter_app, length_app, filter_pairs_length.
    destruct IH as [Hle Heq].
    { intros x y Hx. apply Hkey. by apply list_elem_of_further. }
    destruct (filter_key_length (λ r2, P (r1 ++ r2)%list) key2 (key1 r1) l2)
      as [Hle1 Heq1]; [|done|].
    { intros r2 Hr2. apply Hkey; [apply list_elem_of_here|done]. }
    split; [simpl; lia|]. intros Hall.
    rewrite Heq1 by (apply Hall, list_elem_of_here).
    rewrite Heq; [done|]. intros x Hx. apply Hall. by apply list_elem_of_further.
Qed.

Lemma join_row_count items src a (d : db) (q : relation) (b g : table) :
  select_join items src a "gameinfo" "g" (QCol a "gid") (QCol "g" "gid") d = Some q →
  a ≠ "g" →
  d !! src = Some b → d !! "gameinfo" = Some g →
  Forall (λ r, length r = length (cols b)) (rows b) →
  NoDup (column g "gid") →
  (length (rrows q) ≤ length (rows b))%nat
  ∧ ((∀ rb, rb ∈ rows b →
        cell b "gid" rb ≠ VNull ∧ cell b "gid" rb ∈ column g "gid") →
     length (rrows q) = length (rows b)).
Proof.
  intros Hq Ha Hb Hg Hwf Hnd.
  apply select_join_length in Hq as (x1 & x2 & f1 & f2 & H1 & H2 & Hf1 & Hf2 & Hlen).
  assert (x1 = b) as -> by congruence. assert (x2 = g) as -> by congruence.
  rewrite compile_qcol_left in Hf1. rewrite compile_qcol_right in Hf2 by done.
  destruct (index_of "gid" (cols b)) as [ib|] eqn:Eib; [|done].
  destruct (index_of "gid" (cols g)) as [ig|] eqn:Eig; [|done].
  injection Hf1 as <-. injection Hf2 as <-. rewrite Hlen.
  assert (Hrow : ∀ rb rg, rb ∈ rows b →
            field ib (rb ++ rg)%list = cell b "gid" rb
            ∧ field (length (cols b) + ig) (rb ++ rg)%list = cell g "gid" rg).
  { intros rb rg Hrb.
    assert (Hl : length rb = length (cols b))
      by (by apply (proj1 (Forall_forall _ _) Hwf)).
    rewrite (cell_field _ _ _ _ Eib), (cell_field _ _ _ _ Eig). split.
    - apply field_app_l. rewrite Hl. by eapply index_of_lt.
    - by apply field_app_r. }
  destruct (join_length
              (λ r, holds (sql_test OpEq (field ib r) (field (length (cols b) + ig) r))
                    = true)
              (cell b "gid") (cell g "gid") (rows b) (rows g)) as [Hle Heq].
  { intros rb rg Hrb Hrg Hon. apply sql_eq_holds in Hon as [Hon _].
    destruct (Hrow rb rg Hrb) as [E1 E2]. congruence. }
  { exact Hnd. }
  split; [exact Hle|]. intros Hall. apply Heq. intros rb Hrb.
  destruct (Hall rb Hrb) as [Hnn Hin]. unfold column in Hin.
  apply list_elem_of_fmap in Hin as (rg & Hk & Hrg). exists rg. split; [done|].
  apply sql_eq_holds. destruct (Hrow rb rg Hrb) as [E1 E2]. rewrite E1, E2. done.
Qed.

(** ** Rows of DimDate *)

(** X18. The row that the DimDate loop inserts for a valid date is
    consistent: date_id and date are the same text, which [strptime]
    reads back as that date; year, month and day are the fields of the
    same date, with the month between 1 and 12 and the day between 1 and
    31; day_of_week is between 0 and 6; and season_period is Regular
    exactly for the months 3 to 10 and Offseason otherwise. *)
Theorem DimDate_row_consistent (k : Z) :
  1 ≤ k ≤ MAXORDINAL →
  ∃ s y m dd wd wk p,
    DimDate_row k
    = [VText s; VText s; VInt y; VInt m; VInt dd; VInt wd; VInt wk; VText p]
    ∧ strptime s = Ok k
    ∧ make_date y m dd = Ok k
    ∧ 1 ≤ y ≤ 9999 ∧ 1 ≤ m ≤ 12 ∧ 1 ≤ dd ≤ 31
    ∧ 0 ≤ wd ≤ 6
    ∧ (p = "Regular" ∧ 3 ≤ m ≤ 10 ∨ p = "Offseason" ∧ (m < 3 ∨ 10 < m)).
Proof.
  intros Hk. destruct (ord2ymd_valid k Hk) as (Hy & Hm & Hd & Hord).
  exists (strftime k), (date_year k), (date_month k), (date_day k),
    (weekday k), (isoweek k), (season_period (date_month k)).
  split; [done|]. split; [by apply strptime_strftime|].
  split; [rewrite make_date_valid by done; by rewrite Hord|].
  split; [done|]. split; [done|]. split.
  { pose proof (days_in_month_le (date_year k) (date_month k) Hm). lia. }
  split; [unfold weekday; pose proof (Z.mod_pos_bound (k + 6) 7); lia|].
  unfold season_period.
  destruct (3 <=? date_month k) eqn:E1; destruct (date_month k <=? 10) eqn:E2;
    cbn [andb]; [left|right..]; (split; [done|lia]).
Qed.

Lemma DimDate_row_consistent_witness :
  strptime "2021-03-01" = Ok 737850.
Proof.
  destruct (DimDate_row_consistent 737850) as (s & y & m & dd & wd & wk & p & Hrow & Hs & _).
  - unfold MAXORDINAL. lia.
  - vm_compute in Hrow. injection Hrow as <- _ _ _ _ _ _ _. exact Hs.
Defined.

(** ** C1: the three flags of a game *)



(** ** C6: the teams of DimTeam *)

(** C6 (as amended). When the dimension build leaves a DimTeam table, the
    seven source columns exist, and provided every value in them is NULL
    or a text that cannot read as a number, the team_id values of DimTeam
    are exactly the values found in allplayers.team, gameinfo.visteam,
    gameinfo.hometeam, teamstats.team, batting.team, pitching.team and
    fielding.team, and no team_id occurs twice. *)
Theorem DimTeam_is_union fts fuel (w w' : world) (o : outcome unit) (t : table) :
  _create_dimension_tables fts fuel w = Some (o, w') →
  wdb w' !! "DimTeam" = Some t →
  ∃ a g s b p f,
    wdb w !! "allplayers" = Some a
    ∧ wdb w !! "gameinfo" = Some g
    ∧ wdb w !! "teamstats" = Some s
    ∧ wdb w !! "batting" = Some b
    ∧ wdb w !! "pitching" = Some p
    ∧ wdb w !! "fielding" = Some f
    ∧ ((∀ v, v ∈ column a "team" ∨ v ∈ column g "visteam" ∨ v ∈ column g "hometeam"
             ∨ v ∈ column s "team" ∨ v ∈ column b "team" ∨ v ∈ column p "team"
             ∨ v ∈ column f "team" → stable_value v) →
       NoDup (column t "team_id")
       ∧ ∀ v, v ∈ column t "team_id"
              ↔ v ∈ column a "team" ∨ v ∈ column g "visteam" ∨ v ∈ column g "hometeam"
                ∨ v ∈ column s "team" ∨ v ∈ column b "team" ∨ v ∈ column p "team"
                ∨ v ∈ column f "team").
Proof.
  intros Hrun Ht.
  rewrite (create_dimension_tables_lookup _ _ _ _ _ _ Hrun) in Ht by done.
  rewrite static_dims_db_DimTeam in Ht.
  destruct (DimTeam_select (wdb w)) as [q|] eqn:Eq; [|done].
  injection Ht as <-. unfold DimTeam_select in Eq.
  apply select_distinct_sub_inv in Eq as (u6 & i & E6 & Hi & Hcols & Hrows).
  apply union_inv in E6 as (u5 & q7 & E5 & Q7 & C6 & R6).
  apply union_inv in E5 as (u4 & q6 & E4 & Q6 & C5 & R5).
  apply union_inv in E4 as (u3 & q5 & E3 & Q5 & C4 & R4).
  apply union_inv in E3 as (u2 & q4 & E2 & Q4 & C3 & R3).
  apply union_inv in E2 as (u1 & q3 & E1 & Q3 & C2 & R2).
  apply union_inv in E1 as (q1 & q2 & Q1 & Q2 & C1 & R1).
  apply team_column_inv in Q1 as (a & Ha & Ca & Ra).
  apply team_column_inv in Q2 as (g & Hg & _ & Rg).
  apply team_column_inv in Q3 as (g' & Hg' & _ & Rg').
  rewrite Hg in Hg'. injection Hg' as <-.
  apply team_column_inv in Q4 as (s & Hs & _ & Rs).
  apply team_column_inv in Q5 as (b & Hb & _ & Rb).
  apply team_column_inv in Q6 as (p & Hp & _ & Rp).
  apply team_column_inv in Q7 as (f & Hf & _ & Rf).
  exists a, g, s, b, p, f. do 6 (split; [done|]). intros _.
  rewrite C6, C5, C4, C3, C2, C1, Ca in Hi. injection Hi as <-.
  assert (Hu : ∀ r, r ∈ rrows u6 ↔
             ∃ v, r = [v] ∧ (v ∈ column a "team" ∨ v ∈ column g "visteam"
               ∨ v ∈ column g "hometeam" ∨ v ∈ column s "team"
               ∨ v ∈ column b "team" ∨ v ∈ column p "team" ∨ v ∈ column f "team")).
  { intros r. rewrite R6, R5, R4, R3, R2, R1, Ra, Rg, Rg', Rs, Rb, Rp, Rf.
    naive_solver. }
  assert (Hsame : (λ x : row, [field 0 x]) <$> rrows u6 = rrows u6).
  { rewrite <- (list_fmap_id (rrows u6)) at 2. apply list_fmap_ext.
    intros k r Hk. apply list_elem_of_lookup_2 in Hk.
    apply Hu in Hk as (v & -> & _). done. }
  rewrite Hsame in Hrows.
  unfold column, cell. cbn [cols rows materialize]. rewrite Hcols, Hrows.
  cbn [index_of]. rewrite decide_True by done.
  split.
  - apply NoDup_fmap_2_strong; [|apply NoDup_remove_dups].
    intros x y Hx Hy Hxy.
    apply elem_of_remove_dups, Hu in Hx as (vx & -> & _).
    apply elem_of_remove_dups, Hu in Hy as (vy & -> & _).
    cbn in Hxy. by rewrite Hxy.
  - intros v. rewrite list_elem_of_fmap. split.
    + intros (r & -> & Hr). apply elem_of_remove_dups, Hu in Hr as (v & -> & Hv).
      exact Hv.
    + intros Hv. exists [v]. split; [done|].
      apply elem_of_remove_dups, Hu. eauto.
Qed.

Lemma DimTeam_is_union_witness :
  NoDup (column league_DimTeam "team_id")
  ∧ (∀ v, v ∈ column league_DimTeam "team_id"
          ↔ v ∈ [VText "BOS"; VText "NYA"; VText "CHN"; VText "SLN"]).
Proof.
  assert (Hrun : _create_dimension_tables no_timestamp 10 league_world
                 = Some (Ok tt, league_dims_world)) by (vm_compute; reflexivity).
  assert (Ht : wdb league_dims_world !! "DimTeam" = Some league_DimTeam)
    by (vm_compute; reflexivity).
  destruct (DimTeam_is_union _ _ _ _ _ _ Hrun Ht)
    as (a & g & s & b & p & f & Ha & Hg & Hs & Hb & Hp & Hf & Hunion).
  assert (Ea : wdb league_world !! "allplayers" = Some clean_allplayers)
    by (vm_compute; reflexivity).
  assert (Eg : wdb league_world !! "gameinfo" = Some league_gameinfo)
    by (vm_compute; reflexivity).
  assert (Es : wdb league_world !! "teamstats" = Some league_teamstats)
    by (vm_compute; reflexivity).
  assert (Eb : wdb league_world !! "batting" = Some league_batting)
    by (vm_compute; reflexivity).
  assert (Ep : wdb league_world !! "pitching" = Some league_pitching)
    by (vm_compute; reflexivity).
  assert (Ef : wdb league_world !! "fielding" = Some league_fielding)
    by (vm_compute; reflexivity).
  rewrite Ea in Ha. rewrite Eg in Hg. rewrite Es in Hs.
  rewrite Eb in Hb. rewrite Ep in Hp. rewrite Ef in Hf.
  injection Ha as <-. injection Hg as <-. injection Hs as <-.
  injection Hb as <-. injection Hp as <-. injection Hf as <-.
  assert (C1 : column clean_allplayers "team"
               = [VText "BOS"; VText "NYA"; VText "NYA"]) by (vm_compute; reflexivity).
  assert (C2 : column league_gameinfo "visteam" = [VText "BOS"; VText "NYA"])
    by (vm_compute; reflexivity).
  assert (C3 : column league_gameinfo "hometeam" = [VText "NYA"; VText "BOS"])
    by (vm_compute; reflexivity).
  assert (C4 : column league_teamstats "team" = [VText "NYA"; VText "BOS"])
    by (vm_compute; reflexivity).
  assert (C5 : column league_batting "team"
               = [VText "BOS"; VText "NYA"; VText "CHN"]) by (vm_compute; reflexivity).
  assert (C6 : column league_pitching "team" = [VText "NYA"])
    by (vm_compute; reflexivity).
  assert (C7 : column league_fielding "team" = [VText "BOS"; VText "SLN"])
    by (vm_compute; reflexivity).
  rewrite C1, C2, C3, C4, C5, C6, C7 in Hunion.
  assert (Hstable : ∀ v, v ∈ [VText "BOS"; VText "NYA"; VText "CHN"; VText "SLN"]
                         → stable_value v).
  { intros v Hv. rewrite !elem_of_cons, elem_of_nil in Hv.
    destruct Hv as [-> | [-> | [-> | [-> | []]]]]; reflexivity. }
  destruct Hunion as [Hnodup Hiff].
  - intros v Hv. apply Hstable. revert Hv.
    rewrite !elem_of_cons, !elem_of_nil. tauto.
  - split; [exact Hnodup|]. intros v. rewrite Hiff.
    rewrite !elem_of_cons, !elem_of_nil. tauto.
Defined.

(** C6, counterexample to the claim as stated: with a team written as the
    integer 1 in teamstats and as the text 1 in fielding, DimTeam holds
    two rows for it: two different places of team_id hold the identifier
    that reads 1. *)
Lemma DimTeam_is_union_counterexample :
  ∃ w' t i j vi vj,
    _create_dimension_tables no_timestamp 10 {| wdb := mixed_team_db; wout := [] |}
    = Some (Ok tt, w')
    ∧ wdb w' !! "DimTeam" = Some t
    ∧ i ≠ j
    ∧ column t "team_id" !! i = Some vi
    ∧ column t "team_id" !! j = Some vj
    ∧ sql_text vi = Some "1"
    ∧ sql_text vj = Some "1".
Proof.
  eexists _, _, 0%nat, 4%nat, (VInt 1), (VText "1").
  split; [vm_compute; reflexivity|].
  split; [vm_compute; reflexivity|].
  split; [done|]. split; [vm_compute; reflexivity|].
  split; [vm_compute; reflexivity|]. split; vm_compute; reflexivity.
Qed.

(** ** C3: the rows of the combined tables *)



(** * Further properties: what a run leaves alone *)

Lemma case_clean_dec (d : db) (names : list string) :
  case_cleanb (table_names d) names = true → case_clean d names.
Proof.
  unfold case_cleanb. intros H k n Hk Hn Hlow.
  apply elem_of_table_names, list_elem_of_In in Hk. apply list_elem_of_In in Hn.
  pose proof (proj1 (forallb_forall _ _) H k Hk) as H1.
  pose proof (proj1 (forallb_forall _ _) H1 n Hn) as H2.
  cbv beta in H2. apply (proj2 (String.eqb_eq _ _)) in Hlow.
  rewrite Hlow in H2. by apply String.eqb_eq.
Qed.

(** X3. On a database in which no table has a name that differs only in
    case from the name of a warehouse table, no exception escapes
    [build_data_warehouse] and a build changes at most the seven warehouse
    tables: every other table, the six source tables among them, is after
    the build what it was before, whether the build completed, was
    aborted or stopped on an error. *)
Theorem build_changes_only_warehouse fts fuel (d : db) (o : outcome unit) (w : world) :
  case_clean d warehouse_tables →
  build fts fuel d = Some (o, w) →
  o = Ok tt ∧ ∀ n, n ∉ warehouse_tables → wdb w !! n = d !! n.
Proof.
  intros _ Hrun. split; [by eapply build_outcome|]. intros n Hn.
  assert ((n ∉ dimension_tables) ∧ (n ∉ fact_tables)) as [Hd Hf].
  { unfold warehouse_tables, dimension_tables, fact_tables in *.
    rewrite !elem_of_cons, !elem_of_nil in *. tauto. }
  destruct (decide (missing_tables d = [])) as [Hm|Hm].
  - pose proof (build_db fts fuel d Hm) as Hdb. rewrite Hrun in Hdb.
    cbn [fmap option_fmap option_map snd] in Hdb.
    destruct (_create_dimension_tables _ _ _) as [[oD wD]|] eqn:ED; [|done].
    apply create_dimension_tables_footprint in ED. cbn [wdb] in ED.
    destruct oD as [[]|e]; cbn [db_after_dimensions] in Hdb; injection Hdb as Hw;
      rewrite Hw.
    + rewrite indexes_db_footprint by (by intros [?|?]%elem_of_app).
      rewrite facts_db_footprint by done. by rewrite ED.
    + by rewrite ED.
  - destruct (build_when_missing fts fuel d Hm) as [out Hout].
    rewrite Hout in Hrun. by injection Hrun as <- <-.
Qed.
Lemma build_changes_only_warehouse_witness :
  league_build = Some (Ok tt, league_built)
  ∧ ∀ n, n ∉ warehouse_tables → wdb league_built !! n = league_db !! n.
Proof.
  split; [reflexivity|].
  apply (build_changes_only_warehouse no_timestamp 10 league_db (Ok tt) league_built).
  - apply case_clean_dec. vm_compute. reflexivity.
  - vm_compute. reflexivity.
Defined.

(** X13. On a database in which the suffixes of the groups of at least
    two tables are plain names and no table has a name that differs only
    in case from one of them, whatever the outcome of a run of the
    combiner, success or error, a table is changed only if its name is
    such a suffix; every other table is after the run what it was before,
    and a group of one table is skipped. *)
Theorem combine_changes_only_combined (d : db) (o : outcome unit) (w : world) :
  case_clean d (combined_suffixes (group_tables (table_names d))) →
  (∀ sfx, sfx ∈ combined_suffixes (group_tables (table_names d)) →
     plain_name sfx = true) →
  combine d = Some (o, w) →
  ∀ n, (∀ ts, (n, ts) ∈ group_tables (table_names d) → (length ts < 2)%nat) →
       wdb w !! n = d !! n.
Proof.
  intros _ _ Hrun n Hn. apply (combine_footprint d o w Hrun).
  unfold combined_suffixes. intros Hin.
  apply list_elem_of_fmap in Hin as ([k ts] & -> & Hin).
  apply list_elem_of_filter in Hin as [Hlen Hin]. cbn [fst snd] in *.
  specialize (Hn ts Hin). lia.
Qed.
Lemma combine_changes_only_combined_witness :
  ∃ w, combine (wdb yearly_world) = Some (Ok tt, w)
     ∧ wdb w !! "2021batting" = wdb yearly_world !! "2021batting".
Proof.
  assert (Hs : combined_suffixes (group_tables (table_names (wdb yearly_world)))
               = ["batting"]) by (vm_compute; reflexivity).
  eexists. split; [vm_compute; reflexivity|].
  apply (combine_changes_only_combined (wdb yearly_world) (Ok tt)).
  - apply case_clean_dec. vm_compute. reflexivity.
  - rewrite Hs. intros sfx Hin. apply list_elem_of_singleton in Hin. by subst sfx.
  - vm_compute. reflexivity.
  - intros ts Hin.
    assert (Hg : group_tables (table_names (wdb yearly_world))
                 = [("batting", ["2021batting"; "2022batting"])])
      by (vm_compute; reflexivity).
    rewrite Hg in Hin. apply list_elem_of_singleton in Hin. discriminate Hin.
Defined.

(** X14. When the suffix and the tables of a group are plain names and no
    table has a name that differs from the suffix only in case, combining
    the group can fail only at the CREATE TABLE statement and only with
    the [sqlite3.Error]: the group then has at least two tables, the table
    that was stored under the suffix has already been dropped and nothing
    replaces it, and every other table is untouched. *)
Theorem combine_group_failure (suffix : string) (year_tables : list string)
    (w w' : world) (e : exn) :
  plain_name suffix = true →
  Forall (λ t, plain_name t = true) year_tables →
  case_clean (wdb w) [suffix] →
  combine_group suffix year_tables w = Some (Raise e, w') →
  e = SqliteError
  ∧ (2 ≤ length year_tables)%nat
  ∧ wdb w' = delete suffix (wdb w)
  ∧ wdb w' !! suffix = None
  ∧ wout w' = (wout w ++ [Combining suffix year_tables])%list.
Proof.
  intros _ _ _. unfold combine_group. destruct (_ <? _)%nat eqn:Hlen; [done|].
  apply Nat.ltb_ge in Hlen.
  unfold bind at 1, print at 1. cbn [wdb wout].
  unfold bind at 1, cursor_execute at 1, drop_table_if_exists. cbn [wdb wout].
  unfold bind at 1. rewrite collect_parts_eq. cbn [wdb].
  unfold bind at 1, cursor_execute at 1. cbn [wdb wout].
  destruct (create_table_as suffix _ (delete suffix (wdb w))) as [[rs d']|] eqn:Ec.
  - unfold create_table_as in Ec. rewrite lookup_delete_eq in Ec.
    destruct (full_union _ _) as [q|]; [|done]. cbn [mbind option_bind] in Ec.
    injection Ec as <- <-.
    unfold bind at 1, print at 1. cbn [wdb wout].
    unfold bind at 1, cursor_execute, query, select_count. cbn [wdb wout].
    rewrite lookup_insert_eq. cbn [mbind option_bind]. done.
  - intros [= <- <-]. cbn [wdb wout]. repeat split; try done.
    apply lookup_delete_eq.
Qed.
Lemma combine_group_failure_witness :
  ∃ w', combine_group "batting" ["2021batting"; "2022batting"]
          {| wdb := divergent_db; wout := [] |} = Some (Raise SqliteError, w')
      ∧ wdb w' !! "batting" = None.
Proof.
  eexists. split; [vm_compute; reflexivity|].
  eapply (combine_group_failure "batting" ["2021batting"; "2022batting"]
            {| wdb := divergent_db; wout := [] |} _ SqliteError).
  - reflexivity.
  - repeat constructor.
  - apply case_clean_dec. vm_compute. reflexivity.
  - vm_compute. reflexivity.
Defined.

(** * Further properties: the joins of the fact tables *)

(** X7. FactBatting is the inner join of batting with gameinfo on gid.
    When the gid values of both tables are texts or NULL and the dh, ph
    and pr values of batting are integers or NULL, every row of
    FactBatting comes from a batting line and a game with the same gid,
    which is not NULL: it copies the selected columns of the batting
    line, takes its game_date from the game, and has each of is_dh,
    is_pinch_hitter and is_pinch_runner equal to 1 when the source value
    is the integer 1 and to 0 otherwise (a NULL source included).
    Conversely every such pair of a batting line and a game gives a row,
    so a batting line without a game is left out. *)
Theorem FactBatting_rows_joined (w w' : world) (o : outcome unit) (t b g : table) :
  _create_fact_tables w = Some (o, w') →
  wdb w' !! "FactBatting" = Some t →
  wdb w !! "batting" = Some b →
  wdb w !! "gameinfo" = Some g →
  Forall (λ r, length r = length (cols b)) (rows b) →
  (∀ r, r ∈ rows b → text_or_null (cell b "gid" r)) →
  (∀ r, r ∈ rows g → text_or_null (cell g "gid" r)) →
  (∀ r c, r ∈ rows b → c ∈ ["dh"; "ph"; "pr"] → int_or_null (cell b c r)) →
  (∀ r, r ∈ rows t →
     ∃ rb rg, rb ∈ rows b ∧ rg ∈ rows g
       ∧ cell b "gid" rb = cell g "gid" rg ∧ cell b "gid" rb ≠ VNull
       ∧ joined_row FactBatting_items "b" t b g r rb rg)
  ∧ (∀ rb rg, rb ∈ rows b → rg ∈ rows g →
       cell b "gid" rb = cell g "gid" rg → cell b "gid" rb ≠ VNull →
       ∃ r, r ∈ rows t ∧ joined_row FactBatting_items "b" t b g r rb rg).
Proof.
  intros Hrun Ht Hb Hg Hwf _ _ _.
  destruct (create_fact_tables_eq w) as [out Heq].
  rewrite Heq in Hrun. injection Hrun as <- <-. cbn [wdb] in Ht.
  rewrite facts_db_FactBatting in Ht.
  destruct (FactBatting_select _) as [q|] eqn:Eq; [|done].
  injection Ht as <-. unfold FactBatting_select in Eq.
  eapply (join_rows_spec _ _ _ _ _ b g) in Eq; [exact Eq|done|..].
  - apply (bool_decide_unpack _). vm_compute. exact I.
  - by rewrite !lookup_delete_ne by done.
  - by rewrite !lookup_delete_ne by done.
  - done.
Qed.
Lemma FactBatting_rows_joined_witness :
  ∃ w' t,
    _create_fact_tables league_world = Some (Ok tt, w')
    ∧ wdb w' !! "FactBatting" = Some t
    ∧ ∀ r, r ∈ rows t →
        ∃ rb rg, rb ∈ rows league_batting ∧ rg ∈ rows league_gameinfo
          ∧ cell league_batting "gid" rb = cell league_gameinfo "gid" rg
          ∧ cell league_batting "gid" rb ≠ VNull
          ∧ joined_row FactBatting_items "b" t league_batting league_gameinfo r rb rg.
Proof.
  eexists _, _. split; [vm_compute; reflexivity|].
  split; [vm_compute; reflexivity|].
  refine (proj1 (FactBatting_rows_joined league_world _ (Ok tt) _
                   league_batting league_gameinfo _ _ _ _ _ _ _ _)).
  - vm_compute. reflexivity.
  - vm_compute. reflexivity.
  - reflexivity.
  - reflexivity.
  - repeat constructor.
  - intros r Hr. cbn [rows league_batting sample_table] in Hr.
    rewrite !elem_of_cons, elem_of_nil in Hr.
    destruct Hr as [-> | [-> | [-> | []]]]; exact I.
  - intros r Hr. cbn [rows league_gameinfo sample_table] in Hr.
    rewrite !elem_of_cons, elem_of_nil in Hr.
    destruct Hr as [-> | [-> | []]]; exact I.
  - intros r c Hr Hc. cbn [rows league_batting sample_table] in Hr.
    rewrite !elem_of_cons, elem_of_nil in Hr. rewrite !elem_of_cons, elem_of_nil in Hc.
    destruct Hr as [-> | [-> | [-> | []]]]; destruct Hc as [-> | [-> | [-> | []]]];
      exact I.
Defined.

(** X8. FactPitching is the inner join of pitching with gameinfo on gid.
    When the gid values of both tables are texts or NULL and the wp, lp
    and save values of pitching are integers or NULL, every row of
    FactPitching comes from a pitching line and a game with the same gid,
    which is not NULL: it copies the selected columns of the pitching
    line, takes its game_date from the game, and has each of
    is_winning_pitcher, is_losing_pitcher and is_save equal to 1 when the
    source value is the integer 1 and to 0 otherwise; conversely every
    such pair of a pitching line and a game gives a row. *)
Theorem FactPitching_rows_joined (w w' : world) (o : outcome unit) (t p g : table) :
  _create_fact_tables w = Some (o, w') →
  wdb w' !! "FactPitching" = Some t →
  wdb w !! "pitching" = Some p →
  wdb w !! "gameinfo" = Some g →
  Forall (λ r, length r = length (cols p)) (rows p) →
  (∀ r, r ∈ rows p → text_or_null (cell p "gid" r)) →
  (∀ r, r ∈ rows g → text_or_null (cell g "gid" r)) →
  (∀ r c, r ∈ rows p → c ∈ ["wp"; "lp"; "save"] → int_or_null (cell p c r)) →
  (∀ r, r ∈ rows t →
     ∃ rp rg, rp ∈ rows p ∧ rg ∈ rows g
       ∧ cell p "gid" rp = cell g "gid" rg ∧ cell p "gid" rp ≠ VNull
       ∧ joined_row FactPitching_items "p" t p g r rp rg)
  ∧ (∀ rp rg, rp ∈ rows p → rg ∈ rows g →
       cell p "gid" rp = cell g "gid" rg → cell p "gid" rp ≠ VNull →
       ∃ r, r ∈ rows t ∧ joined_row FactPitching_items "p" t p g r rp rg).
Proof.
  intros Hrun Ht Hp Hg Hwf _ _ _.
  destruct (create_fact_tables_eq w) as [out Heq].
  rewrite Heq in Hrun. injection Hrun as <- <-. cbn [wdb] in Ht.
  destruct (facts_db_FactPitching (wdb w)) as (d' & Hd' & Hp' & Hg').
  rewrite Hd' in Ht.
  destruct (FactPitching_select d') as [q|] eqn:Eq; [|done].
  injection Ht as <-. unfold FactPitching_select in Eq.
  eapply (join_rows_spec _ _ _ _ _ p g) in Eq; [exact Eq|done|..].
  - apply (bool_decide_unpack _). vm_compute. exact I.
  - by rewrite Hp'.
  - by rewrite Hg'.
  - done.
Qed.
Lemma FactPitching_rows_joined_witness :
  ∃ w' t,
    _create_fact_tables league_world = Some (Ok tt, w')
    ∧ wdb w' !! "FactPitching" = Some t
    ∧ ∀ r, r ∈ rows t →
        ∃ rp rg, rp ∈ rows league_pitching ∧ rg ∈ rows league_gameinfo
          ∧ cell league_pitching "gid" rp = cell league_gameinfo "gid" rg
          ∧ cell league_pitching "gid" rp ≠ VNull
          ∧ joined_row FactPitching_items "p" t league_pitching league_gameinfo r rp rg.
Proof.
  eexists _, _. split; [vm_compute; reflexivity|].
  split; [vm_compute; reflexivity|].
  refine (proj1 (FactPitching_rows_joined league_world _ (Ok tt) _
                   league_pitching league_gameinfo _ _ _ _ _ _ _ _)).
  - vm_compute. reflexivity.
  - vm_compute. reflexivity.
  - reflexivity.
  - reflexivity.
  - repeat constructor.
  - intros r Hr. cbn [rows league_pitching sample_table] in Hr.
    rewrite !elem_of_cons, elem_of_nil in Hr.
    repeat (destruct Hr as [-> | Hr]; [exact I|]). destruct Hr.
  - intros r Hr. cbn [rows league_gameinfo sample_table] in Hr.
    rewrite !elem_of_cons, elem_of_nil in Hr.
    destruct Hr as [-> | [-> | []]]; exact I.
  - intros r c Hr Hc. cbn [rows league_pitching sample_table] in Hr.
    rewrite !elem_of_cons, elem_of_nil in Hr. rewrite !elem_of_cons, elem_of_nil in Hc.
    repeat (destruct Hr as [-> | Hr];
            [destruct Hc as [-> | [-> | [-> | []]]]; exact I|]).
    destruct Hr.
Defined.

(** X17. When the gid values of batting, pitching and gameinfo are texts
    or NULL and no gid occurs twice in gameinfo, the fact tables do not
    multiply rows: FactBatting has at most as many rows as batting and
    FactPitching at most as many as pitching, and exactly as many when
    every line has a gid that is not NULL and is the gid of a game;
    FactGameOutcomes has exactly one row for each row of gameinfo. *)
Theorem fact_tables_row_counts (w w' : world) (o : outcome unit) (b p g : table) :
  _create_fact_tables w = Some (o, w') →
  wdb w !! "batting" = Some b →
  wdb w !! "pitching" = Some p →
  wdb w !! "gameinfo" = Some g →
  Forall (λ r, length r = length (cols b)) (rows b) →
  Forall (λ r, length r = length (cols p)) (rows p) →
  NoDup (column g "gid") →
  (∀ r, r ∈ rows b → text_or_null (cell b "gid" r)) →
  (∀ r, r ∈ rows p → text_or_null (cell p "gid" r)) →
  (∀ r, r ∈ rows g → text_or_null (cell g "gid" r)) →
  (∀ t, wdb w' !! "FactBatting" = Some t →
     (length (rows t) ≤ length (rows b))%nat
     ∧ ((∀ r, r ∈ rows b → cell b "gid" r ≠ VNull ∧ cell b "gid" r ∈ column g "gid") →
        length (rows t) = length (rows b)))
  ∧ (∀ t, wdb w' !! "FactPitching" = Some t →
       (length (rows t) ≤ length (rows p))%nat
       ∧ ((∀ r, r ∈ rows p → cell p "gid" r ≠ VNull ∧ cell p "gid" r ∈ column g "gid") →
          length (rows t) = length (rows p)))
  ∧ (∀ t, wdb w' !! "FactGameOutcomes" = Some t → length (rows t) = length (rows g)).
Proof.
  intros Hrun Hb Hp Hg Hwfb Hwfp Hnd _ _ _.
  destruct (create_fact_tables_eq w) as [out Heq].
  rewrite Heq in Hrun. injection Hrun as <- <-. cbn [wdb].
  split; [|split].
  - intros t Ht. rewrite facts_db_FactBatting in Ht.
    destruct (FactBatting_select _) as [q|] eqn:Eq; [|done].
    injection Ht as <-. unfold FactBatting_select in Eq.
    eapply (join_row_count _ _ _ _ _ b g) in Eq; [exact Eq|done|..]; try done.
    + by rewrite !lookup_delete_ne by done.
    + by rewrite !lookup_delete_ne by done.
  - intros t Ht.
    destruct (facts_db_FactPitching (wdb w)) as (d' & Hd' & Hp' & Hg').
    rewrite Hd' in Ht.
    destruct (FactPitching_select d') as [q|] eqn:Eq; [|done].
    injection Ht as <-. unfold FactPitching_select in Eq.
    eapply (join_row_count _ _ _ _ _ p g) in Eq; [exact Eq|done|..]; try done.
    + by rewrite Hp'.
    + by rewrite Hg'.
  - intros t Ht. unfold facts_db in Ht. rewrite lookup_after_create_as in Ht.
    2:{ rewrite !lookup_after_create_as_ne by done. apply lookup_delete_eq. }
    destruct (FactGameOutcomes_select _) as [q|] eqn:Eq; [|done].
    injection Ht as <-. unfold FactGameOutcomes_select in Eq.
    apply select_from_inv in Eq as (g' & fs & Hg' & _ & _ & Hrows).
    rewrite !lookup_after_create_as_ne in Hg' by done.
    rewrite !lookup_delete_ne in Hg' by done.
    assert (g' = g) as -> by congruence.
    cbn [rows materialize]. by rewrite Hrows, length_fmap.
Qed.
Lemma fact_tables_row_counts_witness :
  ∃ w' t,
    _create_fact_tables league_world = Some (Ok tt, w')
    ∧ wdb w' !! "FactBatting" = Some t
    ∧ (length (rows t) ≤ length (rows league_batting))%nat.
Proof.
  eexists _, _. split; [vm_compute; reflexivity|].
  split; [vm_compute; reflexivity|].
  refine (proj1 (proj1 (fact_tables_row_counts league_world _ (Ok tt)
                          league_batting league_pitching league_gameinfo
                          _ _ _ _ _ _ _ _ _ _) _ _)).
  - vm_compute. reflexivity.
  - reflexivity.
  - reflexivity.
  - reflexivity.
  - repeat constructor.
  - repeat constructor.
  - apply (bool_decide_unpack _). vm_compute. exact I.
  - intros r Hr. cbn [rows league_batting sample_table] in Hr.
    rewrite !elem_of_cons, elem_of_nil in Hr.
    destruct Hr as [-> | [-> | [-> | []]]]; exact I.
  - intros r Hr. cbn [rows league_pitching sample_table] in Hr.
    rewrite !elem_of_cons, elem_of_nil in Hr.
    repeat (destruct Hr as [-> | Hr]; [exact I|]). destruct Hr.
  - intros r Hr. cbn [rows league_gameinfo sample_table] in Hr.
    rewrite !elem_of_cons, elem_of_nil in Hr.
    destruct Hr as [-> | [-> | []]]; exact I.
  - vm_compute. reflexivity.
Defined.

(** * Further properties: the read queries *)

